(** * django_tables2 template tags: a shallow embedding and its properties

    The development follows [django_tables2/templatetags/django_tables2.py]:
    the query-string tags ([set_url_param], [querystring]) and the table
    tags ([render_table], [smart_render_table]).

    Python objects live in a store; the template context, the request, its
    [GET] mapping and the table are shared mutable objects, so every render
    function is a state transformer that may raise.  What the
    module imports from Django, from the table library and from the Python
    standard library (filter expressions, [urlencode], [unicode], template
    lookup and rendering, [paginate]) is taken as a parameter of the
    development. *)

From Stdlib Require Import ZArith String Ascii List.
From stdpp Require Import base option list gmap strings pretty fin_maps.

Open Scope string_scope.
Open Scope list_scope.
Open Scope Z_scope.
Open Scope stdpp_scope.

(** ** Exceptions and results *)

(** The exception classes the module raises, catches or lets through.
    [UnicodeEncodeError] derives from [ValueError]; [OtherException] stands
    for any class outside the [ValueError] hierarchy. *)
Inductive exn : Type :=
| TemplateSyntaxError (msg : string)
| ValueError (msg : string)
| UnicodeEncodeError
| AssertionError (msg : string)
| IndexError (msg : string)
| KeyError (key : string)
| AttributeError (attr : string)
| TypeError (msg : string)
| TokenError (msg : string)
| TemplateDoesNotExist (name : string)
| OtherException (cls msg : string).

(** [except ValueError] *)
Definition is_ValueError (e : exn) : bool :=
  match e with
  | ValueError _ | UnicodeEncodeError => true
  | _ => false
  end.

Inductive result (A : Type) : Type :=
| Ok (a : A)
| Raise (e : exn).
Arguments Ok {A} a.
Arguments Raise {A} e.

Definition raises {A} (r : result A) : bool :=
  match r with Ok _ => false | Raise _ => true end.

(** ** Computations over a mutable state that may raise

    A statement sequence is a function from the state before to the outcome
    and the state after; the state written before an exception is kept. *)
Definition M (S A : Type) : Type := S → result A * S.

Definition ret {S A} (a : A) : M S A := λ s, (Ok a, s).

Definition bind {S A B} (m : M S A) (f : A → M S B) : M S B :=
  λ s, match m s with
       | (Ok a, s') => f a s'
       | (Raise e, s') => (Raise e, s')
       end.

Definition raise {S A} (e : exn) : M S A := λ s, (Raise e, s).

Definition lift {S A} (r : result A) : M S A := λ s, (r, s).

Definition get_state {S} : M S S := λ s, (Ok s, s).

#[global] Instance M_ret {S} : MRet (M S) := @ret S.
#[global] Instance M_bind {S} : MBind (M S) := λ A B f m, bind m f.

(** [try: body except: handler(e)] with a handler for every exception. *)
Definition try_except {S A} (body : M S A) (handler : exn → M S A) : M S A :=
  λ s, match body s with
       | (Ok a, s') => (Ok a, s')
       | (Raise e, s') => handler e s'
       end.

(** [try: body finally: fin]: [fin] always runs; when it raises, its
    exception replaces the outcome of [body]. *)
Definition try_finally {S A} (body : M S A) (fin : M S unit) : M S A :=
  λ s, let '(r, s') := body s in
       match fin s' with
       | (Ok _, s'') => (r, s'')
       | (Raise e, s'') => (Raise e, s'')
       end.

(** [for x in xs: f(x)] *)
Fixpoint for_each {S A} (xs : list A) (f : A → M S unit) : M S unit :=
  match xs with
  | [] => ret tt
  | x :: xs' => bind (f x) (λ _, for_each xs' f)
  end.

(** ** Python values and the object store *)

Definition loc := positive.

(** The values template variables resolve to: [None], integers, text,
    sequences of text, and references to objects of the store. *)
Inductive value : Type :=
| VNone
| VInt (n : Z)
| VStr (s : string)
| VList (l : list string)
| VObj (l : loc).

(** Hashable values as dictionary keys.  Text keys compare by content
    ([str] and [unicode] keys with the same characters are one key),
    objects by identity. *)
Inductive pykey : Type :=
| KNone
| KInt (n : Z)
| KStr (s : string)
| KObj (l : loc).

#[global] Instance pykey_eq_dec : EqDecision pykey.
Proof. solve_decision. Defined.

#[global] Instance pykey_countable : Countable pykey.
Proof.
  refine (inj_countable'
    (λ k, match k with
          | KNone => inl ()
          | KInt n => inr (inl n)
          | KStr s => inr (inr (inl s))
          | KObj l => inr (inr (inr l))
          end)
    (λ x, match x with
          | inl _ => KNone
          | inr (inl n) => KInt n
          | inr (inr (inl s)) => KStr s
          | inr (inr (inr l)) => KObj l
          end) _).
  by intros [].
Defined.

(** The classes of the instances: the request, a table (of the class
    [tables.Table] or of a subclass such as [tables.QuerySetTable]), a query
    set, and any other class. *)
Inductive pyclass : Type :=
| HttpRequest
| Table
| QuerySet
| OtherClass (name : string).

#[global] Instance pyclass_eq_dec : EqDecision pyclass.
Proof. solve_decision. Defined.

(** Objects of the store: instances with their attribute dictionary, the
    request's [QueryDict] (each name maps to the list of its values) and
    plain dictionaries.  An assignment to an attribute is recorded in the
    attribute dictionary; what a property of the table class does with the
    value is not part of the tags. *)
Inductive obj : Type :=
| OInstance (cls : pyclass) (attrs : gmap string value)
| OQueryDict (q : gmap string (list string))
| ODict (d : gmap pykey value).

(** The template context, flattened: Django's [Context] is a stack of
    dictionaries read from the top, and the tags only read it and assign in
    the top dictionary. *)
Record State : Type := mkState {
  st_context : gmap string value;
  st_heap : gmap loc obj
}.

(** [isinstance(v, c)] for the classes the tags test. *)
Definition isinstance (h : gmap loc obj) (v : value) (c : pyclass) : bool :=
  match v with
  | VObj l =>
      match h !! l with
      | Some (OInstance cls _) => bool_decide (cls = c)
      | _ => false
      end
  | _ => false
  end.

(** Truth value of [v] in a condition.  Instances are true (the request and
    the table define neither [__len__] nor [__nonzero__]). *)
Definition truthy (h : gmap loc obj) (v : value) : bool :=
  match v with
  | VNone => false
  | VInt n => negb (n =? 0)
  | VStr s => negb (String.eqb s "")
  | VList l => match l with [] => false | _ => true end
  | VObj l =>
      match h !! l with
      | Some (OQueryDict q) => match map_to_list q with [] => false | _ => true end
      | Some (ODict d) => match map_to_list d with [] => false | _ => true end
      | _ => true
      end
  end.

(** [hash(v)] as far as a dictionary needs it: sequences and dictionaries
    are unhashable. *)
Definition key_of_value (h : gmap loc obj) (v : value) : result pykey :=
  match v with
  | VNone => Ok KNone
  | VInt n => Ok (KInt n)
  | VStr s => Ok (KStr s)
  | VList _ => Raise (TypeError "unhashable type: 'list'")
  | VObj l =>
      match h !! l with
      | Some (OInstance _ _) => Ok (KObj l)
      | _ => Raise (TypeError "unhashable type")
      end
  end.

(** ** Operations on the context and the store *)

(** [context.get(key, otherwise)] *)
Definition context_get (key : string) (otherwise : value) : M State value :=
  λ st, (Ok (default otherwise (st_context st !! key)), st).

(** [key in context] *)
Definition context_contains (key : string) : M State bool :=
  λ st, (Ok (bool_decide (is_Some (st_context st !! key))), st).

(** [context[key]] *)
Definition context_getitem (key : string) : M State value :=
  λ st, match st_context st !! key with
        | Some v => (Ok v, st)
        | None => (Raise (KeyError key), st)
        end.

(** [context[key] = v] *)
Definition context_setitem (key : string) (v : value) : M State unit :=
  λ st, (Ok tt, mkState (<[key:=v]> (st_context st)) (st_heap st)).

(** A new object, at an address not in use. *)
Definition alloc (o : obj) : M State loc :=
  λ st, let l := fresh (dom (st_heap st)) in
        (Ok l, mkState (st_context st) (<[l:=o]> (st_heap st))).

(** [v.name] *)
Definition getattr (v : value) (name : string) : M State value :=
  λ st, match v with
        | VObj l =>
            match st_heap st !! l with
            | Some (OInstance _ attrs) =>
                match attrs !! name with
                | Some x => (Ok x, st)
                | None => (Raise (AttributeError name), st)
                end
            | _ => (Raise (AttributeError name), st)
            end
        | _ => (Raise (AttributeError name), st)
        end.

(** [v.name = x] *)
Definition setattr (v : value) (name : string) (x : value) : M State unit :=
  λ st, match v with
        | VObj l =>
            match st_heap st !! l with
            | Some (OInstance c attrs) =>
                (Ok tt, mkState (st_context st)
                          (<[l:=OInstance c (<[name:=x]> attrs)]> (st_heap st)))
            | _ => (Raise (AttributeError name), st)
            end
        | _ => (Raise (AttributeError name), st)
        end.

(** [del v.name] *)
Definition delattr (v : value) (name : string) : M State unit :=
  λ st, match v with
        | VObj l =>
            match st_heap st !! l with
            | Some (OInstance c attrs) =>
                match attrs !! name with
                | Some _ =>
                    (Ok tt, mkState (st_context st)
                              (<[l:=OInstance c (delete name attrs)]> (st_heap st)))
                | None => (Raise (AttributeError name), st)
                end
            | _ => (Raise (AttributeError name), st)
            end
        | _ => (Raise (AttributeError name), st)
        end.

#[global] Instance KStr_inj : Inj (=) (=) KStr.
Proof. by intros s1 s2 [= ->]. Qed.

(** The items [dict(q)] copies out of a [QueryDict]: the underlying
    dictionary maps each name to the list of its values. *)
Definition dict_of_QueryDict (q : gmap string (list string)) : gmap pykey value :=
  kmap KStr (VList <$> q).

(** [dict(v)]: a new dictionary with the items of the mapping [v].  Only
    mappings of the store are copied; another argument is reported as a
    [TypeError]. *)
Definition dict (v : value) : M State loc :=
  λ st, match v with
        | VObj g =>
            match st_heap st !! g with
            | Some (OQueryDict q) => alloc (ODict (dict_of_QueryDict q)) st
            | Some (ODict d) => alloc (ODict d) st
            | _ => (Raise (TypeError "object is not iterable"), st)
            end
        | _ => (Raise (TypeError "object is not iterable"), st)
        end.

(** [params[k] = v] on the dictionary at [p] *)
Definition dict_setitem (p : loc) (k : pykey) (v : value) : M State unit :=
  λ st, match st_heap st !! p with
        | Some (ODict d) =>
            (Ok tt, mkState (st_context st) (<[p:=ODict (<[k:=v]> d)]> (st_heap st)))
        | _ => (Raise (TypeError "object does not support item assignment"), st)
        end.

(** [params.pop(k, False)]: with a default, popping an absent key is not an
    error. *)
Definition dict_pop (p : loc) (k : pykey) : M State unit :=
  λ st, match st_heap st !! p with
        | Some (ODict d) =>
            (Ok tt, mkState (st_context st) (<[p:=ODict (delete k d)]> (st_heap st)))
        | _ => (Raise (AttributeError "pop"), st)
        end.

(** [QueryDict.get(key, default)]: the last value of the list of [key], or
    [default] when the name is absent or its list is empty. *)
Definition QueryDict_get (q : gmap string (list string)) (key : string)
    (otherwise : value) : value :=
  match q !! key with
  | Some vs => match last vs with Some s => VStr s | None => otherwise end
  | None => otherwise
  end.

(** [v.get(key, otherwise)] on a mapping of the store *)
Definition mapping_get (v : value) (key : string) (otherwise : value) : M State value :=
  λ st, match v with
        | VObj g =>
            match st_heap st !! g with
            | Some (OQueryDict q) => (Ok (QueryDict_get q key otherwise), st)
            | Some (ODict d) => (Ok (default otherwise (d !! KStr key)), st)
            | _ => (Raise (AttributeError "get"), st)
            end
        | _ => (Raise (AttributeError "get"), st)
        end.

(** ** Strings as the tag functions use them *)

Definition dquote : ascii := "034"%char.
Definition squote : ascii := "'"%char.

(** ASCII white space as [split()] and [strip()] see it in a text. *)
Definition is_space (c : ascii) : bool :=
  let n := nat_of_ascii c in
  ((9 <=? n) && (n <=? 13) || (28 <=? n) && (n <=? 32))%nat.

Definition is_empty (s : string) : bool :=
  match s with EmptyString => true | String _ _ => false end.

(** The word that starts [s] (empty when [s] starts with white space) and
    the words after it. *)
Fixpoint split_words (s : string) : string * list string :=
  match s with
  | EmptyString => (EmptyString, [])
  | String c s' =>
      let '(w, ws) := split_words s' in
      if is_space c then (EmptyString, if is_empty w then ws else w :: ws)
      else (String c w, ws)
  end.

(** [s.split()] *)
Definition py_split (s : string) : list string :=
  let '(w, ws) := split_words s in
  if is_empty w then ws else w :: ws.

(** [s.split('=', 1)] when [s] holds an equals sign: the text before the
    first one and the text after it. *)
Fixpoint split_eq1 (s : string) : option (string * string) :=
  match s with
  | EmptyString => None
  | String c s' =>
      if Ascii.eqb c "=" then Some (EmptyString, s')
      else match split_eq1 s' with
           | Some (a, b) => Some (String c a, b)
           | None => None
           end
  end.

Fixpoint lstrip (s : string) : string :=
  match s with
  | EmptyString => EmptyString
  | String c s' => if is_space c then lstrip s' else s
  end.

Fixpoint rstrip (s : string) : string :=
  match s with
  | EmptyString => EmptyString
  | String c s' =>
      let r := rstrip s' in
      if is_space c && is_empty r then EmptyString else String c r
  end.

(** [s.strip()] *)
Definition py_strip (s : string) : string := rstrip (lstrip s).

(** [str(s)] of a text: the ASCII text itself, [UnicodeEncodeError]
    otherwise. *)
Definition py_str (s : string) : result string :=
  if forallb (λ c, (nat_of_ascii c <? 128)%nat) (list_ascii_of_string s)
  then Ok s else Raise UnicodeEncodeError.

(** [kwarg_re = re.compile(r"(?:(.+)=)?(.+)")] matched against a bit with no
    line break.  [last_eq s] is the split at the last equals sign that has
    text after it. *)
Fixpoint last_eq (s : string) : option (string * string) :=
  match s with
  | EmptyString => None
  | String c s' =>
      match last_eq s' with
      | Some (k, v) => Some (String c k, v)
      | None =>
          if Ascii.eqb c "=" && negb (is_empty s') then Some (EmptyString, s')
          else None
      end
  end.

(** [match.groups()] when the bit matches with a first group: the greedy
    first group ends at the last equals sign that leaves text on both
    sides. *)
Definition kwarg_re_groups (bit : string) : option (string * string) :=
  match last_eq bit with
  | Some (k, v) => if is_empty k then None else Some (k, v)
  | None => None
  end.

(** ** The standard tokenizer on a tag argument

    [set_url_param] runs [tokenize.generate_tokens] on the text before the
    equals sign, a single line without white space, and looks at the type of
    the first token only.  On such a line the tokenizer raises [TokenError]
    at the end of input when a bracket is left open (or closed once too
    often) or a triple-quoted string is not closed; brackets inside string
    literals and after [#] do not count. *)

Inductive token_type : Type :=
| ENDMARKER | NAME | NUMBER | STRING | OP | COMMENT | ERRORTOKEN.

Definition is_digit (c : ascii) : bool :=
  let n := nat_of_ascii c in ((48 <=? n) && (n <=? 57))%nat.

Definition is_namechar (c : ascii) : bool :=
  let n := nat_of_ascii c in
  ((65 <=? n) && (n <=? 90) || (97 <=? n) && (n <=? 122) || (n =? 95))%nat.

Definition is_quote (c : ascii) : bool :=
  Ascii.eqb c squote || Ascii.eqb c dquote.

Definition mem_ascii (c : ascii) (s : string) : bool :=
  existsb (Ascii.eqb c) (list_ascii_of_string s).

(** The text from the opening quote on, when [s] starts with a quote after
    an optional string prefix [[uUbB]?[rR]?]. *)
Definition quote_after_prefix (s : string) : option string :=
  match s with
  | String c1 r1 =>
      if is_quote c1 then Some s
      else match r1 with
           | String c2 r2 =>
               if mem_ascii c1 "uUbBrR" && is_quote c2 then Some r1
               else match r2 with
                    | String c3 _ =>
                        if mem_ascii c1 "uUbB" && mem_ascii c2 "rR" && is_quote c3
                        then Some r2 else None
                    | EmptyString => None
                    end
           | EmptyString => None
           end
  | EmptyString => None
  end.

(** The text after the closing quote of a one-line string whose opening
    quote [q] has been read; a backslash escapes the next character. *)
Fixpoint close_single (q : ascii) (s : string) : option string :=
  match s with
  | EmptyString => None
  | String c s' =>
      if Ascii.eqb c q then Some s'
      else if Ascii.eqb c "\" then
        match s' with
        | String _ s'' => close_single q s''
        | EmptyString => None
        end
      else close_single q s'
  end.

(** The same for a triple-quoted string. *)
Fixpoint close_triple (q : ascii) (s : string) : option string :=
  match s with
  | EmptyString => None
  | String c s' =>
      match s' with
      | String c2 (String c3 rest as s'') =>
          if Ascii.eqb c q && Ascii.eqb c2 q && Ascii.eqb c3 q then Some rest
          else if Ascii.eqb c "\" then close_triple q s''
          else close_triple q s'
      | _ => None
      end
  end.

(** Whether a string literal starts [s], and the text after it: [Some None]
    is a triple-quoted string left open. *)
Definition string_literal (s : string) : option (option string) :=
  match quote_after_prefix s with
  | Some (String q r) =>
      match r with
      | String q2 (String q3 r3) =>
          if Ascii.eqb q2 q && Ascii.eqb q3 q then Some (close_triple q r3)
          else option_map Some (close_single q r)
      | _ => option_map Some (close_single q r)
      end
  | _ => None
  end.

(** The bracket level at the end of the line, token by token as far as
    brackets are concerned: string literals and a comment are skipped, every
    other character is read on its own. *)
Fixpoint scan_line (fuel : nat) (s : string) (parenlev : Z) : result unit :=
  let at_eof :=
    if parenlev =? 0 then Ok tt
    else Raise (TokenError "EOF in multi-line statement") in
  match fuel with
  | O => at_eof
  | S fuel' =>
      match s with
      | EmptyString => at_eof
      | String c s' =>
          if Ascii.eqb c "#" then at_eof
          else match string_literal s with
               | Some (Some rest) => scan_line fuel' rest parenlev
               | Some None => Raise (TokenError "EOF in multi-line string")
               | None =>
                   if mem_ascii c "([{" then scan_line fuel' s' (parenlev + 1)
                   else if mem_ascii c ")]}" then scan_line fuel' s' (parenlev - 1)
                   else scan_line fuel' s' parenlev
               end
      end
  end.

(** The type of the first token of the line. *)
Definition first_token (s : string) : token_type :=
  match s with
  | EmptyString => ENDMARKER
  | String c s' =>
      if Ascii.eqb c "#" then COMMENT
      else if bool_decide (is_Some (string_literal s)) then STRING
      else if is_digit c then NUMBER
      else if Ascii.eqb c "." then
        match s' with
        | String d _ => if is_digit d then NUMBER else OP
        | EmptyString => OP
        end
      else if Ascii.eqb c "!" then
        match s' with
        | String d _ => if Ascii.eqb d "=" then OP else ERRORTOKEN
        | EmptyString => ERRORTOKEN
        end
      else if mem_ascii c "*><=/+-%&|^~[](){}:;,`@" then OP
      else if is_namechar c then NAME
      else ERRORTOKEN
  end.

(** [list(tokenize.generate_tokens(StringIO.StringIO(a).readline))[0][0]],
    or the [TokenError] that building the list raises. *)
Definition generate_tokens (a : string) : result token_type :=
  match scan_line (S (String.length a)) a 0 with
  | Raise e => Raise e
  | Ok _ => Ok (first_token a)
  end.

(** ** Django's side of the tags *)

(** [django.conf.settings], as far as the tags read it. *)
Record Settings : Type := mkSettings {
  DEBUG : bool;
  TEMPLATE_STRING_IF_INVALID : string
}.

(** A template token: its text and what [split_contents()] returns for it. *)
Record Token : Type := mkToken {
  contents : string;
  split_contents : list string
}.

(** A compiled filter expression, named by the text it was compiled from. *)
Record FilterExpression : Type := mkFilterExpression {
  fe_token : string
}.

(** A loaded template. *)
Record Template : Type := mkTemplate {
  template_name : string
}.

(** What a node stores for an argument: [Variable(b)] or the result of
    [parser.compile_filter(b)]. *)
Inductive Resolvable : Type :=
| RVariable (var : string)
| RFilter (f : FilterExpression).

(** The four nodes with the fields their constructors store. *)
Record SetUrlParamNode : Type := mkSetUrlParamNode {
  changes : gmap string Resolvable
}.

(** [params] is the ordered dictionary built by [token_kwargs]: its keys are
    filter expression objects, each a key of its own, so it is the list of
    the pairs in the order of the tag. *)
Record QuerystringNode : Type := mkQuerystringNode {
  params : list (FilterExpression * FilterExpression)
}.

Record RenderTableNode : Type := mkRenderTableNode {
  rt_table : FilterExpression;
  rt_template : option FilterExpression
}.

Record SmartRenderTableNode : Type := mkSmartRenderTableNode {
  table_or_queryset : FilterExpression;
  table_template : option FilterExpression;
  header_template : option FilterExpression;
  row_template : option FilterExpression
}.

(** [l.pop(0)] on the list held in the state. *)
Definition pop0 : M (list string) string :=
  λ bits, match bits with
          | [] => (Raise (IndexError "pop from empty list"), [])
          | b :: bits' => (Ok b, bits')
          end.

(** [newvalue == '' or newvalue is None], and [key not in ("", None)]
    negated. *)
Definition is_empty_or_None (v : value) : bool :=
  match v with
  | VNone => true
  | VStr s => is_empty s
  | _ => false
  end.

(** What the tags call and do not define: the settings, the template
    engine, the table library and two built-ins. *)
Class Django : Type := mkDjango {
  (** [django.conf.settings] *)
  settings : Settings;
  (** [parser.compile_filter(text)] *)
  compile_filter : string → result FilterExpression;
  (** [FilterExpression.resolve(context)] and [Variable(var).resolve(context)]:
      they read the context and the objects it refers to. *)
  resolve_filter :
    FilterExpression → gmap string value → gmap loc obj → result value;
  resolve_variable :
    string → gmap string value → gmap loc obj → result value;
  (** [unicode(v)] *)
  unicode : gmap loc obj → value → result string;
  (** [django.utils.http.urlencode(params, doseq=True)] *)
  urlencode : gmap loc obj → gmap pykey value → string;
  (** [RequestContext(request, dict)] *)
  RequestContext :
    value → gmap string value → gmap loc obj → result (gmap string value);
  (** [get_template(name)], [select_template(names)] and
      [template.render(context)]; rendering may change objects and may
      assign into the context it is given (tags such as [regroup ... as]):
      its result comes with what became of the context and of the store. *)
  get_template : string → result Template;
  select_template : value → gmap loc obj → result Template;
  template_render :
    Template → gmap string value → gmap loc obj
    → result string * gmap string value * gmap loc obj;
  (** [Table.paginate(page=page)] on the attributes of a table, and the
      attributes of [tables.QuerySetTable(queryset)]: the table classes are
      not among the sources of the tags. *)
  paginate : gmap string value → value → result (gmap string value);
  QuerySetTable : value → gmap loc obj → result (gmap string value)
}.

Section Tags.

Context {dj : Django}.

Definition resolve (r : Resolvable) : M State value :=
  λ st, match r with
        | RVariable var => (resolve_variable var (st_context st) (st_heap st), st)
        | RFilter f => (resolve_filter f (st_context st) (st_heap st), st)
        end.

(** [f.resolve(context)] against a context that is a local variable. *)
Definition resolve_in (f : FilterExpression) (context : gmap string value)
    : M State value :=
  λ st, (resolve_filter f context (st_heap st), st).

(** *** token_kwargs

    [bits] is a list shared with the caller: the function returns the
    pairs together with what is left of the list. *)
Fixpoint token_kwargs_loop (bits : list string)
    (kwargs : list (FilterExpression * FilterExpression))
    : result (list (FilterExpression * FilterExpression)) * list string :=
  match bits with
  | [] => (Ok kwargs, [])
  | bit :: bits' =>
      match kwarg_re_groups bit with
      | None => (Ok kwargs, bits)
      | Some (key, value) =>
          (* del bits[:1]; the value is compiled before the key *)
          match compile_filter value with
          | Raise e => (Raise e, bits')
          | Ok v =>
              match compile_filter key with
              | Raise e => (Raise e, bits')
              | Ok k => token_kwargs_loop bits' (kwargs ++ [(k, v)])
              end
          end
      end
  end.

Definition token_kwargs : M (list string) (list (FilterExpression * FilterExpression)) :=
  λ bits, match bits with
          | [] => (Ok [], [])
          | _ => token_kwargs_loop bits []
          end.

(** *** SetUrlParamNode *)

(** ["?" + urlencode(params, doseq=True)] for the dictionary at [params] *)
Definition encode_params (params : loc) : M State string :=
  st ← get_state;
  match st_heap st !! params with
  | Some (ODict d) => mret ("?" +:+ urlencode (st_heap st) d)
  | _ => raise (TypeError "not a valid non-string sequence or mapping object")
  end.

(** The body of the loop over [self.changes.items()]. *)
Definition SetUrlParamNode_change (params : loc) (change : string * Resolvable)
    : M State unit :=
  let '(key, newvalue) := change in
  newvalue ← resolve newvalue;
  if is_empty_or_None newvalue then dict_pop params (KStr key)
  else
    st ← get_state;
    s ← lift (unicode (st_heap st) newvalue);
    dict_setitem params (KStr key) (VStr s).

Definition SetUrlParamNode_render (self : SetUrlParamNode) : M State string :=
  request ← context_get "request" VNone;
  st ← get_state;
  if negb (truthy (st_heap st) request) then mret ""
  else
    GET ← getattr request "GET";
    params ← dict GET;
    _ ← for_each (map_to_list (changes self)) (SetUrlParamNode_change params);
    encode_params params.

(** *** set_url_param *)

(** The [try] suite for one argument [i] of the tag. *)
Definition set_url_param_arg (i : string) : result (string * Resolvable) :=
  match split_eq1 i with
  | None => Raise (ValueError "need more than 1 value to unpack")
  | Some (a, b) =>
      let a := py_strip a in
      let b := py_strip b in
      match generate_tokens a with
      | Raise e => Raise e
      | Ok NAME =>
          (* workaround bug #5270 *)
          let compiled :=
            if String.eqb b (String dquote (String dquote EmptyString))
            then Ok (RVariable b)
            else match compile_filter b with
                 | Ok f => Ok (RFilter f)
                 | Raise e => Raise e
                 end in
          match compiled with
          | Raise e => Raise e
          | Ok b =>
              match py_str a with
              | Ok key => Ok (key, b)
              | Raise e => Raise e
              end
          end
      | Ok _ => Raise (ValueError "")
      end
  end.

Fixpoint set_url_param_loop (args : list string)
    (qschanges : gmap string Resolvable) : result (gmap string Resolvable) :=
  match args with
  | [] => Ok qschanges
  | i :: args' =>
      match set_url_param_arg i with
      | Ok (key, b) => set_url_param_loop args' (<[key:=b]> qschanges)
      | Raise e =>
          if is_ValueError e
          then Raise (TemplateSyntaxError "Argument syntax wrong: should bekey=value")
          else Raise e
      end
  end.

Definition set_url_param (token : Token) : result SetUrlParamNode :=
  let bits := py_split (contents token) in
  match set_url_param_loop (drop 1 bits) ∅ with
  | Ok qschanges => Ok (mkSetUrlParamNode qschanges)
  | Raise e => Raise e
  end.

(** *** QuerystringNode *)

(** The body of the loop over [self.params.iteritems()]. *)
Definition QuerystringNode_update (params : loc)
    (pair : FilterExpression * FilterExpression) : M State unit :=
  let '(key, value) := pair in
  key ← resolve (RFilter key);
  value ← resolve (RFilter value);
  if is_empty_or_None key then mret tt
  else
    st ← get_state;
    k ← lift (key_of_value (st_heap st) key);
    dict_setitem params k value.

Definition QuerystringNode_render (self : QuerystringNode) : M State string :=
  request ← context_get "request" VNone;
  st ← get_state;
  if negb (truthy (st_heap st) request) then mret ""
  else
    GET ← getattr request "GET";
    params' ← dict GET;
    _ ← for_each (params self) (QuerystringNode_update params');
    encode_params params'.

(** *** querystring *)

Definition querystring_body : M (list string) QuerystringNode :=
  tag ← pop0;
  try_finally
    (kwargs ← token_kwargs; mret (mkQuerystringNode kwargs))
    (bits ← get_state;
     match bits with
     | [] => mret tt
     | _ => raise (TemplateSyntaxError ("Malformed arguments to '" +:+ tag +:+ "'"))
     end).

Definition querystring (token : Token) : result QuerystringNode :=
  fst (querystring_body (split_contents token)).

(** *** The table nodes *)

(** [template.render(context)] where [context] is a context the render
    method made itself: nothing else refers to it, so what the template
    assigns into it is lost with it. *)
Definition render_template (template : Template) (context : gmap string value)
    : M State string :=
  λ st, let '(r, _, h) := template_render template context (st_heap st) in
        (r, mkState (st_context st) h).

(** [template.render(context)] where [context] is the context the node
    itself is rendered in: what the template assigns into it stays. *)
Definition render_template_in_context (template : Template) : M State string :=
  λ st, let '(r, context, h) :=
          template_render template (st_context st) (st_heap st) in
        (r, mkState context h).

(** [get_template(template)] for a name, [select_template(template)] for
    anything else. *)
Definition load_template (template : value) : M State Template :=
  λ st, match template with
        | VStr name => (get_template name, st)
        | _ => (select_template template (st_heap st), st)
        end.

(** The inner [try ... finally] of both render methods: the request is
    attached to the table, the template is rendered, and the attribute is
    deleted again.  [render] is the call [template.render(context)]. *)
Definition delegate (table request : value) (render : M State string)
    : M State string :=
  try_finally
    (_ ← setattr table "request" request;
     render)
    (delattr table "request").

(** [except: if settings.DEBUG: raise else: return
    settings.TEMPLATE_STRING_IF_INVALID] *)
Definition render_handler (e : exn) : M State string :=
  if DEBUG settings then raise e
  else mret (TEMPLATE_STRING_IF_INVALID settings).

Definition request_missing : string :=
  "{% render_table %} requires that the template context contains the HttpRequest in a 'request' variable, check your TEMPLATE_CONTEXT_PROCESSORS setting.".

(** RenderTableNode.render up to the inner [try]: the table, the request,
    the loaded template and the new context. *)
Definition RenderTableNode_prepare (self : RenderTableNode)
    : M State (value * value * Template * gmap string value) :=
  table ← resolve (RFilter (rt_table self));
  st ← get_state;
  if negb (isinstance (st_heap st) table Table)
  then raise (ValueError "Expected Table object, but didn't find one.")
  else
    has_request ← context_contains "request";
    if negb has_request then raise (AssertionError request_missing)
    else
      request ← context_getitem "request";
      st ← get_state;
      context ← lift (RequestContext request {["table" := table]} (st_heap st));
      template ← match rt_template self with
                 | Some t => resolve_in t context
                 | None => getattr table "template"
                 end;
      template ← load_template template;
      mret (table, request, template, context).

(** The [try] suite of RenderTableNode.render. *)
Definition RenderTableNode_body (self : RenderTableNode) : M State string :=
  '(table, request, template, context) ← RenderTableNode_prepare self;
  delegate table request (render_template template context).

Definition RenderTableNode_render (self : RenderTableNode) : M State string :=
  try_except (RenderTableNode_body self) render_handler.

(** [table.paginate(page=page)] *)
Definition Table_paginate (table page : value) : M State unit :=
  λ st, match table with
        | VObj l =>
            match st_heap st !! l with
            | Some (OInstance c attrs) =>
                match paginate attrs page with
                | Ok attrs' =>
                    (Ok tt, mkState (st_context st)
                              (<[l:=OInstance c attrs']> (st_heap st)))
                | Raise e => (Raise e, st)
                end
            | _ => (Raise (AttributeError "paginate"), st)
            end
        | _ => (Raise (AttributeError "paginate"), st)
        end.

(** [f.resolve(context) if f is not None else None] *)
Definition resolve_optional (f : option FilterExpression) : M State value :=
  match f with
  | Some f => resolve (RFilter f)
  | None => mret VNone
  end.

(** SmartRenderTableNode.render up to the inner [try]. *)
Definition SmartRenderTableNode_prepare (self : SmartRenderTableNode)
    : M State (value * value * Template) :=
  table_or_queryset ← resolve (RFilter (table_or_queryset self));
  st ← get_state;
  table ← (if isinstance (st_heap st) table_or_queryset QuerySet
           then
             attrs ← lift (QuerySetTable table_or_queryset (st_heap st));
             l ← alloc (OInstance Table attrs);
             mret (VObj l)
           else mret table_or_queryset);
  st ← get_state;
  if negb (isinstance (st_heap st) table Table)
  then raise (ValueError "Expected Table object, but didn't find one.")
  else
    has_request ← context_contains "request";
    if negb has_request then raise (AssertionError request_missing)
    else
      request ← context_getitem "request";
      GET ← getattr request "GET";
      sort ← mapping_get GET "sort" VNone;
      _ ← setattr table "order_by" sort;
      GET ← getattr request "GET";
      page ← mapping_get GET "page" (VInt 1);
      _ ← Table_paginate table page;
      _ ← context_setitem "table" table;
      header ← resolve_optional (header_template self);
      _ ← context_setitem "header_template" header;
      row ← resolve_optional (row_template self);
      _ ← context_setitem "row_template" row;
      template ← match table_template self with
                 | Some t => resolve (RFilter t)
                 | None => getattr table "template"
                 end;
      template ← load_template template;
      mret (table, request, template).

Definition SmartRenderTableNode_body (self : SmartRenderTableNode) : M State string :=
  '(table, request, template) ← SmartRenderTableNode_prepare self;
  delegate table request (render_template_in_context template).

Definition SmartRenderTableNode_render (self : SmartRenderTableNode) : M State string :=
  try_except (SmartRenderTableNode_body self) render_handler.

(** *** render_table and smart_render_table *)

(** [bits[0]] in the message of an [except ValueError] clause. *)
Definition must_be_given (what : string) : M (list string) (string * FilterExpression) :=
  bits ← get_state;
  match bits with
  | b :: _ => raise (TemplateSyntaxError ("'" +:+ b +:+ "' must be given " +:+ what))
  | [] => raise (IndexError "list index out of range")
  end.

(** [tag, table = bits.pop(0), parser.compile_filter(bits.pop(0))] inside
    [try ... except ValueError]. *)
Definition pop_tag_and_table (what : string) : M (list string) (string * FilterExpression) :=
  try_except
    (tag ← pop0;
     arg ← pop0;
     table ← lift (compile_filter arg);
     mret (tag, table))
    (λ e, if is_ValueError e then must_be_given what else raise e).

(** [parser.compile_filter(bits.pop(0)) if bits else None] *)
Definition pop_arg : M (list string) (option FilterExpression) :=
  bits ← get_state;
  match bits with
  | [] => mret None
  | _ =>
      arg ← pop0;
      f ← lift (compile_filter arg);
      mret (Some f)
  end.

Definition render_table_body : M (list string) RenderTableNode :=
  '(tag, table) ← pop_tag_and_table "a table.";
  template ← pop_arg;
  mret (mkRenderTableNode table template).

Definition render_table (token : Token) : result RenderTableNode :=
  fst (render_table_body (split_contents token)).

Definition smart_render_table_body : M (list string) SmartRenderTableNode :=
  '(tag, tb_or_qs) ← pop_tag_and_table "a queryset or a table.";
  table_template ← pop_arg;
  header_template ← pop_arg;
  row_template ← pop_arg;
  mret (mkSmartRenderTableNode tb_or_qs table_template header_template row_template).

Definition smart_render_table (token : Token) : result SmartRenderTableNode :=
  fst (smart_render_table_body (split_contents token)).

End Tags.

(** ** A small concrete environment

    A template engine reduced to what the examples need: a filter expression
    is a literal in single quotes, a number, or the name of a context
    variable; a template prints the ordering and the page of the table it is
    given, [broken.html] raises and [grouped.html] assigns a [group] entry
    into its context; [urlencode] joins the parameters without escaping. *)
Module Demo.

Definition show_value (v : value) : string :=
  match v with
  | VNone => "None"
  | VInt n => pretty n
  | VStr s => s
  | VList l => "[" +:+ String.concat ", " l +:+ "]"
  | VObj _ => "<object>"
  end.

Definition show_key (k : pykey) : string :=
  match k with
  | KNone => "None"
  | KInt n => pretty n
  | KStr s => s
  | KObj _ => "<object>"
  end.

(** The text between single quotes, when [s] is such a literal. *)
Definition literal (s : string) : option string :=
  match s with
  | String c r => if Ascii.eqb c squote then close_single squote (String.rev r) ≫= (λ t, Some (String.rev t)) else None
  | EmptyString => None
  end.

Definition demo_resolve (text : string) (context : gmap string value)
    (h : gmap loc obj) : result value :=
  match literal text with
  | Some s => Ok (VStr s)
  | None =>
      if String.eqb text "boom" then Raise (OtherException "ZeroDivisionError" "")
      else Ok (default (VStr "") (context !! text))
  end.

Definition demo_resolve_variable (var : string) (context : gmap string value)
    (h : gmap loc obj) : result value :=
  if String.eqb var (String dquote (String dquote EmptyString)) then Ok (VStr "")
  else demo_resolve var context h.

Definition demo_encode_item (kv : pykey * value) : list string :=
  let '(k, v) := kv in
  match v with
  | VList l => (λ s, show_key k +:+ "=" +:+ s) <$> l
  | _ => [show_key k +:+ "=" +:+ show_value v]
  end.

Definition demo_urlencode (h : gmap loc obj) (d : gmap pykey value) : string :=
  String.concat "&" (concat (demo_encode_item <$> map_to_list d)).

Definition demo_attr (h : gmap loc obj) (v : value) (name : string) : value :=
  match v with
  | VObj l =>
      match h !! l with
      | Some (OInstance _ attrs) => default VNone (attrs !! name)
      | _ => VNone
      end
  | _ => VNone
  end.

Definition demo_render (t : Template) (context : gmap string value)
    (h : gmap loc obj) : result string * gmap string value * gmap loc obj :=
  if String.eqb (template_name t) "broken.html"
  then (Raise (OtherException "TemplateSyntaxError" "broken"), context, h)
  else if String.eqb (template_name t) "grouped.html"
  then (Ok "", <["group":=VStr "a"]> context, h)
  else
    let table := default VNone (context !! "table") in
    (Ok ("order_by=" +:+ show_value (demo_attr h table "order_by")
         +:+ " page=" +:+ show_value (demo_attr h table "page")), context, h).

Definition demo_django (debug : bool) : Django := {|
  settings := mkSettings debug "INVALID";
  compile_filter := λ text,
    if is_empty text then Raise (TemplateSyntaxError "Could not parse the remainder")
    else Ok (mkFilterExpression text);
  resolve_filter := λ f, demo_resolve (fe_token f);
  resolve_variable := demo_resolve_variable;
  unicode := λ _ v, Ok (show_value v);
  urlencode := demo_urlencode;
  RequestContext := λ request d _, Ok (<["request":=request]> d);
  get_template := λ name, Ok (mkTemplate name);
  select_template := λ v _,
    match v with
    | VList (name :: _) => Ok (mkTemplate name)
    | _ => Raise (TemplateDoesNotExist "")
    end;
  template_render := demo_render;
  paginate := λ attrs page, Ok (<["page":=page]> attrs);
  QuerySetTable := λ queryset _,
    Ok {[ "template" := VStr "table.html"; "data" := queryset ]}
|}.

(** The request of [/?sort=name&page=2&q=a&q=b], a table and a query set. *)
Definition request_loc : loc := 1%positive.
Definition GET_loc : loc := 2%positive.
Definition table_loc : loc := 3%positive.
Definition queryset_loc : loc := 4%positive.

Definition demo_GET : gmap string (list string) :=
  {[ "sort" := ["name"]; "page" := ["2"]; "q" := ["a"; "b"] ]}.

Definition demo_table : gmap string value :=
  {[ "template" := VStr "table.html"; "order_by" := VNone ]}.

Definition demo_heap : gmap loc obj :=
  {[ request_loc := OInstance HttpRequest {[ "GET" := VObj GET_loc ]};
     GET_loc := OQueryDict demo_GET;
     table_loc := OInstance Table demo_table;
     queryset_loc := OInstance QuerySet ∅ ]}.

Definition demo_context : gmap string value :=
  {[ "request" := VObj request_loc;
     "table" := VObj table_loc;
     "people" := VObj queryset_loc;
     "next_page" := VInt 3;
     "nothing" := VNone ]}.

Definition demo_state : State := mkState demo_context demo_heap.

(** A context without a request. *)
Definition bare_state : State :=
  mkState {[ "table" := VObj table_loc ]} demo_heap.

(** [{% set_url_param page=next_page sort="" x='y' %}] *)
Definition demo_set_url_param : SetUrlParamNode :=
  mkSetUrlParamNode
    {[ "page" := RFilter (mkFilterExpression "next_page");
       "sort" := RVariable (String dquote (String dquote EmptyString));
       "x" := RFilter (mkFilterExpression "'y'") ]}.

(** [{% querystring 'page'=next_page 'sort'='age' nothing='x' 'page'='7' %}] *)
Definition demo_querystring : QuerystringNode :=
  mkQuerystringNode
    [ (mkFilterExpression "'page'", mkFilterExpression "next_page");
      (mkFilterExpression "'sort'", mkFilterExpression "'age'");
      (mkFilterExpression "nothing", mkFilterExpression "'x'");
      (mkFilterExpression "'page'", mkFilterExpression "'7'") ].

(** [{% render_table table %}], [{% render_table table 'broken.html' %}]
    and [{% smart_render_table table %}] *)
Definition demo_render_table : RenderTableNode :=
  mkRenderTableNode (mkFilterExpression "table") None.

Definition demo_render_broken : RenderTableNode :=
  mkRenderTableNode (mkFilterExpression "table")
    (Some (mkFilterExpression "'broken.html'")).

Definition demo_smart_render_table : SmartRenderTableNode :=
  mkSmartRenderTableNode (mkFilterExpression "table") None None None.

(** A stricter engine for the error paths: a filter expression must not
    start with a pipe, and a page must be a number. *)
Definition strict_compile_filter (text : string) : result FilterExpression :=
  match text with
  | EmptyString => Raise (TemplateSyntaxError "Could not parse the remainder")
  | String c _ =>
      if Ascii.eqb c "|"
      then Raise (TemplateSyntaxError "Could not parse the remainder")
      else Ok (mkFilterExpression text)
  end.

Definition strict_paginate (attrs : gmap string value) (page : value)
    : result (gmap string value) :=
  match page with
  | VInt _ => Ok (<["page":=page]> attrs)
  | VStr s =>
      if negb (is_empty s) && forallb is_digit (list_ascii_of_string s)
      then Ok (<["page":=page]> attrs)
      else Raise (OtherException "PageNotAnInteger" "")
  | _ => Raise (OtherException "PageNotAnInteger" "")
  end.

Definition strict_django (debug : bool) : Django := {|
  settings := mkSettings debug "INVALID";
  compile_filter := strict_compile_filter;
  resolve_filter := λ f, demo_resolve (fe_token f);
  resolve_variable := demo_resolve_variable;
  unicode := λ _ v, Ok (show_value v);
  urlencode := demo_urlencode;
  RequestContext := λ request d _, Ok (<["request":=request]> d);
  get_template := λ name, Ok (mkTemplate name);
  select_template := λ v _, Raise (TemplateDoesNotExist "");
  template_render := demo_render;
  paginate := strict_paginate;
  QuerySetTable := λ queryset _,
    Ok {[ "template" := VStr "table.html"; "data" := queryset ]}
|}.

(** The request of [/?page=x], and a context with a list in it. *)
Definition bad_page_state : State :=
  mkState demo_context (<[GET_loc:=OQueryDict {[ "page" := ["x"] ]}]> demo_heap).

Definition list_state : State :=
  mkState (<["tags":=VList ["a"; "b"]]> demo_context) demo_heap.

(** A request object without a [GET] attribute. *)
Definition no_GET_state : State :=
  mkState {[ "request" := VObj table_loc ]} demo_heap.

End Demo.

(** ** Notions used to state the properties *)

(** The two query-string nodes and the two table nodes, each pair under one
    [render]. *)
Inductive QueryNode : Type :=
| NSetUrlParam (self : SetUrlParamNode)
| NQuerystring (self : QuerystringNode).

Inductive TableNode : Type :=
| NRenderTable (self : RenderTableNode)
| NSmartRenderTable (self : SmartRenderTableNode).

(** The query parameters of the request of the context: [request.GET] when
    the context holds an object under ['request'] whose [GET] attribute is a
    [QueryDict]. *)
Definition request_GET (st : State) : option (gmap string (list string)) :=
  match st_context st !! "request" with
  | Some (VObj r) =>
      match st_heap st !! r with
      | Some (OInstance _ attrs) =>
          match attrs !! "GET" with
          | Some (VObj g) =>
              match st_heap st !! g with
              | Some (OQueryDict q) => Some q
              | _ => None
              end
          | _ => None
          end
      | _ => None
      end
  | _ => None
  end.

(** [hasattr(v, name)] *)
Definition hasattr (h : gmap loc obj) (v : value) (name : string) : bool :=
  match v with
  | VObj l =>
      match h !! l with
      | Some (OInstance _ attrs) => bool_decide (is_Some (attrs !! name))
      | _ => false
      end
  | _ => false
  end.

Section Notions.

Context {dj : Django}.

Definition query_node_render (node : QueryNode) : M State string :=
  match node with
  | NSetUrlParam self => SetUrlParamNode_render self
  | NQuerystring self => QuerystringNode_render self
  end.

Definition table_node_render (node : TableNode) : M State string :=
  match node with
  | NRenderTable self => RenderTableNode_render self
  | NSmartRenderTable self => SmartRenderTableNode_render self
  end.

(** The [try] suite of the node's [render]. *)
Definition table_node_body (node : TableNode) : M State string :=
  match node with
  | NRenderTable self => RenderTableNode_body self
  | NSmartRenderTable self => SmartRenderTableNode_body self
  end.

(** The table and the request that reach the inner [try] of the node's
    [render]. *)
Definition table_node_prepare (node : TableNode) : M State (value * value) :=
  match node with
  | NRenderTable self =>
      '(table, request, _, _) ← RenderTableNode_prepare self;
      mret (table, request)
  | NSmartRenderTable self =>
      '(table, request, _) ← SmartRenderTableNode_prepare self;
      mret (table, request)
  end.

(** Resolving an expression or converting a value to text does not depend
    on a dictionary that no object and no context refers to: creating one
    leaves a successful result as it is. *)
Definition fresh_dict_stable : Prop :=
  ∀ (h : gmap loc obj) (p : loc) (d : gmap pykey value),
    h !! p = None →
    (∀ f c v, resolve_filter f c h = Ok v →
              resolve_filter f c (<[p:=ODict d]> h) = Ok v) ∧
    (∀ x c v, resolve_variable x c h = Ok v →
              resolve_variable x c (<[p:=ODict d]> h) = Ok v) ∧
    (∀ v s, unicode h v = Ok s → unicode (<[p:=ODict d]> h) v = Ok s).

(** [r.resolve(context)] in the state [st] *)
Definition resolved (st : State) (r : Resolvable) : result value :=
  fst (resolve r st).

(** A change of [set_url_param] can be carried out: its value resolves
    and, unless it is empty or [None], converts to text. *)
Definition change_resolves (st : State) (r : Resolvable) : bool :=
  match resolved st r with
  | Ok v => is_empty_or_None v || negb (raises (unicode (st_heap st) v))
  | Raise _ => false
  end.

(** What one change does to the parameters. *)
Definition apply_change (st : State) (d : gmap pykey value)
    (change : string * Resolvable) : gmap pykey value :=
  match resolved st change.2 with
  | Ok v =>
      if is_empty_or_None v then delete (KStr change.1) d
      else match unicode (st_heap st) v with
           | Ok s => <[KStr change.1:=VStr s]> d
           | Raise _ => d
           end
  | Raise _ => d
  end.

(** The key a pair of [querystring] sets, if any: [None] when the resolved
    key is empty or [None]. *)
Definition pair_key (st : State) (key : FilterExpression) : result (option pykey) :=
  match resolved st (RFilter key) with
  | Ok k =>
      if is_empty_or_None k then Ok None
      else match key_of_value (st_heap st) k with
           | Ok k' => Ok (Some k')
           | Raise e => Raise e
           end
  | Raise e => Raise e
  end.

(** A pair of [querystring] can be carried out: key and value resolve and
    the key, unless it is skipped, is hashable. *)
Definition pair_resolves (st : State)
    (pair : FilterExpression * FilterExpression) : bool :=
  negb (raises (pair_key st pair.1)) && negb (raises (resolved st (RFilter pair.2))).

(** What one pair does to the parameters. *)
Definition apply_pair (st : State) (d : gmap pykey value)
    (pair : FilterExpression * FilterExpression) : gmap pykey value :=
  match pair_key st pair.1, resolved st (RFilter pair.2) with
  | Ok (Some k), Ok v => <[k:=v]> d
  | _, _ => d
  end.

(** The bit is [key=value] and both sides compile, to the pair. *)
Definition compiles_to (bit : string)
    (pair : FilterExpression * FilterExpression) : Prop :=
  ∃ key value,
    kwarg_re_groups bit = Some (key, value) ∧
    compile_filter value = Ok pair.2 ∧
    compile_filter key = Ok pair.1.

(** The state [st] is [st0] with one more object, a dictionary at the
    address [p]. *)
Definition with_private_dict (st0 : State) (p : loc) (st : State) : Prop :=
  st_heap st0 !! p = None ∧
  ∃ d, st = mkState (st_context st0) (<[p:=ODict d]> (st_heap st0)).

(** The claim that the node of [render_table] orders and paginates the
    table from the query parameters before it delegates, for one node and
    one state. *)
Definition RenderTableNode_sorts_and_paginates (self : RenderTableNode)
    (st : State) : Prop :=
  ∀ q table request template context st1,
    request_GET st = Some q →
    RenderTableNode_prepare self st = (Ok (table, request, template, context), st1) →
    ∃ l attrs0 attrs1,
      table = VObj l ∧
      st_heap st !! l = Some (OInstance Table attrs0) ∧
      paginate (<["order_by":=QueryDict_get q "sort" VNone]> attrs0)
               (QueryDict_get q "page" (VInt 1)) = Ok attrs1 ∧
      st_heap st1 !! l = Some (OInstance Table attrs1).

End Notions.

(** * Properties *)

(** ** The tokenizer model on sample arguments *)

Example generate_tokens_name : generate_tokens "page" = Ok NAME.
Proof. reflexivity. Qed.

Example generate_tokens_empty : generate_tokens "" = Ok ENDMARKER.
Proof. reflexivity. Qed.

Example generate_tokens_number : generate_tokens "1a" = Ok NUMBER.
Proof. reflexivity. Qed.

Example generate_tokens_string : generate_tokens "u'x'" = Ok STRING.
Proof. reflexivity. Qed.

Example generate_tokens_open_string : generate_tokens "u'x" = Ok NAME.
Proof. reflexivity. Qed.

Example generate_tokens_bracket_in_string : generate_tokens "x'('" = Ok NAME.
Proof. reflexivity. Qed.

Example generate_tokens_balanced : generate_tokens "a)(" = Ok NAME.
Proof. reflexivity. Qed.

Example generate_tokens_open_bracket :
  generate_tokens "(" = Raise (TokenError "EOF in multi-line statement").
Proof. reflexivity. Qed.

Example generate_tokens_open_call :
  generate_tokens "a(" = Raise (TokenError "EOF in multi-line statement").
Proof. reflexivity. Qed.

Example generate_tokens_open_triple :
  generate_tokens "'''" = Raise (TokenError "EOF in multi-line string").
Proof. reflexivity. Qed.

(** ** The tokenizer model does not run out of fuel *)

Lemma close_single_length (q : ascii) (n : nat) (s rest : string) :
  (String.length s ≤ n)%nat →
  close_single q s = Some rest → (String.length rest < String.length s)%nat.
Proof.
  revert s rest. induction n as [|n IH]; intros s rest Hn.
  { destruct s; [done|simpl in Hn; lia]. }
  destruct s as [|c s]; simpl; [done|].
  simpl in Hn.
  destruct (Ascii.eqb c q); [intros [= ->]; lia|].
  destruct (Ascii.eqb c "\").
  - destruct s as [|c' s']; [done|]. simpl in Hn.
    intros H%IH; simpl in *; lia.
  - intros H%IH; simpl in *; lia.
Qed.

Lemma close_triple_length (q : ascii) (n : nat) (s rest : string) :
  (String.length s ≤ n)%nat →
  close_triple q s = Some rest → (String.length rest < String.length s)%nat.
Proof.
  revert s rest. induction n as [|n IH]; intros s rest Hn.
  { destruct s; [done|simpl in Hn; lia]. }
  destruct s as [|c [|c2 [|c3 s3]]]; try done.
  change (close_triple q (String c (String c2 (String c3 s3)))) with
    (if Ascii.eqb c q && Ascii.eqb c2 q && Ascii.eqb c3 q then Some s3
     else if Ascii.eqb c "\" then close_triple q (String c3 s3)
     else close_triple q (String c2 (String c3 s3))).
  simpl in Hn.
  destruct (Ascii.eqb c q && Ascii.eqb c2 q && Ascii.eqb c3 q).
  { intros [= ->]. simpl. lia. }
  destruct (Ascii.eqb c "\").
  - intros H%IH; simpl in *; lia.
  - intros H%IH; simpl in *; lia.
Qed.

Lemma quote_after_prefix_length (s t : string) :
  quote_after_prefix s = Some t →
  (0 < String.length t ≤ String.length s)%nat.
Proof.
  unfold quote_after_prefix.
  destruct s as [|c1 r1]; [done|].
  destruct (is_quote c1); [intros [= <-]; simpl; lia|].
  destruct r1 as [|c2 r2]; [done|].
  destruct (mem_ascii c1 "uUbBrR" && is_quote c2); [intros [= <-]; simpl; lia|].
  destruct r2 as [|c3 r3]; [done|].
  destruct (mem_ascii c1 "uUbB" && mem_ascii c2 "rR" && is_quote c3); [|done].
  intros [= <-]. simpl. lia.
Qed.

(** A string literal is not empty: what follows it is shorter. *)
Lemma string_literal_length (s rest : string) :
  string_literal s = Some (Some rest) →
  (String.length rest < String.length s)%nat.
Proof.
  unfold string_literal.
  destruct (quote_after_prefix s) as [t|] eqn:Ht; [|done].
  apply quote_after_prefix_length in Ht.
  destruct t as [|q r]; [done|]. simpl in Ht.
  assert (Hsingle : option_map Some (close_single q r) = Some (Some rest) →
                    (String.length rest < String.length s)%nat).
  { destruct (close_single q r) as [rest'|] eqn:Hc; [|done].
    intros [= ->]. apply (close_single_length q _ _ _ (le_n _)) in Hc. lia. }
  destruct r as [|q2 [|q3 r3]]; try done.
  destruct (Ascii.eqb q2 q && Ascii.eqb q3 q); [|done].
  intros [= Hc]. apply (close_triple_length q _ _ _ (le_n _)) in Hc.
  simpl in *. lia.
Qed.

(** With more fuel than characters the outcome of [scan_line] does not
    depend on the fuel, so [generate_tokens] reads its argument to the
    end. *)
Lemma scan_line_fuel (fuel1 fuel2 : nat) (s : string) (parenlev : Z) :
  (String.length s < fuel1)%nat → (String.length s < fuel2)%nat →
  scan_line fuel1 s parenlev = scan_line fuel2 s parenlev.
Proof.
  revert fuel2 s parenlev.
  induction fuel1 as [|fuel1 IH]; intros fuel2 s parenlev H1 H2; [lia|].
  destruct fuel2 as [|fuel2]; [lia|].
  destruct s as [|c s']; [done|]. simpl in H1, H2.
  cbn [scan_line].
  destruct (Ascii.eqb c "#"); [done|].
  destruct (string_literal (String c s')) as [[rest|]|] eqn:Hlit; [|done|].
  - apply string_literal_length in Hlit. simpl in Hlit. apply IH; lia.
  - destruct (mem_ascii c "([{"); [apply IH; lia|].
    destruct (mem_ascii c ")]}"); apply IH; lia.
Qed.

(** ** The string functions on sample arguments *)

Example py_split_contents :
  py_split "set_url_param  page=next_page sort=x " =
  ["set_url_param"; "page=next_page"; "sort=x"].
Proof. reflexivity. Qed.

Example split_eq1_first : split_eq1 "a=b=c" = Some ("a", "b=c").
Proof. reflexivity. Qed.

Example split_eq1_none : split_eq1 "abc" = None.
Proof. reflexivity. Qed.

Example kwarg_re_groups_last : kwarg_re_groups "a=b=c" = Some ("a=b", "c").
Proof. reflexivity. Qed.

Example kwarg_re_groups_no_value : kwarg_re_groups "a=" = None.
Proof. reflexivity. Qed.

Example kwarg_re_groups_no_key : kwarg_re_groups "=b" = None.
Proof. reflexivity. Qed.

Example kwarg_re_groups_value_is_equals : kwarg_re_groups "a==" = Some ("a", "=").
Proof. reflexivity. Qed.

Example py_strip_both : py_strip "  a b  " = "a b".
Proof. reflexivity. Qed.

(** ** Exceptions of the table nodes *)

Section Properties.

Context {dj : Django}.

Lemma try_except_raise {S A} (body : M S A) (handler : exn → M S A) s s' e :
  body s = (Raise e, s') → try_except body handler s = handler e s'.
Proof. unfold try_except. by intros ->. Qed.

Lemma try_except_ok {S A} (body : M S A) (handler : exn → M S A) s s' a :
  body s = (Ok a, s') → try_except body handler s = (Ok a, s').
Proof. unfold try_except. by intros ->. Qed.

(** Both renders hand an exception of their [try] suite to the handler. *)
Lemma table_node_render_raise (node : TableNode) (st st' : State) (e : exn) :
  table_node_body node st = (Raise e, st') →
  table_node_render node st = render_handler e st'.
Proof. destruct node; simpl; apply try_except_raise. Qed.

(** C1: an exception that leaves the [try] suite of RenderTableNode.render
    or SmartRenderTableNode.render is swallowed when [settings.DEBUG] is
    off, the render then returns [settings.TEMPLATE_STRING_IF_INVALID];
    it propagates to the caller when [settings.DEBUG] is on. *)
Theorem table_node_render_exception (node : TableNode) (st st' : State) (e : exn) :
  table_node_body node st = (Raise e, st') →
  table_node_render node st =
    (if DEBUG settings then Raise e
     else Ok (TEMPLATE_STRING_IF_INVALID settings), st').
Proof.
  intros Hbody. rewrite (table_node_render_raise _ _ _ _ Hbody).
  unfold render_handler. by destruct (DEBUG settings).
Qed.

(** A render that raises nothing is returned as it is. *)
Lemma table_node_render_ok (node : TableNode) (st st' : State) (out : string) :
  table_node_body node st = (Ok out, st') →
  table_node_render node st = (Ok out, st').
Proof. destruct node; simpl; apply try_except_ok. Qed.

(** With [settings.DEBUG] off the table nodes never raise. *)
Lemma table_node_render_total (node : TableNode) (st : State) :
  DEBUG settings = false →
  raises (table_node_render node st).1 = false.
Proof.
  intros Hdebug.
  destruct (table_node_body node st) as [[out|e] st'] eqn:Hbody.
  - by rewrite (table_node_render_ok _ _ _ _ Hbody).
  - rewrite (table_node_render_raise _ _ _ _ Hbody).
    unfold render_handler. by rewrite Hdebug.
Qed.

(** ** The tag functions *)

(** C8: [{% render_table %}] without a table argument: the second
    [bits.pop(0)] raises [IndexError], which [except ValueError] does not
    catch, so the tag function does not raise [TemplateSyntaxError]. *)
Theorem render_table_without_table (text tag : string) :
  render_table (mkToken text [tag]) = Raise (IndexError "pop from empty list").
Proof. reflexivity. Qed.

(** C4: [{% set_url_param (=1 %}]: the text before the equals sign is not
    a name, and tokenizing it raises [TokenError], which
    [except ValueError] does not catch, so the tag function does not raise
    [TemplateSyntaxError]. *)
Theorem set_url_param_open_bracket (bits : list string) :
  set_url_param (mkToken "set_url_param (=1" bits)
  = Raise (TokenError "EOF in multi-line statement").
Proof. reflexivity. Qed.

(** An argument without an equals sign is a [TemplateSyntaxError]. *)
Lemma set_url_param_arg_no_equals (i : string) :
  split_eq1 i = None →
  set_url_param_arg i = Raise (ValueError "need more than 1 value to unpack").
Proof. unfold set_url_param_arg. by intros ->. Qed.

(** An argument whose key tokenizes and does not start with a name is a
    [ValueError] inside the [try] suite. *)
Lemma set_url_param_arg_not_name (i a b : string) (k : token_type) :
  split_eq1 i = Some (a, b) →
  generate_tokens (py_strip a) = Ok k →
  k ≠ NAME →
  set_url_param_arg i = Raise (ValueError "").
Proof.
  unfold set_url_param_arg. intros -> -> Hk. by destruct k.
Qed.

(** The loop turns the [ValueError] of its first argument into a
    [TemplateSyntaxError]. *)
Lemma set_url_param_loop_ValueError (i : string) (args : list string)
    (qschanges : gmap string Resolvable) (e : exn) :
  set_url_param_arg i = Raise e →
  is_ValueError e = true →
  set_url_param_loop (i :: args) qschanges
  = Raise (TemplateSyntaxError "Argument syntax wrong: should bekey=value").
Proof. simpl. by intros -> ->. Qed.

(** Any other exception of the first argument leaves the tag function. *)
Lemma set_url_param_loop_other (i : string) (args : list string)
    (qschanges : gmap string Resolvable) (e : exn) :
  set_url_param_arg i = Raise e →
  is_ValueError e = false →
  set_url_param_loop (i :: args) qschanges = Raise e.
Proof. simpl. by intros -> ->. Qed.

(** The tokenizer raises nothing but [TokenError]. *)
Lemma scan_line_TokenError (fuel : nat) (s : string) (parenlev : Z) (e : exn) :
  scan_line fuel s parenlev = Raise e → ∃ msg, e = TokenError msg.
Proof.
  revert s parenlev. induction fuel as [|fuel IH]; intros s parenlev; simpl.
  - destruct (parenlev =? 0); [done|]. intros [= <-]. eauto.
  - destruct s as [|c s'].
    { destruct (parenlev =? 0); [done|]. intros [= <-]. eauto. }
    destruct (Ascii.eqb c "#").
    { destruct (parenlev =? 0); [done|]. intros [= <-]. eauto. }
    destruct (string_literal (String c s')) as [[rest|]|].
    + apply IH.
    + intros [= <-]. eauto.
    + destruct (mem_ascii c "([{"); [apply IH|].
      destruct (mem_ascii c ")]}"); apply IH.
Qed.

Lemma generate_tokens_TokenError (a : string) (e : exn) :
  generate_tokens a = Raise e → ∃ msg, e = TokenError msg.
Proof.
  unfold generate_tokens.
  destruct (scan_line _ a 0) as [|e'] eqn:Hscan; [done|].
  intros [= <-]. by apply scan_line_TokenError in Hscan.
Qed.

(** A [key=value] argument whose key the tokenizer rejects makes
    [set_url_param] raise the [TokenError]. *)
Lemma set_url_param_loop_TokenError (i a b : string) (args : list string)
    (qschanges : gmap string Resolvable) (e : exn) :
  split_eq1 i = Some (a, b) →
  generate_tokens (py_strip a) = Raise e →
  set_url_param_loop (i :: args) qschanges = Raise e.
Proof.
  intros Hsplit Htok.
  destruct (generate_tokens_TokenError _ _ Htok) as [msg ->].
  apply set_url_param_loop_other; [|done].
  unfold set_url_param_arg. by rewrite Hsplit, Htok.
Qed.

(** A well-formed tag compiles: [{% set_url_param page=next_page %}]. *)
Lemma set_url_param_compiles (bits : list string) (f : FilterExpression) :
  compile_filter "next_page" = Ok f →
  set_url_param (mkToken "set_url_param page=next_page" bits)
  = Ok (mkSetUrlParamNode {[ "page" := RFilter f ]}).
Proof.
  intros Hf. unfold set_url_param. simpl.
  unfold set_url_param_arg, py_strip. simpl. rewrite Hf.
  by rewrite insert_empty.
Qed.

(** [{% smart_render_table %}] has the slip of [{% render_table %}]. *)
Lemma smart_render_table_without_table (text tag : string) :
  smart_render_table (mkToken text [tag]) = Raise (IndexError "pop from empty list").
Proof. reflexivity. Qed.

(** [{% render_table table %}] compiles to a node without a template. *)
Lemma render_table_compiles (text tag arg : string) (f : FilterExpression) :
  compile_filter arg = Ok f →
  render_table (mkToken text [tag; arg]) = Ok (mkRenderTableNode f None).
Proof.
  intros Hf. unfold render_table, render_table_body, pop_tag_and_table.
  unfold mbind, mret, M_bind, M_ret, bind, ret, try_except, pop0, lift. simpl.
  by rewrite Hf.
Qed.

(** [querystring]: bits that [token_kwargs] leaves in the list are a
    [TemplateSyntaxError], whatever [token_kwargs] returned or raised. *)
Lemma querystring_trailing_bits (text tag : string) (bits : list string) :
  (token_kwargs bits).2 ≠ [] →
  querystring (mkToken text (tag :: bits))
  = Raise (TemplateSyntaxError ("Malformed arguments to '" +:+ tag +:+ "'")).
Proof.
  intros Hrest. unfold querystring, querystring_body. simpl.
  unfold mbind, M_bind, bind, try_finally, pop0, get_state. simpl.
  destruct (token_kwargs bits) as [[kw|e] rest]; simpl in *;
    by destruct rest.
Qed.

(** [token_kwargs] consumes bits that are all [key=value] and returns their
    pairs in the order of the tag. *)
Lemma token_kwargs_loop_pairs (bits : list string)
    (kwargs pairs : list (FilterExpression * FilterExpression)) :
  Forall2 compiles_to bits pairs →
  token_kwargs_loop bits kwargs = (Ok (kwargs ++ pairs), []).
Proof.
  intros Hall. revert kwargs.
  induction Hall as [|bit pair bits pairs (key & value & Hm & Hv & Hk) _ IH];
    intros kwargs; simpl.
  - by rewrite app_nil_r.
  - rewrite Hm, Hv, Hk, IH. destruct pair. by rewrite <- app_assoc.
Qed.

(** [{% querystring k1=v1 ... kn=vn %}] compiles to the node of the pairs. *)
Lemma querystring_compiles (text tag : string) (bits : list string)
    (pairs : list (FilterExpression * FilterExpression)) :
  Forall2 compiles_to bits pairs →
  querystring (mkToken text (tag :: bits)) = Ok (mkQuerystringNode pairs).
Proof.
  intros Hall. unfold querystring, querystring_body. simpl.
  unfold mbind, mret, M_bind, M_ret, bind, ret, try_finally, pop0, get_state.
  simpl. pose proof (token_kwargs_loop_pairs bits [] pairs Hall) as Hloop.
  destruct Hall as [|bit pair bits pairs Hpair Hall]; [done|].
  unfold token_kwargs. by rewrite Hloop.
Qed.

(** [token_kwargs] stops at the first bit that is not [key=value]. *)
Lemma token_kwargs_stops (bit : string) (bits : list string) :
  kwarg_re_groups bit = None →
  token_kwargs (bit :: bits) = (Ok [], bit :: bits).
Proof. simpl. by intros ->. Qed.

(** ** The query-string nodes and the store *)

Lemma for_each_invariant {S A} (I : S → Prop) (f : A → M S unit)
    (xs : list A) (s : S) :
  (∀ x s, I s → I (f x s).2) → I s → I (for_each xs f s).2.
Proof.
  intros Hf. revert s. induction xs as [|x xs IH]; intros s Hs; simpl; [done|].
  unfold bind. specialize (Hf x s Hs).
  destruct (f x s) as [[[]|e] s']; simpl in *; auto.
Qed.

Lemma with_private_dict_extends st0 p st :
  with_private_dict st0 p st →
  st_context st = st_context st0 ∧ st_heap st0 ⊆ st_heap st.
Proof.
  intros [Hp [d ->]]. split; [done|]. simpl. by apply insert_subseteq.
Qed.

Lemma with_private_dict_lookup st0 p st :
  with_private_dict st0 p st → ∃ d, st_heap st !! p = Some (ODict d).
Proof. intros [Hp [d ->]]. exists d. simpl. by rewrite lookup_insert_eq. Qed.

(** [dict(v)] creates its result and touches nothing else. *)
Lemma dict_private (v : value) (st st' : State) (p : loc) :
  dict v st = (Ok p, st') → with_private_dict st p st'.
Proof.
  unfold dict, alloc. intros H.
  assert (Hfresh : st_heap st !! fresh (dom (st_heap st)) = None).
  { apply not_elem_of_dom, is_fresh. }
  destruct v as [| | | |g]; try discriminate.
  destruct (st_heap st !! g) as [[| |]|]; try discriminate;
    injection H as <- <-; (split; [done|]); eauto.
Qed.

Lemma dict_raise (v : value) (st st' : State) (e : exn) :
  dict v st = (Raise e, st') → st' = st.
Proof.
  unfold dict, alloc. intros H.
  destruct v as [| | | |g]; try (by injection H).
  destruct (st_heap st !! g) as [[| |]|]; try discriminate; by injection H.
Qed.

Lemma dict_setitem_private st0 p st k v :
  with_private_dict st0 p st →
  (dict_setitem p k v st).1 = Ok tt ∧ with_private_dict st0 p (dict_setitem p k v st).2.
Proof.
  intros [Hp [d ->]]. unfold dict_setitem. simpl. rewrite lookup_insert_eq. simpl.
  split; [done|]. split; [done|]. exists (<[k:=v]> d). by rewrite insert_insert_eq.
Qed.

Lemma dict_pop_private st0 p st k :
  with_private_dict st0 p st →
  (dict_pop p k st).1 = Ok tt ∧ with_private_dict st0 p (dict_pop p k st).2.
Proof.
  intros [Hp [d ->]]. unfold dict_pop. simpl. rewrite lookup_insert_eq. simpl.
  split; [done|]. split; [done|]. exists (delete k d). by rewrite insert_insert_eq.
Qed.

Lemma resolve_state (r : Resolvable) (st : State) : (resolve r st).2 = st.
Proof. by destruct r. Qed.

Lemma SetUrlParamNode_change_private st0 p change st :
  with_private_dict st0 p st →
  with_private_dict st0 p (SetUrlParamNode_change p change st).2.
Proof.
  intros Hst. destruct change as [key newvalue]. unfold SetUrlParamNode_change.
  unfold mbind, M_bind, bind.
  pose proof (resolve_state newvalue st) as Hres.
  destruct (resolve newvalue st) as [[v|e] st1]; simpl in Hres; subst st1; [|done].
  destruct (is_empty_or_None v).
  - by apply dict_pop_private.
  - unfold get_state, lift. destruct (unicode (st_heap st) v); [|done].
    by apply dict_setitem_private.
Qed.

Lemma QuerystringNode_update_private st0 p pair st :
  with_private_dict st0 p st →
  with_private_dict st0 p (QuerystringNode_update p pair st).2.
Proof.
  intros Hst. destruct pair as [key value]. unfold QuerystringNode_update.
  unfold mbind, M_bind, bind. simpl.
  destruct (resolve_filter key (st_context st) (st_heap st)) as [k|e]; [|done].
  destruct (resolve_filter value (st_context st) (st_heap st)) as [v|e]; [|done].
  destruct (is_empty_or_None k); [done|].
  unfold get_state, lift. destruct (key_of_value (st_heap st) k); [|done].
  by apply dict_setitem_private.
Qed.

Lemma encode_params_state (p : loc) (st : State) : (encode_params p st).2 = st.
Proof.
  unfold encode_params, mbind, M_bind, bind, get_state.
  by destruct (st_heap st !! p) as [[| |]|].
Qed.

Lemma getattr_state (v : value) (name : string) (st : State) :
  (getattr v name st).2 = st.
Proof.
  unfold getattr. destruct v as [| | | |l]; try done.
  destruct (st_heap st !! l) as [[c attrs| |]|]; try done.
  by destruct (attrs !! name).
Qed.

(** Either render leaves the context alone and every object of the store
    as it was; at most it adds one dictionary. *)
Lemma query_node_render_extends (node : QueryNode) (st : State) :
  let st' := (query_node_render node st).2 in
  st_context st' = st_context st ∧ st_heap st ⊆ st_heap st'.
Proof.
  assert (Hloop : ∀ {A} (f : loc → A → M State unit) (xs : list A),
    (∀ p x s, with_private_dict st p s → with_private_dict st p (f p x s).2) →
    let m := (request ← context_get "request" VNone;
              st ← get_state;
              if negb (truthy (st_heap st) request) then mret ""
              else GET ← getattr request "GET";
                   params ← dict GET;
                   _ ← for_each xs (f params);
                   encode_params params) in
    st_context (m st).2 = st_context st ∧ st_heap st ⊆ st_heap (m st).2).
  { intros A f xs Hf. simpl.
    unfold mbind, mret, M_bind, M_ret, bind, ret, context_get, get_state. simpl.
    destruct (truthy _ _); simpl; [|done].
    pose proof (getattr_state (default VNone (st_context st !! "request")) "GET" st) as HG.
    destruct (getattr _ "GET" st) as [[GET|e] st1]; simpl in HG; subst st1; [|done].
    destruct (dict GET st) as [[p|e] st1] eqn:Hdict.
    - apply dict_private in Hdict.
      pose proof (for_each_invariant (with_private_dict st p) (f p) xs st1
                    (Hf p) Hdict) as Hinv.
      destruct (for_each xs (f p) st1) as [[[]|e] st2]; simpl in Hinv.
      + rewrite encode_params_state. by apply with_private_dict_extends in Hinv.
      + by apply with_private_dict_extends in Hinv.
    - by apply dict_raise in Hdict as ->. }
  destruct node as [self|self]; simpl.
  - apply (Hloop _ SetUrlParamNode_change).
    intros p x s. apply SetUrlParamNode_change_private.
  - apply (Hloop _ QuerystringNode_update).
    intros p x s. apply QuerystringNode_update_private.
Qed.

Lemma request_GET_weaken (st st' : State) (q : gmap string (list string)) :
  st_context st' = st_context st →
  st_heap st ⊆ st_heap st' →
  request_GET st = Some q → request_GET st' = Some q.
Proof.
  intros Hctx Hheap. unfold request_GET. rewrite Hctx.
  destruct (st_context st !! "request") as [[| | | |r]|]; try done.
  destruct (st_heap st !! r) as [o|] eqn:Hr; [|done].
  rewrite (lookup_weaken _ _ _ _ Hr Hheap).
  destruct o as [c attrs| |]; try done.
  destruct (attrs !! "GET") as [[| | | |g]|]; try done.
  destruct (st_heap st !! g) as [o|] eqn:Hg; [|done].
  by rewrite (lookup_weaken _ _ _ _ Hg Hheap).
Qed.

(** C5: for a context that contains a request, [request.GET] holds the
    same keys and values after SetUrlParamNode.render or
    QuerystringNode.render as before; the context is left as it is and
    every object of the store is unchanged, the copy being a new object. *)
Theorem query_node_render_keeps_GET (node : QueryNode) (st : State)
    (q : gmap string (list string)) :
  request_GET st = Some q →
  request_GET (query_node_render node st).2 = Some q ∧
  st_context (query_node_render node st).2 = st_context st ∧
  st_heap st ⊆ st_heap (query_node_render node st).2.
Proof.
  intros Hq. destruct (query_node_render_extends node st) as [Hctx Hheap].
  split; [|done]. by apply (request_GET_weaken st).
Qed.

(** C9: without a ['request'] entry in the context, or with one that is
    false, SetUrlParamNode.render and QuerystringNode.render return the
    empty string, raise nothing and leave the context and the store as
    they are. *)
Theorem query_node_render_without_request (node : QueryNode) (st : State) :
  (st_context st !! "request" = None ∨
   ∃ v, st_context st !! "request" = Some v ∧ truthy (st_heap st) v = false) →
  query_node_render node st = (Ok "", st).
Proof.
  intros Hreq.
  assert (Hfalse : truthy (st_heap st) (default VNone (st_context st !! "request")) = false).
  { destruct Hreq as [->|(v & -> & Hv)]; done. }
  destruct node as [self|self]; simpl;
    unfold SetUrlParamNode_render, QuerystringNode_render;
    unfold mbind, mret, M_bind, M_ret, bind, ret, context_get, get_state; simpl;
    by rewrite Hfalse.
Qed.

(** ** What the query-string nodes return *)

Lemma request_GET_inv (st : State) (q : gmap string (list string)) :
  request_GET st = Some q →
  ∃ r c attrs g,
    st_context st !! "request" = Some (VObj r) ∧
    st_heap st !! r = Some (OInstance c attrs) ∧
    attrs !! "GET" = Some (VObj g) ∧
    st_heap st !! g = Some (OQueryDict q).
Proof.
  unfold request_GET. intros H.
  destruct (st_context st !! "request") as [[| | | |r]|]; try done.
  destruct (st_heap st !! r) as [[c attrs| |]|] eqn:Hr; try done.
  destruct (attrs !! "GET") as [[| | | |g]|] eqn:HG; try done.
  destruct (st_heap st !! g) as [[| q'|]|] eqn:Hg; try done.
  injection H as ->. by exists r, c, attrs, g.
Qed.

(** The first steps of both renders when the context holds a request: the
    parameters are copied into a new dictionary. *)
Lemma query_render_start {A} (f : loc → A → M State unit) (xs : list A)
    (st : State) (q : gmap string (list string)) :
  request_GET st = Some q →
  let p := fresh (dom (st_heap st)) in
  st_heap st !! p = None ∧
  (request ← context_get "request" VNone;
   st ← get_state;
   if negb (truthy (st_heap st) request) then mret ""
   else GET ← getattr request "GET";
        params ← dict GET;
        _ ← for_each xs (f params);
        encode_params params) st
  = (_ ← for_each xs (f p); encode_params p)
      (mkState (st_context st) (<[p:=ODict (dict_of_QueryDict q)]> (st_heap st))).
Proof.
  intros (r & c & attrs & g & Hreq & Hr & HG & Hg)%request_GET_inv p.
  split; [apply not_elem_of_dom, is_fresh|].
  unfold mbind, mret, M_bind, M_ret, bind, ret, context_get, get_state. simpl.
  rewrite Hreq. simpl. rewrite Hr. simpl.
  unfold getattr. rewrite Hr, HG.
  unfold dict, alloc. by rewrite Hg.
Qed.

Lemma encode_params_private (st0 : State) (p : loc) (d : gmap pykey value) :
  let st := mkState (st_context st0) (<[p:=ODict d]> (st_heap st0)) in
  encode_params p st = (Ok ("?" +:+ urlencode (st_heap st) d), st).
Proof.
  simpl. unfold encode_params, mbind, M_bind, bind, get_state. simpl.
  by rewrite lookup_insert_eq.
Qed.

Lemma resolved_stable (st0 : State) (p : loc) (d : gmap pykey value)
    (r : Resolvable) (v : value) :
  fresh_dict_stable →
  st_heap st0 !! p = None →
  resolved st0 r = Ok v →
  resolve r (mkState (st_context st0) (<[p:=ODict d]> (st_heap st0)))
  = (Ok v, mkState (st_context st0) (<[p:=ODict d]> (st_heap st0))).
Proof.
  intros Hstable Hp. destruct (Hstable _ _ d Hp) as (Hf & Hv & _).
  unfold resolved. destruct r as [x|f]; simpl; intros H.
  - by rewrite (Hv _ _ _ H).
  - by rewrite (Hf _ _ _ H).
Qed.

Lemma key_of_value_stable (h : gmap loc obj) (p : loc) (o : obj)
    (v : value) (k : pykey) :
  h !! p = None →
  key_of_value h v = Ok k → key_of_value (<[p:=o]> h) v = Ok k.
Proof.
  intros Hp. destruct v as [| | | |l]; simpl; try done.
  destruct (h !! l) as [[c attrs| |]|] eqn:Hl; try done.
  intros H. rewrite lookup_insert_ne; [by rewrite Hl|]. congruence.
Qed.

(** The loop of SetUrlParamNode.render when every change can be carried
    out. *)
Lemma SetUrlParamNode_loop (st0 : State) (p : loc)
    (chs : list (string * Resolvable)) (d : gmap pykey value) :
  fresh_dict_stable →
  st_heap st0 !! p = None →
  Forall (λ ch, change_resolves st0 ch.2 = true) chs →
  for_each chs (SetUrlParamNode_change p)
    (mkState (st_context st0) (<[p:=ODict d]> (st_heap st0)))
  = (Ok tt, mkState (st_context st0)
              (<[p:=ODict (foldl (apply_change st0) d chs)]> (st_heap st0))).
Proof.
  intros Hstable Hp Hall. revert d.
  induction Hall as [|[key r] chs Hch _ IH]; intros d; simpl; [done|].
  unfold bind at 1. unfold SetUrlParamNode_change, mbind, M_bind, bind.
  unfold change_resolves in Hch. simpl in Hch.
  unfold apply_change at 2. simpl.
  destruct (resolved st0 r) as [v|e] eqn:Hv; [|done].
  rewrite (resolved_stable st0 p d r v Hstable Hp Hv).
  destruct (is_empty_or_None v) eqn:Hempty.
  - unfold dict_pop. simpl. rewrite lookup_insert_eq, insert_insert_eq. apply IH.
  - simpl in Hch. destruct (unicode (st_heap st0) v) as [s|e] eqn:Hs; [|done].
    destruct (Hstable _ _ d Hp) as (_ & _ & Hu).
    unfold get_state, lift. simpl. rewrite (Hu _ _ Hs).
    unfold dict_setitem. simpl. rewrite lookup_insert_eq, insert_insert_eq. apply IH.
Qed.

Lemma apply_change_other (st0 : State) (d : gmap pykey value)
    (ch : string * Resolvable) (k : pykey) :
  k ≠ KStr ch.1 → apply_change st0 d ch !! k = d !! k.
Proof.
  intros Hk. unfold apply_change.
  destruct (resolved st0 ch.2) as [v|]; [|done].
  destruct (is_empty_or_None v); [by rewrite lookup_delete_ne|].
  destruct (unicode (st_heap st0) v); [by rewrite lookup_insert_ne|done].
Qed.

Lemma apply_changes_other (st0 : State) (chs : list (string * Resolvable))
    (d : gmap pykey value) (k : pykey) :
  (∀ key, k = KStr key → key ∉ chs.*1) →
  foldl (apply_change st0) d chs !! k = d !! k.
Proof.
  revert d. induction chs as [|ch chs IH]; intros d Hk; simpl; [done|].
  rewrite IH.
  - apply apply_change_other. intros ->. apply (Hk ch.1); [done|]. simpl. left.
  - intros key -> Hin. apply (Hk key); [done|]. simpl. by right.
Qed.

Lemma apply_changes_lookup (st0 : State) (chs : list (string * Resolvable))
    (d : gmap pykey value) (key : string) (r : Resolvable) :
  NoDup chs.*1 →
  (key, r) ∈ chs →
  foldl (apply_change st0) d chs !! KStr key
  = apply_change st0 d (key, r) !! KStr key.
Proof.
  revert d. induction chs as [|ch chs IH]; intros d Hnd Hin; simpl.
  { by apply elem_of_nil in Hin. }
  simpl in Hnd. apply NoDup_cons in Hnd as [Hnotin Hnd].
  apply elem_of_cons in Hin as [<-|Hin].
  - rewrite apply_changes_other; [done|]. by intros ? [= <-].
  - rewrite (IH _ Hnd Hin).
    assert (Hne : key ≠ ch.1).
    { intros ->. apply Hnotin. by apply (list_elem_of_fmap_2 fst _ _ Hin). }
    unfold apply_change at 1 3. simpl.
    destruct (resolved st0 r) as [v|]; [|by apply apply_change_other; congruence].
    destruct (is_empty_or_None v).
    { by rewrite !lookup_delete_eq. }
    destruct (unicode (st_heap st0) v);
      [by rewrite !lookup_insert_eq|by apply apply_change_other; congruence].
Qed.

(** C2: with a request in the context, SetUrlParamNode.render returns
    ["?"] followed by the url-encoding of the parameters [d] where: a
    change whose value resolves to the empty string or [None] removes its
    parameter; any other change sets its parameter to the text of the
    resolved value; a parameter that no change names is as in
    [request.GET], and there is no other key. *)
Theorem SetUrlParamNode_render_spec (self : SetUrlParamNode) (st : State)
    (q : gmap string (list string)) :
  fresh_dict_stable →
  request_GET st = Some q →
  map_Forall (λ _ r, change_resolves st r = true) (changes self) →
  ∃ d st',
    SetUrlParamNode_render self st
    = (Ok ("?" +:+ urlencode (st_heap st') d), st') ∧
    (∀ key r v,
       changes self !! key = Some r → resolved st r = Ok v →
       is_empty_or_None v = true →
       d !! KStr key = None) ∧
    (∀ key r v s,
       changes self !! key = Some r → resolved st r = Ok v →
       is_empty_or_None v = false → unicode (st_heap st) v = Ok s →
       d !! KStr key = Some (VStr s)) ∧
    (∀ name, changes self !! name = None →
       d !! KStr name = VList <$> q !! name) ∧
    (∀ k, (∀ name, k ≠ KStr name) → d !! k = None).
Proof.
  intros Hstable Hq Hall.
  set (p := fresh (dom (st_heap st))).
  set (chs := map_to_list (changes self)).
  set (d := foldl (apply_change st) (dict_of_QueryDict q) chs).
  exists d, (mkState (st_context st) (<[p:=ODict d]> (st_heap st))).
  destruct (query_render_start SetUrlParamNode_change chs st q Hq) as [Hp Hstart].
  assert (Hnd : NoDup chs.*1) by apply NoDup_fst_map_to_list.
  split; [|split; [|split; [|split]]].
  - unfold SetUrlParamNode_render. fold chs. rewrite Hstart. fold p.
    unfold mbind, M_bind, bind.
    rewrite (SetUrlParamNode_loop st p chs _ Hstable Hp).
    + apply encode_params_private.
    + apply Forall_forall. intros [key r] Hin%elem_of_map_to_list.
      apply (Hall key r Hin).
  - intros key r v Hkey Hv Hempty.
    apply elem_of_map_to_list in Hkey. fold chs in Hkey.
    unfold d. rewrite (apply_changes_lookup st chs _ key r Hnd Hkey).
    unfold apply_change. simpl. rewrite Hv, Hempty. apply lookup_delete_eq.
  - intros key r v s Hkey Hv Hempty Hs.
    apply elem_of_map_to_list in Hkey. fold chs in Hkey.
    unfold d. rewrite (apply_changes_lookup st chs _ key r Hnd Hkey).
    unfold apply_change. simpl. rewrite Hv, Hempty, Hs. apply lookup_insert_eq.
  - intros name Hname. unfold d. rewrite apply_changes_other.
    + unfold dict_of_QueryDict. rewrite lookup_kmap by apply _.
      by rewrite lookup_fmap.
    + intros key [= <-] Hin. apply list_elem_of_fmap in Hin as [[key r] [-> Hin]].
      apply elem_of_map_to_list in Hin. simpl in Hname. congruence.
  - intros k Hk. unfold d. rewrite apply_changes_other.
    + unfold dict_of_QueryDict. apply lookup_kmap_None; [apply _|].
      intros name ->. by destruct (Hk name).
    + intros key ->. by destruct (Hk key).
Qed.

(** The loop of QuerystringNode.render when every pair can be carried
    out. *)
Lemma QuerystringNode_loop (st0 : State) (p : loc)
    (pairs : list (FilterExpression * FilterExpression)) (d : gmap pykey value) :
  fresh_dict_stable →
  st_heap st0 !! p = None →
  Forall (λ pair, pair_resolves st0 pair = true) pairs →
  for_each pairs (QuerystringNode_update p)
    (mkState (st_context st0) (<[p:=ODict d]> (st_heap st0)))
  = (Ok tt, mkState (st_context st0)
              (<[p:=ODict (foldl (apply_pair st0) d pairs)]> (st_heap st0))).
Proof.
  intros Hstable Hp Hall. revert d.
  induction Hall as [|[key value] pairs Hpair _ IH]; intros d; simpl; [done|].
  unfold bind at 1. unfold QuerystringNode_update, mbind, M_bind, bind.
  unfold pair_resolves in Hpair. simpl in Hpair.
  apply andb_true_iff in Hpair as [Hk Hv].
  unfold apply_pair at 2. simpl.
  unfold pair_key in *.
  destruct (resolved st0 (RFilter key)) as [k|e] eqn:Hkey; [|done].
  destruct (resolved st0 (RFilter value)) as [v|e] eqn:Hvalue; [|done].
  destruct (Hstable _ _ d Hp) as (Hf & _ & _).
  unfold resolved in Hkey, Hvalue. simpl in Hkey, Hvalue.
  rewrite (Hf _ _ _ Hkey), (Hf _ _ _ Hvalue).
  destruct (is_empty_or_None k) eqn:Hempty; [apply IH|].
  destruct (key_of_value (st_heap st0) k) as [k'|e] eqn:Hhash; [|done].
  unfold get_state, lift. simpl.
  rewrite (key_of_value_stable _ p (ODict d) _ _ Hp Hhash).
  unfold dict_setitem. simpl. rewrite lookup_insert_eq, insert_insert_eq. apply IH.
Qed.

Lemma apply_pair_other (st0 : State) (d : gmap pykey value)
    (pair : FilterExpression * FilterExpression) (k : pykey) :
  pair_key st0 pair.1 ≠ Ok (Some k) → apply_pair st0 d pair !! k = d !! k.
Proof.
  intros Hk. unfold apply_pair.
  destruct (pair_key st0 pair.1) as [[k'|]|]; try done.
  destruct (resolved st0 (RFilter pair.2)); [|done].
  rewrite lookup_insert_ne; [done|]. congruence.
Qed.

Lemma apply_pair_is_Some (st0 : State) (d : gmap pykey value)
    (pair : FilterExpression * FilterExpression) (k : pykey) :
  is_Some (d !! k) → is_Some (apply_pair st0 d pair !! k).
Proof.
  intros Hk. unfold apply_pair.
  destruct (pair_key st0 pair.1) as [[k'|]|]; try done.
  destruct (resolved st0 (RFilter pair.2)); [|done].
  rewrite lookup_insert. by case_decide.
Qed.

Lemma apply_pairs_other (st0 : State)
    (pairs : list (FilterExpression * FilterExpression))
    (d : gmap pykey value) (k : pykey) :
  Forall (λ pair, pair_key st0 pair.1 ≠ Ok (Some k)) pairs →
  foldl (apply_pair st0) d pairs !! k = d !! k.
Proof.
  intros Hall. revert d.
  induction Hall as [|pair pairs Hpair _ IH]; intros d; simpl; [done|].
  rewrite IH. by apply apply_pair_other.
Qed.

Lemma apply_pairs_is_Some (st0 : State)
    (pairs : list (FilterExpression * FilterExpression))
    (d : gmap pykey value) (k : pykey) :
  is_Some (d !! k) → is_Some (foldl (apply_pair st0) d pairs !! k).
Proof.
  revert d. induction pairs as [|pair pairs IH]; intros d Hk; simpl; [done|].
  by apply IH, apply_pair_is_Some.
Qed.

Lemma apply_pairs_last (st0 : State)
    (before after : list (FilterExpression * FilterExpression))
    (pair : FilterExpression * FilterExpression)
    (d : gmap pykey value) (k : pykey) (v : value) :
  pair_key st0 pair.1 = Ok (Some k) →
  resolved st0 (RFilter pair.2) = Ok v →
  Forall (λ pair', pair_key st0 pair'.1 ≠ Ok (Some k)) after →
  foldl (apply_pair st0) d (before ++ pair :: after) !! k = Some v.
Proof.
  intros Hk Hv Hafter. rewrite foldl_app. simpl.
  rewrite (apply_pairs_other st0 after _ k Hafter).
  unfold apply_pair. rewrite Hk, Hv. apply lookup_insert_eq.
Qed.

(** C3: with a request in the context, QuerystringNode.render returns
    ["?"] followed by the url-encoding of the parameters [d] where: a pair
    whose key resolves to neither the empty string nor [None] sets the
    parameter of its key to its resolved value (the last such pair of a
    key decides); a parameter that no such pair names is as in
    [request.GET], pairs with an empty or [None] key naming none; and
    every parameter of [request.GET] is still present. *)
Theorem QuerystringNode_render_spec (self : QuerystringNode) (st : State)
    (q : gmap string (list string)) :
  fresh_dict_stable →
  request_GET st = Some q →
  Forall (λ pair, pair_resolves st pair = true) (params self) →
  ∃ d st',
    QuerystringNode_render self st
    = (Ok ("?" +:+ urlencode (st_heap st') d), st') ∧
    (∀ before pair after k v,
       params self = before ++ pair :: after →
       pair_key st pair.1 = Ok (Some k) →
       resolved st (RFilter pair.2) = Ok v →
       Forall (λ pair', pair_key st pair'.1 ≠ Ok (Some k)) after →
       d !! k = Some v) ∧
    (∀ k, Forall (λ pair, pair_key st pair.1 ≠ Ok (Some k)) (params self) →
       d !! k = dict_of_QueryDict q !! k) ∧
    (∀ name, is_Some (q !! name) → is_Some (d !! KStr name)).
Proof.
  intros Hstable Hq Hall.
  set (p := fresh (dom (st_heap st))).
  set (d := foldl (apply_pair st) (dict_of_QueryDict q) (params self)).
  exists d, (mkState (st_context st) (<[p:=ODict d]> (st_heap st))).
  destruct (query_render_start QuerystringNode_update (params self) st q Hq)
    as [Hp Hstart].
  split; [|split; [|split]].
  - unfold QuerystringNode_render. rewrite Hstart. fold p.
    unfold mbind, M_bind, bind.
    rewrite (QuerystringNode_loop st p _ _ Hstable Hp Hall).
    apply encode_params_private.
  - intros before pair after k v Hparams Hk Hv Hafter.
    unfold d. rewrite Hparams. by apply apply_pairs_last.
  - intros k Hk. unfold d. by apply apply_pairs_other.
  - intros name Hname. unfold d. apply apply_pairs_is_Some.
    unfold dict_of_QueryDict. rewrite lookup_kmap by apply _.
    rewrite lookup_fmap. by apply fmap_is_Some.
Qed.

(** ** The table nodes and the table *)

Lemma bind_get_state {S B} (f : S → M S B) (s : S) :
  bind get_state f s = f s s.
Proof. reflexivity. Qed.

Lemma bind_context_contains {B} (key : string) (f : bool → M State B) (st : State) :
  bind (context_contains key) f st
  = f (bool_decide (is_Some (st_context st !! key))) st.
Proof. reflexivity. Qed.

Lemma bind_context_setitem {B} (key : string) (v : value) (f : unit → M State B)
    (st : State) :
  bind (context_setitem key v) f st
  = f tt (mkState (<[key:=v]> (st_context st)) (st_heap st)).
Proof. reflexivity. Qed.

Lemma bind_Ok {S A B} (m : M S A) (f : A → M S B) (s s' : S) (b : B) :
  bind m f s = (Ok b, s') → ∃ a s1, m s = (Ok a, s1) ∧ f a s1 = (Ok b, s').
Proof.
  unfold bind. destruct (m s) as [[a|e] s1]; [|done]. intros H. by exists a, s1.
Qed.

Lemma delattr_deletes (v : value) (name : string) (st : State) :
  hasattr (st_heap (delattr v name st).2) v name = false.
Proof.
  unfold delattr, hasattr. destruct v as [| | | |l]; try done.
  destruct (st_heap st !! l) as [[c attrs| |]|] eqn:Hl; simpl; rewrite ?Hl; try done.
  destruct (attrs !! name) eqn:Hname; simpl.
  - by rewrite lookup_insert_eq, lookup_delete_eq.
  - by rewrite Hl, Hname.
Qed.

(** After the inner [try ... finally] the table has no [request]
    attribute, whether rendering the template returned or raised. *)
Lemma delegate_deletes (table request : value) (render : M State string)
    (st : State) :
  hasattr (st_heap (delegate table request render st).2) table "request" = false.
Proof.
  unfold delegate, try_finally.
  destruct ((_ ← setattr table "request" request; render) st) as [r s'].
  pose proof (delattr_deletes table "request" s') as Hdel.
  by destruct (delattr table "request" s') as [[[]|e] s''].
Qed.

Lemma render_handler_state (e : exn) (st : State) : (render_handler e st).2 = st.
Proof. unfold render_handler. by destruct (DEBUG settings). Qed.

Lemma try_except_render_handler (body : M State string) (st : State) :
  (try_except body render_handler st).2 = (body st).2.
Proof.
  unfold try_except. destruct (body st) as [[out|e] st']; [done|].
  apply render_handler_state.
Qed.

(** C10: when RenderTableNode.render or SmartRenderTableNode.render gets as
    far as attaching the request to the table, the table has no [request]
    attribute once the render is over, whether the template rendered or
    raised. *)
Theorem table_node_request_deleted (node : TableNode) (st st1 : State)
    (table request : value) :
  table_node_prepare node st = (Ok (table, request), st1) →
  hasattr (st_heap (table_node_render node st).2) table "request" = false.
Proof.
  destruct node as [self|self]; simpl; unfold mbind, M_bind; intros H;
    apply bind_Ok in H as (x & s1 & Hprepare & H).
  - destruct x as [[[table' request'] template] context].
    injection H as -> -> ->.
    unfold RenderTableNode_render. rewrite try_except_render_handler.
    unfold RenderTableNode_body, mbind, M_bind, bind. rewrite Hprepare.
    apply delegate_deletes.
  - destruct x as [[table' request'] template].
    injection H as -> -> ->.
    unfold SmartRenderTableNode_render. rewrite try_except_render_handler.
    unfold SmartRenderTableNode_body, mbind, M_bind, bind. rewrite Hprepare.
    apply delegate_deletes.
Qed.

Lemma load_template_state (template : value) (st : State) :
  (load_template template st).2 = st.
Proof. by destruct template. Qed.

(** RenderTableNode.render changes nothing before the inner [try]. *)
Lemma RenderTableNode_prepare_state (self : RenderTableNode) (st : State) :
  (RenderTableNode_prepare self st).2 = st.
Proof.
  unfold RenderTableNode_prepare, mbind, mret, M_bind, M_ret, bind, ret.
  pose proof (resolve_state (RFilter (rt_table self)) st) as Hres.
  destruct (resolve _ st) as [[table|e] s]; simpl in Hres; subst s; [|done].
  unfold get_state. destruct (isinstance _ table Table); [|done]. simpl.
  unfold context_contains. destruct (bool_decide _); [|done]. simpl.
  unfold context_getitem. destruct (st_context st !! "request") as [request|]; [|done].
  unfold lift. destruct (RequestContext _ _ _) as [context|e]; [|done].
  assert (Htpl : ∀ (m : M State value), (m st).2 = st →
    (match m st with
     | (Ok a, s') =>
         match load_template a s' with
         | (Ok a0, s'0) => (Ok (table, request, a0, context), s'0)
         | (Raise e, s'0) => (Raise e, s'0)
         end
     | (Raise e, s') => (Raise e, s')
     end).2 = st).
  { intros m Hm. destruct (m st) as [[a|e] s]; simpl in Hm; subst s; [|done].
    pose proof (load_template_state a st) as Hl.
    by destruct (load_template a st) as [[t|e] s]. }
  destruct (rt_template self) as [t|]; apply Htpl.
  - done.
  - apply getattr_state.
Qed.

Lemma resolve_Ok (r : Resolvable) (st st1 : State) (v : value) :
  resolve r st = (Ok v, st1) → st1 = st ∧ resolved st r = Ok v.
Proof.
  unfold resolved. pose proof (resolve_state r st) as Hst.
  destruct (resolve r st) as [x s]. simpl in *. by intros [= -> ->].
Qed.

Lemma getattr_Ok (v x : value) (name : string) (st st1 : State) :
  getattr v name st = (Ok x, st1) →
  st1 = st ∧ ∃ l c attrs,
    v = VObj l ∧ st_heap st !! l = Some (OInstance c attrs) ∧ attrs !! name = Some x.
Proof.
  unfold getattr. destruct v as [| | | |l]; try done.
  destruct (st_heap st !! l) as [[c attrs| |]|] eqn:Hl; try done.
  destruct (attrs !! name) as [y|] eqn:Hname; [|done].
  intros [= -> ->]. split; [done|]. by exists l, c, attrs.
Qed.

Lemma setattr_Ok (v x : value) (name : string) (st st1 : State) :
  setattr v name x st = (Ok tt, st1) →
  ∃ l c attrs,
    v = VObj l ∧ st_heap st !! l = Some (OInstance c attrs) ∧
    st1 = mkState (st_context st) (<[l:=OInstance c (<[name:=x]> attrs)]> (st_heap st)).
Proof.
  unfold setattr. destruct v as [| | | |l]; try done.
  destruct (st_heap st !! l) as [[c attrs| |]|] eqn:Hl; try done.
  intros [= <-]. by exists l, c, attrs.
Qed.

Lemma Table_paginate_Ok (v page : value) (st st1 : State) :
  Table_paginate v page st = (Ok tt, st1) →
  ∃ l c attrs attrs',
    v = VObj l ∧ st_heap st !! l = Some (OInstance c attrs) ∧
    paginate attrs page = Ok attrs' ∧
    st1 = mkState (st_context st) (<[l:=OInstance c attrs']> (st_heap st)).
Proof.
  unfold Table_paginate. destruct v as [| | | |l]; try done.
  destruct (st_heap st !! l) as [[c attrs| |]|] eqn:Hl; try done.
  destruct (paginate attrs page) as [attrs'|] eqn:Hp; [|done].
  intros [= <-]. by exists l, c, attrs, attrs'.
Qed.

Lemma isinstance_Table (h : gmap loc obj) (v : value) :
  isinstance h v Table = true →
  ∃ l attrs, v = VObj l ∧ h !! l = Some (OInstance Table attrs).
Proof.
  unfold isinstance. destruct v as [| | | |l]; try done.
  destruct (h !! l) as [[[] attrs| |]|] eqn:Hl; try done. by exists l, attrs.
Qed.

Lemma resolve_optional_Ok (f : option FilterExpression) (st st1 : State)
    (v : value) :
  resolve_optional f st = (Ok v, st1) → st1 = st.
Proof.
  destruct f as [f|]; [|by intros [= _ <-]].
  unfold resolve_optional. by intros [-> _]%resolve_Ok.
Qed.

Lemma load_template_Ok (template : value) (st st1 : State) (t : Template) :
  load_template template st = (Ok t, st1) → st1 = st.
Proof.
  intros H. pose proof (load_template_state template st) as Hst.
  by rewrite H in Hst.
Qed.


(** Setting an attribute other than [GET] leaves the query parameters of
    the request as they are. *)
Lemma request_GET_setattr (st st1 : State) (q : gmap string (list string))
    (v x : value) (name : string) :
  name ≠ "GET" →
  request_GET st = Some q →
  setattr v name x st = (Ok tt, st1) →
  request_GET st1 = Some q.
Proof.
  intros Hname (r & cr & rattrs & g & Hreq & Hr & HG & Hg)%request_GET_inv
    (l & c & attrs & -> & Hl & ->)%setattr_Ok.
  unfold request_GET. simpl. rewrite Hreq.
  assert (Hgl : g ≠ l) by congruence.
  destruct (decide (r = l)) as [->|Hrl].
  - rewrite lookup_insert_eq. rewrite lookup_insert_ne by done.
    assert (attrs = rattrs) as -> by congruence.
    rewrite HG. rewrite lookup_insert_ne by congruence. by rewrite Hg.
  - rewrite lookup_insert_ne by done. rewrite Hr, HG.
    rewrite lookup_insert_ne by congruence. by rewrite Hg.
Qed.

(** [request.GET.get(key, otherwise)] *)
Lemma request_parameter (st : State) (q : gmap string (list string))
    (request : value) (key : string) (otherwise : value) :
  request_GET st = Some q →
  st_context st !! "request" = Some request →
  (GET ← getattr request "GET"; mapping_get GET key otherwise) st
  = (Ok (QueryDict_get q key otherwise), st).
Proof.
  intros (r & cr & rattrs & g & Hreq & Hr & HG & Hg)%request_GET_inv Hrequest.
  assert (request = VObj r) as -> by congruence.
  unfold mbind, M_bind, bind, getattr, mapping_get. by rewrite Hr, HG, Hg.
Qed.

(** C7, as the code has it: RenderTableNode.render applies no query
    parameter to the table.  It changes nothing before the inner [try],
    and when it reaches the inner [try] the template is rendered in the
    state the render began in with one change, the [request] attribute
    attached to the table: the table is handed over with the ordering and
    the page it had. *)
Theorem RenderTableNode_hands_table_over (self : RenderTableNode) (st : State) :
  (RenderTableNode_prepare self st).2 = st ∧
  ∀ table request template context st1,
    RenderTableNode_prepare self st
    = (Ok (table, request, template, context), st1) →
    ∃ l attrs,
      table = VObj l ∧
      st_heap st !! l = Some (OInstance Table attrs) ∧
      RenderTableNode_body self st
      = try_finally (render_template template context) (delattr table "request")
          (mkState (st_context st)
             (<[l:=OInstance Table (<["request":=request]> attrs)]> (st_heap st))).
Proof.
  split; [apply RenderTableNode_prepare_state|].
  intros table request template context st1 Hprepare.
  pose proof (RenderTableNode_prepare_state self st) as Hst.
  rewrite Hprepare in Hst. simpl in Hst. subst st1.
  assert (Htable : isinstance (st_heap st) table Table = true).
  { revert Hprepare. unfold RenderTableNode_prepare, mbind, M_bind. intros H.
    apply bind_Ok in H as (v & s & [-> Hv]%resolve_Ok & H).
    rewrite bind_get_state in H.
    destruct (isinstance (st_heap st) v Table) eqn:Hinst; [|done]. simpl in H.
    rewrite bind_context_contains in H.
    destruct (bool_decide _) in H; [|done]. simpl in H.
    apply bind_Ok in H as (rq & s1 & Hrq & H).
    unfold context_getitem in Hrq.
    destruct (st_context st !! "request"); [|done]. injection Hrq as <- <-.
    rewrite bind_get_state in H.
    apply bind_Ok in H as (c & s2 & Hc & H).
    apply bind_Ok in H as (t & s3 & _ & H).
    apply bind_Ok in H as (t' & s4 & _ & H).
    by injection H as <- _ _ _ _. }
  apply isinstance_Table in Htable as (l & attrs & -> & Hl).
  exists l, attrs. split; [done|]. split; [done|].
  unfold RenderTableNode_body, mbind, M_bind. unfold bind at 1.
  rewrite Hprepare. unfold delegate, try_finally, mbind, M_bind, bind, setattr.
  by rewrite Hl.
Qed.

(** C6: when SmartRenderTableNode.render gets as far as delegating to the
    template, the table it delegates with has had its [order_by] set to
    the last ['sort'] query parameter of the request ([None] when absent)
    and has then been paginated to the last ['page'] query parameter (1
    when absent).  [attrs0] are the attributes of the table the tag was
    given, or of the table made from the query set. *)
Theorem SmartRenderTableNode_sorts_and_paginates (self : SmartRenderTableNode)
    (st st1 : State) (q : gmap string (list string))
    (table request : value) (template : Template) :
  request_GET st = Some q →
  SmartRenderTableNode_prepare self st = (Ok (table, request, template), st1) →
  ∃ l attrs0 attrs1,
    table = VObj l ∧
    ((resolved st (RFilter (table_or_queryset self)) = Ok (VObj l) ∧
      st_heap st !! l = Some (OInstance Table attrs0)) ∨
     (∃ queryset,
        resolved st (RFilter (table_or_queryset self)) = Ok queryset ∧
        isinstance (st_heap st) queryset QuerySet = true ∧
        QuerySetTable queryset (st_heap st) = Ok attrs0 ∧
        st_heap st !! l = None)) ∧
    paginate (<["order_by":=QueryDict_get q "sort" VNone]> attrs0)
             (QueryDict_get q "page" (VInt 1)) = Ok attrs1 ∧
    st_heap st1 !! l = Some (OInstance Table attrs1) ∧
    SmartRenderTableNode_body self st
    = delegate table request (render_template_in_context template) st1.
Proof.
  intros Hq Hprepare.
  assert (Hbody : SmartRenderTableNode_body self st
                  = delegate table request (render_template_in_context template)
                      st1).
  { unfold SmartRenderTableNode_body, mbind, M_bind, bind. by rewrite Hprepare. }
  revert Hprepare. unfold SmartRenderTableNode_prepare, mbind, M_bind. intros H.
  apply bind_Ok in H as (tq & s & [-> Htq]%resolve_Ok & H).
  rewrite bind_get_state in H.
  apply bind_Ok in H as (table' & sa & Htable & H).
  rewrite bind_get_state in H.
  destruct (isinstance (st_heap sa) table' Table) eqn:Hinst; [|done]. simpl in H.
  apply isinstance_Table in Hinst as (l & attrs0 & -> & Hl).
  (* the table the tag works on, and the state it is in *)
  assert (Hsa : st_context sa = st_context st ∧ st_heap st ⊆ st_heap sa ∧
    ((tq = VObj l ∧ st_heap st !! l = Some (OInstance Table attrs0)) ∨
     (isinstance (st_heap st) tq QuerySet = true ∧
      QuerySetTable tq (st_heap st) = Ok attrs0 ∧ st_heap st !! l = None))).
  { destruct (isinstance (st_heap st) tq QuerySet) eqn:Hqs.
    - apply bind_Ok in Htable as (attrs & sq & Hattrs & Htable).
      unfold lift in Hattrs. injection Hattrs as Hattrs <-.
      apply bind_Ok in Htable as (l' & sq & Halloc & Htable).
      injection Htable as <- <-. unfold alloc in Halloc.
      injection Halloc as <- <-. simpl in *.
      assert (Hfresh : st_heap st !! fresh (dom (st_heap st)) = None).
      { apply not_elem_of_dom, is_fresh. }
      rewrite lookup_insert_eq in Hl. injection Hl as ->.
      split; [done|]. split; [by apply insert_subseteq|]. right. done.
    - injection Htable as <- <-. split; [done|]. split; [done|]. by left. }
  destruct Hsa as (Hctx & Hsub & Hbefore).
  pose proof (request_GET_weaken st sa q Hctx Hsub Hq) as Hqa.
  rewrite bind_context_contains in H.
  destruct (bool_decide _) eqn:Hhas in H; [|done]. simpl in H.
  apply bind_Ok in H as (request' & sr & Hreq & H).
  unfold context_getitem in Hreq.
  destruct (st_context sa !! "request") as [rq|] eqn:Hrq; [|done].
  injection Hreq as <- <-.
  (* table.order_by = request.GET.get('sort') *)
  pose proof (request_parameter sa q rq "sort" VNone Hqa Hrq) as Hsort.
  unfold mbind, M_bind in Hsort.
  apply bind_Ok in H as (GET & sg & HGET & H).
  apply bind_Ok in H as (sort & sg' & Hget & H).
  unfold bind in Hsort. rewrite HGET, Hget in Hsort. injection Hsort as -> ->.
  apply bind_Ok in H as ([] & sb & Hset & H).
  pose proof (request_GET_setattr sa sb q _ _ "order_by" ltac:(done) Hqa Hset) as Hqb.
  apply setattr_Ok in Hset as (l' & c & attrs & [= <-] & Hl' & ->).
  rewrite Hl in Hl'. injection Hl' as <- <-.
  (* table.paginate(page=request.GET.get('page', 1)) *)
  pose proof (request_parameter _ q rq "page" (VInt 1) Hqb Hrq) as Hpage.
  unfold mbind, M_bind in Hpage.
  apply bind_Ok in H as (GET' & sh & HGET' & H).
  apply bind_Ok in H as (page & sh' & Hget' & H).
  unfold bind in Hpage. rewrite HGET', Hget' in Hpage. injection Hpage as -> ->.
  apply bind_Ok in H as ([] & sc & Hpaginate & H).
  apply Table_paginate_Ok in Hpaginate
    as (l' & c & attrs & attrs1 & [= <-] & Hl' & Hpaginate & ->).
  simpl in Hl'. rewrite lookup_insert_eq in Hl'. injection Hl' as <- <-.
  (* the rest only writes the context *)
  rewrite bind_context_setitem in H. simpl in H.
  apply bind_Ok in H as (header & s1 & Hheader & H).
  apply resolve_optional_Ok in Hheader as ->.
  rewrite bind_context_setitem in H. simpl in H.
  apply bind_Ok in H as (row & s2 & Hrow & H).
  apply resolve_optional_Ok in Hrow as ->.
  rewrite bind_context_setitem in H. simpl in H.
  apply bind_Ok in H as (tpl & s3 & Htpl & H).
  assert (Hs : st_heap s3 !! l = Some (OInstance Table attrs1)).
  { destruct (table_template self).
    - apply resolve_Ok in Htpl as [-> _]. simpl. by rewrite lookup_insert_eq.
    - apply getattr_Ok in Htpl as [-> _]. simpl. by rewrite lookup_insert_eq. }
  apply bind_Ok in H as (tpl' & s4 & Hload & H).
  apply load_template_Ok in Hload as ->.
  injection H as <- <- <- <-.
  exists l, attrs0, attrs1.
  split; [done|]. split.
  { destruct Hbefore as [[-> Hl0]|(Hqs & Hattrs & Hnone)]; [by left|].
    right. by exists tq. }
  split; [done|]. by split.
Qed.

End Properties.

(** * The properties on the concrete environment *)

Module Examples.

Import Demo.

Lemma demo_fresh_dict_stable (debug : bool) :
  fresh_dict_stable (dj := demo_django debug).
Proof. intros h p d Hp. by repeat split. Qed.

Example set_url_param_renders :
  (SetUrlParamNode_render (dj := demo_django false) demo_set_url_param demo_state).1
  = Ok "?q=a&q=b&x=y&page=3".
Proof. vm_compute. reflexivity. Qed.

Example querystring_renders :
  (QuerystringNode_render (dj := demo_django false) demo_querystring demo_state).1
  = Ok "?sort=age&q=a&q=b&page=7".
Proof. vm_compute. reflexivity. Qed.

Example smart_render_table_renders :
  (SmartRenderTableNode_render (dj := demo_django false)
     demo_smart_render_table demo_state).1
  = Ok "order_by=name page=2".
Proof. vm_compute. reflexivity. Qed.

Example smart_render_table_renders_queryset :
  (SmartRenderTableNode_render (dj := demo_django false)
     (mkSmartRenderTableNode (mkFilterExpression "people") None None None)
     demo_state).1
  = Ok "order_by=name page=2".
Proof. vm_compute. reflexivity. Qed.

Example render_table_renders :
  (RenderTableNode_render (dj := demo_django false) demo_render_table demo_state).1
  = Ok "order_by=None page=None".
Proof. vm_compute. reflexivity. Qed.

Example render_table_broken_debug :
  (RenderTableNode_render (dj := demo_django true) demo_render_broken demo_state).1
  = Raise (OtherException "TemplateSyntaxError" "broken").
Proof. vm_compute. reflexivity. Qed.

(** C1 at work: without a request in the context the [try] suite raises
    [AssertionError]; the render returns the placeholder when
    [settings.DEBUG] is off and raises when it is on. *)
Lemma table_node_render_exception_witness :
  (table_node_body (dj := demo_django false)
     (NRenderTable demo_render_table) bare_state
   = (Raise (AssertionError request_missing), bare_state) ∧
   table_node_render (dj := demo_django false)
     (NRenderTable demo_render_table) bare_state
   = (Ok "INVALID", bare_state)) ∧
  (table_node_body (dj := demo_django true)
     (NSmartRenderTable demo_smart_render_table) bare_state
   = (Raise (AssertionError request_missing), bare_state) ∧
   table_node_render (dj := demo_django true)
     (NSmartRenderTable demo_smart_render_table) bare_state
   = (Raise (AssertionError request_missing), bare_state)).
Proof.
  split; (split; [vm_compute; reflexivity|]).
  - apply (table_node_render_exception (dj := demo_django false)
             (NRenderTable demo_render_table) bare_state bare_state
             (AssertionError request_missing)).
    vm_compute. reflexivity.
  - apply (table_node_render_exception (dj := demo_django true)
             (NSmartRenderTable demo_smart_render_table) bare_state bare_state
             (AssertionError request_missing)).
    vm_compute. reflexivity.
Defined.

(** C9 at work. *)
Lemma query_node_render_without_request_witness :
  (st_context bare_state !! "request" = None ∨
   ∃ v, st_context bare_state !! "request" = Some v ∧
        truthy (st_heap bare_state) v = false) ∧
  query_node_render (dj := demo_django false)
    (NSetUrlParam demo_set_url_param) bare_state = (Ok "", bare_state).
Proof.
  assert (Hreq : st_context bare_state !! "request" = None ∨
                 ∃ v, st_context bare_state !! "request" = Some v ∧
                      truthy (st_heap bare_state) v = false).
  { left. vm_compute. reflexivity. }
  split; [exact Hreq|].
  exact (query_node_render_without_request (dj := demo_django false)
           (NSetUrlParam demo_set_url_param) bare_state Hreq).
Defined.

(** C5 at work. *)
Lemma query_node_render_keeps_GET_witness :
  request_GET demo_state = Some demo_GET ∧
  request_GET (query_node_render (dj := demo_django false)
                 (NQuerystring demo_querystring) demo_state).2 = Some demo_GET ∧
  st_context (query_node_render (dj := demo_django false)
                (NQuerystring demo_querystring) demo_state).2
  = st_context demo_state ∧
  st_heap demo_state ⊆
  st_heap (query_node_render (dj := demo_django false)
             (NQuerystring demo_querystring) demo_state).2.
Proof.
  assert (Hq : request_GET demo_state = Some demo_GET) by (vm_compute; reflexivity).
  split; [exact Hq|].
  exact (query_node_render_keeps_GET (dj := demo_django false)
           (NQuerystring demo_querystring) demo_state demo_GET Hq).
Defined.

(** C2 at work: [page] is set to the text of [next_page], [sort] is
    removed, [x] is added and [q] keeps its two values. *)
Lemma SetUrlParamNode_render_spec_witness :
  fresh_dict_stable (dj := demo_django false) ∧
  request_GET demo_state = Some demo_GET ∧
  map_Forall (λ _ r, change_resolves (dj := demo_django false) demo_state r = true)
    (changes demo_set_url_param) ∧
  ∃ d st',
    SetUrlParamNode_render (dj := demo_django false) demo_set_url_param demo_state
    = (Ok ("?" +:+ urlencode (Django := demo_django false) (st_heap st') d), st') ∧
    (∀ key r v,
       changes demo_set_url_param !! key = Some r →
       resolved (dj := demo_django false) demo_state r = Ok v →
       is_empty_or_None v = true →
       d !! KStr key = None) ∧
    (∀ key r v s,
       changes demo_set_url_param !! key = Some r →
       resolved (dj := demo_django false) demo_state r = Ok v →
       is_empty_or_None v = false →
       unicode (Django := demo_django false) (st_heap demo_state) v = Ok s →
       d !! KStr key = Some (VStr s)) ∧
    (∀ name, changes demo_set_url_param !! name = None →
       d !! KStr name = VList <$> demo_GET !! name) ∧
    (∀ k, (∀ name, k ≠ KStr name) → d !! k = None).
Proof.
  assert (Hq : request_GET demo_state = Some demo_GET) by (vm_compute; reflexivity).
  assert (Hall : map_Forall
            (λ _ r, change_resolves (dj := demo_django false) demo_state r = true)
            (changes demo_set_url_param)).
  { apply map_Forall_to_list. vm_compute. repeat constructor. }
  split; [apply demo_fresh_dict_stable|].
  split; [exact Hq|]. split; [exact Hall|].
  exact (SetUrlParamNode_render_spec (dj := demo_django false)
           demo_set_url_param demo_state demo_GET
           (demo_fresh_dict_stable false) Hq Hall).
Defined.

(** C3 at work: the pair with the [None] key is skipped and the last pair
    for [page] decides. *)
Lemma QuerystringNode_render_spec_witness :
  fresh_dict_stable (dj := demo_django false) ∧
  request_GET demo_state = Some demo_GET ∧
  Forall (λ pair, pair_resolves (dj := demo_django false) demo_state pair = true)
    (params demo_querystring) ∧
  ∃ d st',
    QuerystringNode_render (dj := demo_django false) demo_querystring demo_state
    = (Ok ("?" +:+ urlencode (Django := demo_django false) (st_heap st') d), st') ∧
    (∀ before pair after k v,
       params demo_querystring = before ++ pair :: after →
       pair_key (dj := demo_django false) demo_state pair.1 = Ok (Some k) →
       resolved (dj := demo_django false) demo_state (RFilter pair.2) = Ok v →
       Forall (λ pair', pair_key (dj := demo_django false) demo_state pair'.1
                        ≠ Ok (Some k)) after →
       d !! k = Some v) ∧
    (∀ k, Forall (λ pair, pair_key (dj := demo_django false) demo_state pair.1
                          ≠ Ok (Some k)) (params demo_querystring) →
       d !! k = dict_of_QueryDict demo_GET !! k) ∧
    (∀ name, is_Some (demo_GET !! name) → is_Some (d !! KStr name)).
Proof.
  assert (Hq : request_GET demo_state = Some demo_GET) by (vm_compute; reflexivity).
  assert (Hall : Forall
            (λ pair, pair_resolves (dj := demo_django false) demo_state pair = true)
            (params demo_querystring)).
  { vm_compute. repeat constructor. }
  split; [apply demo_fresh_dict_stable|].
  split; [exact Hq|]. split; [exact Hall|].
  exact (QuerystringNode_render_spec (dj := demo_django false)
           demo_querystring demo_state demo_GET
           (demo_fresh_dict_stable false) Hq Hall).
Defined.

(** C6 at work: the table is ordered by [name] and paginated to page
    ["2"]. *)
Lemma SmartRenderTableNode_sorts_and_paginates_witness :
  let st1 := (SmartRenderTableNode_prepare (dj := demo_django false)
                demo_smart_render_table demo_state).2 in
  request_GET demo_state = Some demo_GET ∧
  SmartRenderTableNode_prepare (dj := demo_django false)
    demo_smart_render_table demo_state
  = (Ok (VObj table_loc, VObj request_loc, mkTemplate "table.html"), st1) ∧
  ∃ l attrs0 attrs1,
    VObj table_loc = VObj l ∧
    ((resolved (dj := demo_django false) demo_state
        (RFilter (table_or_queryset demo_smart_render_table)) = Ok (VObj l) ∧
      st_heap demo_state !! l = Some (OInstance Table attrs0)) ∨
     (∃ queryset,
        resolved (dj := demo_django false) demo_state
          (RFilter (table_or_queryset demo_smart_render_table)) = Ok queryset ∧
        isinstance (st_heap demo_state) queryset QuerySet = true ∧
        QuerySetTable (Django := demo_django false) queryset (st_heap demo_state)
        = Ok attrs0 ∧
        st_heap demo_state !! l = None)) ∧
    paginate (Django := demo_django false)
      (<["order_by":=QueryDict_get demo_GET "sort" VNone]> attrs0)
      (QueryDict_get demo_GET "page" (VInt 1)) = Ok attrs1 ∧
    st_heap st1 !! l = Some (OInstance Table attrs1) ∧
    SmartRenderTableNode_body (dj := demo_django false)
      demo_smart_render_table demo_state
    = delegate (VObj table_loc) (VObj request_loc)
        (render_template_in_context (dj := demo_django false)
           (mkTemplate "table.html")) st1.
Proof.
  intros st1.
  assert (Hq : request_GET demo_state = Some demo_GET) by (vm_compute; reflexivity).
  assert (Hprepare :
    SmartRenderTableNode_prepare (dj := demo_django false)
      demo_smart_render_table demo_state
    = (Ok (VObj table_loc, VObj request_loc, mkTemplate "table.html"), st1)).
  { vm_compute. reflexivity. }
  split; [exact Hq|]. split; [exact Hprepare|].
  exact (SmartRenderTableNode_sorts_and_paginates (dj := demo_django false)
           demo_smart_render_table demo_state st1 demo_GET
           (VObj table_loc) (VObj request_loc) (mkTemplate "table.html")
           Hq Hprepare).
Defined.

(** C10 at work: the template raises and the request is deleted all the
    same; so it is when the template renders. *)
Lemma table_node_request_deleted_witness :
  (table_node_prepare (dj := demo_django true)
     (NRenderTable demo_render_broken) demo_state
   = (Ok (VObj table_loc, VObj request_loc), demo_state) ∧
   hasattr (st_heap (table_node_render (dj := demo_django true)
                       (NRenderTable demo_render_broken) demo_state).2)
     (VObj table_loc) "request" = false) ∧
  (table_node_prepare (dj := demo_django false)
     (NSmartRenderTable demo_smart_render_table) demo_state
   = (Ok (VObj table_loc, VObj request_loc),
      (table_node_prepare (dj := demo_django false)
         (NSmartRenderTable demo_smart_render_table) demo_state).2) ∧
   hasattr (st_heap (table_node_render (dj := demo_django false)
                       (NSmartRenderTable demo_smart_render_table) demo_state).2)
     (VObj table_loc) "request" = false).
Proof.
  split; (split; [vm_compute; reflexivity|]).
  - apply (table_node_request_deleted (dj := demo_django true)
             (NRenderTable demo_render_broken) demo_state demo_state
             (VObj table_loc) (VObj request_loc)).
    vm_compute. reflexivity.
  - eapply (table_node_request_deleted (dj := demo_django false)
             (NSmartRenderTable demo_smart_render_table) demo_state _
             (VObj table_loc) (VObj request_loc)).
    vm_compute. reflexivity.
Defined.

(** C7 fails on the code: for the request of [/?sort=name&page=2] the
    node of [render_table] hands the table to the template with the
    ordering it had and without a page. *)
Lemma RenderTableNode_does_not_sort_or_paginate :
  ¬ RenderTableNode_sorts_and_paginates (dj := demo_django false)
      demo_render_table demo_state.
Proof.
  intros Hclaim.
  destruct (Hclaim demo_GET (VObj table_loc) (VObj request_loc)
              (mkTemplate "table.html")
              {[ "request" := VObj request_loc; "table" := VObj table_loc ]}
              demo_state)
    as (l & attrs0 & attrs1 & [= <-] & Hbefore & Hpaginate & Hafter).
  - vm_compute. reflexivity.
  - vm_compute. reflexivity.
  - rewrite Hbefore in Hafter. injection Hafter as <-.
    vm_compute in Hbefore. injection Hbefore as <-.
    vm_compute in Hpaginate. discriminate Hpaginate.
Qed.

(** C7 at work: for [/?sort=name&page=2] the template of
    [{% render_table table %}] is rendered with the table as it was, the
    request attached. *)
Lemma RenderTableNode_hands_table_over_witness :
  let context : gmap string value :=
    {[ "request" := VObj request_loc; "table" := VObj table_loc ]} in
  RenderTableNode_prepare (dj := demo_django false) demo_render_table demo_state
  = (Ok (VObj table_loc, VObj request_loc, mkTemplate "table.html", context),
     demo_state) ∧
  ∃ l attrs,
    VObj table_loc = VObj l ∧
    st_heap demo_state !! l = Some (OInstance Table attrs) ∧
    RenderTableNode_body (dj := demo_django false) demo_render_table demo_state
    = try_finally
        (render_template (dj := demo_django false) (mkTemplate "table.html") context)
        (delattr (VObj table_loc) "request")
        (mkState (st_context demo_state)
           (<[l:=OInstance Table (<["request":=VObj request_loc]> attrs)]>
              (st_heap demo_state))).
Proof.
  intros context.
  assert (Hprepare :
    RenderTableNode_prepare (dj := demo_django false) demo_render_table demo_state
    = (Ok (VObj table_loc, VObj request_loc, mkTemplate "table.html", context),
       demo_state)) by (vm_compute; reflexivity).
  split; [exact Hprepare|].
  exact (proj2 (RenderTableNode_hands_table_over (dj := demo_django false)
                  demo_render_table demo_state)
           (VObj table_loc) (VObj request_loc) (mkTemplate "table.html") context
           demo_state Hprepare).
Defined.

End Examples.

(** * Further properties of the tag functions and the nodes *)

Section TagProperties.

Context {dj : Django}.

(** ** kwarg_re and token_kwargs *)

Ltac string_append :=
  repeat first
    [ progress change (String.append EmptyString ?x) with x in *
    | progress change (String.append (String ?c ?x) ?y)
        with (String c (String.append x y)) in * ].

Lemma last_eq_None (s v1 v2 : string) :
  last_eq s = None → s = v1 +:+ String "=" v2 → v2 = "".
Proof.
  revert s. induction v1 as [|c v1 IH]; intros s Hs ->; string_append;
    simpl in Hs.
  - destruct (last_eq v2) as [[k v]|]; [done|]. by destruct v2.
  - destruct (last_eq (v1 +:+ String "=" v2)) as [[k v]|] eqn:Hl; [done|].
    by apply (IH _ Hl).
Qed.

Lemma last_eq_Some (s k v : string) :
  last_eq s = Some (k, v) →
  s = k +:+ String "=" v ∧ v ≠ "" ∧ last_eq v = None.
Proof.
  revert k v. induction s as [|c s IH]; intros k v; simpl; [done|].
  destruct (last_eq s) as [[k' v']|] eqn:Hl.
  - intros [= <- <-]. by destruct (IH _ _ eq_refl) as (-> & Hv & Hnone).
  - destruct (Ascii.eqb_spec c "="); [|done].
    destruct s as [|c' s']; [done|]. simpl.
    intros [= <- <-]. by subst c.
Qed.

Lemma last_eq_append (k v : string) :
  v ≠ "" → last_eq v = None → last_eq (k +:+ String "=" v) = Some (k, v).
Proof.
  intros Hv Hnone. induction k as [|c k IH]; string_append; simpl.
  - rewrite Hnone. by destruct v.
  - by rewrite IH.
Qed.

Lemma last_eq_None_inv (v : string) :
  (∀ v1 v2, v = v1 +:+ String "=" v2 → v2 = "") → last_eq v = None.
Proof.
  intros Hv. destruct (last_eq v) as [[k w]|] eqn:Hl; [|done].
  apply last_eq_Some in Hl as (-> & Hw & _). by destruct (Hw (Hv k w eq_refl)).
Qed.

(** X1: [kwarg_re] gives a first group exactly for the bits [key=value]
    with text on both sides, split at the last equals sign that has text
    after it: the groups reassemble the bit, and re-splitting the
    reassembled bit gives the groups back. *)
Theorem kwarg_re_groups_spec (bit k v : string) :
  kwarg_re_groups bit = Some (k, v) ↔
  bit = k +:+ "=" +:+ v ∧ k ≠ "" ∧ v ≠ "" ∧
  ∀ v1 v2, v = v1 +:+ "=" +:+ v2 → v2 = "".
Proof.
  string_append.
  unfold kwarg_re_groups. split.
  - destruct (last_eq bit) as [[k' v']|] eqn:Hl; [|done].
    destruct k' as [|c k']; [done|]. simpl. intros [= <- <-].
    apply last_eq_Some in Hl as (-> & Hv & Hnone).
    repeat split; try done. intros v1 v2. by apply last_eq_None.
  - intros (-> & Hk & Hv & Hlast).
    rewrite (last_eq_append k v Hv (last_eq_None_inv v Hlast)).
    by destruct k.
Qed.

Lemma token_kwargs_loop_suffix (bits : list string)
    (kwargs : list (FilterExpression * FilterExpression)) :
  ∃ consumed,
    bits = consumed ++ (token_kwargs_loop bits kwargs).2 ∧
    Forall (λ bit, is_Some (kwarg_re_groups bit)) consumed ∧
    match (token_kwargs_loop bits kwargs).1 with
    | Ok pairs =>
        length pairs = (length kwargs + length consumed)%nat ∧
        head (token_kwargs_loop bits kwargs).2 ≫= kwarg_re_groups = None
    | Raise _ => True
    end.
Proof.
  revert kwargs. induction bits as [|bit bits IH]; intros kwargs; simpl.
  { exists []. repeat split; [done|]. simpl. lia. }
  destruct (kwarg_re_groups bit) as [[key value]|] eqn:Hm.
  - destruct (compile_filter value) as [v|e].
    + destruct (compile_filter key) as [k|e].
      * destruct (IH (kwargs ++ [(k, v)])) as (consumed & Hbits & Hall & Hres).
        exists (bit :: consumed). split; [by rewrite <- app_comm_cons, <- Hbits|].
        split; [constructor; [by rewrite Hm|done]|].
        destruct (token_kwargs_loop bits (kwargs ++ [(k, v)])).1; [|done].
        destruct Hres as [Hlen Hhead]. split; [|done].
        rewrite Hlen, length_app. simpl. lia.
      * exists [bit]. simpl. split; [done|]. split; [|done].
        constructor; [by rewrite Hm|done].
    + exists [bit]. simpl. split; [done|]. split; [|done].
      constructor; [by rewrite Hm|done].
  - exists []. simpl. repeat split; [done|lia|done].
Qed.

(** X2: [token_kwargs] takes bits from the front of the list only: what it
    leaves is a suffix of the list, every bit it took is [key=value], and
    when it returns it has made one pair per bit taken and stopped at the
    end of the list or at a bit that is not [key=value]. *)
Theorem token_kwargs_suffix (bits : list string) :
  ∃ consumed,
    bits = consumed ++ (token_kwargs bits).2 ∧
    Forall (λ bit, is_Some (kwarg_re_groups bit)) consumed ∧
    match (token_kwargs bits).1 with
    | Ok pairs =>
        length pairs = length consumed ∧
        head (token_kwargs bits).2 ≫= kwarg_re_groups = None
    | Raise _ => True
    end.
Proof.
  destruct bits as [|bit bits].
  { exists []. by repeat split. }
  unfold token_kwargs.
  destruct (token_kwargs_loop_suffix (bit :: bits) []) as (consumed & H1 & H2 & H3).
  exists consumed. repeat split; try done.
Qed.

(** ** querystring *)

Lemma token_kwargs_loop_Ok (bits : list string)
    (kwargs pairs' : list (FilterExpression * FilterExpression)) :
  token_kwargs_loop bits kwargs = (Ok pairs', []) →
  ∃ pairs, pairs' = kwargs ++ pairs ∧ Forall2 compiles_to bits pairs.
Proof.
  revert kwargs. induction bits as [|bit bits IH]; intros kwargs; simpl.
  { intros [= <-]. exists []. by rewrite app_nil_r. }
  destruct (kwarg_re_groups bit) as [[key value]|] eqn:Hm; [|done].
  destruct (compile_filter value) as [v|e] eqn:Hv; [|by destruct bits].
  destruct (compile_filter key) as [k|e] eqn:Hk; [|by destruct bits].
  intros (pairs & -> & Hall)%IH. exists ((k, v) :: pairs).
  split; [by rewrite <- app_assoc|].
  constructor; [|done]. by exists key, value.
Qed.

Lemma querystring_unfold (text tag : string) (bits : list string) :
  querystring (mkToken text (tag :: bits)) =
  match token_kwargs bits with
  | (Ok pairs, []) => Ok (mkQuerystringNode pairs)
  | (Raise e, []) => Raise e
  | (_, _ :: _) =>
      Raise (TemplateSyntaxError ("Malformed arguments to '" +:+ tag +:+ "'"))
  end.
Proof.
  unfold querystring, querystring_body. simpl.
  unfold mbind, mret, M_bind, M_ret, bind, ret, try_finally, pop0, get_state.
  simpl. by destruct (token_kwargs bits) as [[pairs|e] [|bit rest]].
Qed.

(** X3: [querystring] compiles exactly the tags whose arguments are all
    [key=value] with two sides that compile, and the node holds their pairs
    in the order of the tag. *)
Theorem querystring_Ok_iff (text tag : string) (bits : list string)
    (pairs : list (FilterExpression * FilterExpression)) :
  querystring (mkToken text (tag :: bits)) = Ok (mkQuerystringNode pairs) ↔
  Forall2 compiles_to bits pairs.
Proof.
  split; [|apply querystring_compiles].
  rewrite querystring_unfold.
  destruct (token_kwargs bits) as [[pairs'|e] [|bit rest]] eqn:Htk; try done.
  intros [= ->]. destruct bits as [|bit bits].
  - injection Htk as <-. constructor.
  - unfold token_kwargs in Htk.
    by apply token_kwargs_loop_Ok in Htk as (pairs' & -> & Hall).
Qed.

(** X4: an argument that is not [key=value], wherever it stands among the
    arguments and whatever the other arguments do when compiled, makes
    [querystring] raise [TemplateSyntaxError]. *)
Theorem querystring_malformed (text tag : string) (bits : list string) :
  Exists (λ bit, kwarg_re_groups bit = None) bits →
  querystring (mkToken text (tag :: bits))
  = Raise (TemplateSyntaxError ("Malformed arguments to '" +:+ tag +:+ "'")).
Proof.
  intros Hjunk. rewrite querystring_unfold.
  assert (Hrest : (token_kwargs bits).2 ≠ []).
  { destruct bits as [|bit bits]; [by apply Exists_nil in Hjunk|].
    unfold token_kwargs.
    destruct (token_kwargs_loop_suffix (bit :: bits) [])
      as (consumed & Hbits & Hall & _).
    intros Hnil. rewrite Hnil, app_nil_r in Hbits. rewrite Hbits in Hjunk.
    apply Exists_exists in Hjunk as (b & Hb & Hnone).
    rewrite Forall_forall in Hall. specialize (Hall b Hb).
    rewrite Hnone in Hall. by destruct Hall. }
  by destruct (token_kwargs bits) as [[pairs|e] [|bit rest]].
Qed.

(** ** set_url_param *)

Lemma set_url_param_arg_raises (i : string) (e : exn) :
  set_url_param_arg i = Raise e →
  is_ValueError e = true ∨ (∃ msg, e = TokenError msg) ∨
  (∃ text, compile_filter text = Raise e).
Proof.
  unfold set_url_param_arg.
  destruct (split_eq1 i) as [[a b]|]; [|intros [= <-]; by left].
  destruct (generate_tokens (py_strip a)) as [k|e'] eqn:Htok.
  - destruct k; try (intros [= <-]; by left).
    destruct (String.eqb _ _).
    + destruct (py_str (py_strip a)) as [key|e'] eqn:Hstr; [done|].
      intros [= <-]. unfold py_str in Hstr.
      destruct (forallb _ _); [done|]. injection Hstr as <-. by left.
    + destruct (compile_filter (py_strip b)) as [f|e'] eqn:Hf.
      * destruct (py_str (py_strip a)) as [key|e''] eqn:Hstr; [done|].
        intros [= <-]. unfold py_str in Hstr.
        destruct (forallb _ _); [done|]. injection Hstr as <-. by left.
      * intros [= <-]. right. right. by exists (py_strip b).
  - intros [= <-]. right. left. by apply generate_tokens_TokenError in Htok.
Qed.

(** X5: [set_url_param] never lets a [ValueError] out: what it raises is
    its own [TemplateSyntaxError], a [TokenError] of the tokenizer, or an
    exception of [parser.compile_filter] that is not a [ValueError]. *)
Theorem set_url_param_raises (token : Token) (e : exn) :
  set_url_param token = Raise e →
  is_ValueError e = false ∧
  (e = TemplateSyntaxError "Argument syntax wrong: should bekey=value" ∨
   (∃ msg, e = TokenError msg) ∨
   (∃ text, compile_filter text = Raise e)).
Proof.
  unfold set_url_param.
  generalize (drop 1 (py_split (contents token))) (∅ : gmap string Resolvable).
  intros args. induction args as [|i args IH]; intros q; simpl; [done|].
  destruct (set_url_param_arg i) as [[key b]|e'] eqn:Harg.
  - apply IH.
  - destruct (is_ValueError e') eqn:He'.
    + intros [= <-]. split; [done|]. by left.
    + intros [= <-]. split; [done|].
      destruct (set_url_param_arg_raises _ _ Harg) as [?|[?|?]];
        [congruence|by right; left|by right; right].
Qed.

Lemma split_words_no_space (s : string) :
  Forall (λ c, is_space c = false) (list_ascii_of_string (split_words s).1) ∧
  Forall (λ w, Forall (λ c, is_space c = false) (list_ascii_of_string w))
    (split_words s).2.
Proof.
  induction s as [|c s [IHw IHws]]; simpl; [by split|].
  destruct (split_words s) as [w ws]. simpl in *.
  destruct (is_space c) eqn:Hc; simpl.
  - split; [constructor|]. destruct (is_empty w); [done|by constructor].
  - split; [by constructor|done].
Qed.

(** The words of [s.split()] hold no white space. *)
Lemma py_split_no_space (s : string) :
  Forall (λ w, Forall (λ c, is_space c = false) (list_ascii_of_string w))
    (py_split s).
Proof.
  unfold py_split. pose proof (split_words_no_space s) as [Hw Hws].
  destruct (split_words s) as [w ws]. simpl in *.
  destruct (is_empty w); [done|by constructor].
Qed.

Lemma split_eq1_chars (i a b : string) (P : ascii → Prop) :
  split_eq1 i = Some (a, b) →
  Forall P (list_ascii_of_string i) →
  Forall (λ c, P c ∧ c ≠ "="%char) (list_ascii_of_string a).
Proof.
  revert a. induction i as [|c i IH]; intros a; simpl; [done|].
  destruct (Ascii.eqb_spec c "=").
  - intros [= <- <-] _. constructor.
  - destruct (split_eq1 i) as [[a' b']|]; [|done].
    intros [= <- <-] [Hc Hi]%Forall_cons. simpl. constructor; [done|].
    by apply IH.
Qed.

Lemma lstrip_chars (s : string) (P : ascii → Prop) :
  Forall P (list_ascii_of_string s) → Forall P (list_ascii_of_string (lstrip s)).
Proof.
  induction s as [|c s IH]; simpl; [done|].
  intros [Hc Hs]%Forall_cons. destruct (is_space c); [by apply IH|].
  simpl. by constructor.
Qed.

Lemma rstrip_chars (s : string) (P : ascii → Prop) :
  Forall P (list_ascii_of_string s) → Forall P (list_ascii_of_string (rstrip s)).
Proof.
  induction s as [|c s IH]; simpl; [done|].
  intros [Hc Hs]%Forall_cons.
  destruct (is_space c && is_empty (rstrip s)); simpl; [constructor|].
  constructor; [done|by apply IH].
Qed.

Lemma first_token_NAME (k : string) :
  first_token k = NAME → ∃ c rest, k = String c rest ∧ is_namechar c = true.
Proof.
  destruct k as [|c rest]; simpl; [done|].
  destruct (Ascii.eqb c "#"); [done|].
  destruct (bool_decide _); [done|].
  destruct (is_digit c); [done|].
  destruct (Ascii.eqb c ".").
  { destruct rest as [|d ?]; [done|]. by destruct (is_digit d). }
  destruct (Ascii.eqb c "!").
  { destruct rest as [|d ?]; [done|]. by destruct (Ascii.eqb d "="). }
  destruct (mem_ascii c _); [done|].
  destruct (is_namechar c) eqn:Hc; [|done]. intros _. by exists c, rest.
Qed.

Lemma py_str_Ok (a key : string) :
  py_str a = Ok key →
  key = a ∧ Forall (λ c, (nat_of_ascii c < 128)%nat) (list_ascii_of_string a).
Proof.
  unfold py_str. destruct (forallb _ _) eqn:Hall; [|done].
  intros [= <-]. split; [done|].
  apply Forall_forall. intros c Hc%list_elem_of_In.
  rewrite forallb_forall in Hall. specialize (Hall c Hc).
  by apply Nat.ltb_lt in Hall.
Qed.

(** What the loop accepts as the key of an argument without white space. *)
Lemma set_url_param_arg_key (i key : string) (b : Resolvable) :
  Forall (λ c, is_space c = false) (list_ascii_of_string i) →
  set_url_param_arg i = Ok (key, b) →
  (∃ c rest, key = String c rest ∧ is_namechar c = true) ∧
  Forall (λ c, is_space c = false ∧ c ≠ "="%char ∧ (nat_of_ascii c < 128)%nat)
    (list_ascii_of_string key).
Proof.
  intros Hi. unfold set_url_param_arg.
  destruct (split_eq1 i) as [[a b']|] eqn:Hsplit; [|done].
  apply (split_eq1_chars _ _ _ _ Hsplit) in Hi.
  apply lstrip_chars, rstrip_chars in Hi. fold (py_strip a) in Hi.
  destruct (generate_tokens (py_strip a)) as [k|] eqn:Htok; [|done].
  assert (Hname : k = NAME → ∃ c rest, py_strip a = String c rest ∧
                                        is_namechar c = true).
  { intros ->. unfold generate_tokens in Htok.
    destruct (scan_line _ _ _); [|done]. injection Htok as Htok.
    by apply first_token_NAME. }
  destruct k; try done. specialize (Hname eq_refl).
  assert (Hkey : py_str (py_strip a) = Ok key →
            (∃ c rest, key = String c rest ∧ is_namechar c = true) ∧
            Forall (λ c, is_space c = false ∧ c ≠ "="%char ∧
                         (nat_of_ascii c < 128)%nat) (list_ascii_of_string key)).
  { intros [-> Hascii]%py_str_Ok. split; [done|].
    apply Forall_forall. intros c Hc.
    rewrite Forall_forall in Hi, Hascii.
    destruct (Hi c Hc). by repeat split; [..|apply Hascii]. }
  destruct (String.eqb _ _).
  - destruct (py_str (py_strip a)) as [key'|]; [|done].
    intros [= <- <-]. by apply Hkey.
  - destruct (compile_filter (py_strip b')); [|done].
    destruct (py_str (py_strip a)) as [key'|]; [|done].
    intros [= <- <-]. by apply Hkey.
Qed.

(** X6: the names [set_url_param] accepts: every key of the compiled node
    starts with an ASCII letter or an underscore and holds only ASCII
    characters, no white space and no equals sign. *)
Theorem set_url_param_keys (token : Token) (node : SetUrlParamNode)
    (key : string) (r : Resolvable) :
  set_url_param token = Ok node →
  changes node !! key = Some r →
  (∃ c rest, key = String c rest ∧ is_namechar c = true) ∧
  Forall (λ c, is_space c = false ∧ c ≠ "="%char ∧ (nat_of_ascii c < 128)%nat)
    (list_ascii_of_string key).
Proof.
  unfold set_url_param.
  assert (Hargs : Forall (λ w, Forall (λ c, is_space c = false)
                                 (list_ascii_of_string w))
                    (drop 1 (py_split (contents token)))).
  { apply Forall_drop, py_split_no_space. }
  revert Hargs.
  generalize (drop 1 (py_split (contents token))). intros args Hargs.
  assert (Hloop : ∀ q q',
    set_url_param_loop args q = Ok q' → q' !! key = Some r →
    q !! key = Some r ∨
    ((∃ c rest, key = String c rest ∧ is_namechar c = true) ∧
     Forall (λ c, is_space c = false ∧ c ≠ "="%char ∧ (nat_of_ascii c < 128)%nat)
       (list_ascii_of_string key))).
  { induction Hargs as [|i args Hi _ IH]; intros q q'; simpl.
    { intros [= <-]. by left. }
    destruct (set_url_param_arg i) as [[key' b]|e] eqn:Harg;
      [|by destruct (is_ValueError e)].
    intros Hq' Hkey. destruct (IH _ _ Hq' Hkey) as [Hin|?]; [|by right].
    destruct (decide (key' = key)) as [->|Hne].
    - right. by apply (set_url_param_arg_key i key b).
    - left. by rewrite lookup_insert_ne in Hin. }
  destruct (set_url_param_loop args ∅) as [q'|] eqn:Hq'; [|done].
  intros [= <-] Hkey. simpl in Hkey.
  by destruct (Hloop _ _ Hq' Hkey) as [Hin|?].
Qed.

Lemma set_url_param_loop_other_keys (args : list string)
    (q q' : gmap string Resolvable) (key : string) :
  Forall (λ j, ∀ b', set_url_param_arg j ≠ Ok (key, b')) args →
  set_url_param_loop args q = Ok q' → q' !! key = q !! key.
Proof.
  intros Hargs. revert q. induction Hargs as [|j args Hj _ IH]; intros q; simpl.
  { by intros [= <-]. }
  destruct (set_url_param_arg j) as [[key' b]|e] eqn:Harg;
    [|by destruct (is_ValueError e)].
  intros ->%IH. apply lookup_insert_ne. intros ->. by apply (Hj b).
Qed.

(** X7: when [set_url_param] is given a name more than once, the node
    holds the value of its last argument with that name. *)
Theorem set_url_param_last_wins (token : Token) (node : SetUrlParamNode)
    (before after : list string) (i key : string) (b : Resolvable) :
  drop 1 (py_split (contents token)) = before ++ i :: after →
  set_url_param_arg i = Ok (key, b) →
  Forall (λ j, ∀ b', set_url_param_arg j ≠ Ok (key, b')) after →
  set_url_param token = Ok node →
  changes node !! key = Some b.
Proof.
  unfold set_url_param. intros -> Harg Hafter.
  generalize (∅ : gmap string Resolvable). intros q.
  destruct (set_url_param_loop (before ++ i :: after) q) as [q'|] eqn:Hq'; [|done].
  intros [= <-]. simpl. revert q Hq'.
  induction before as [|j before IH]; intros q; simpl.
  - rewrite Harg. intros Hq'.
    rewrite (set_url_param_loop_other_keys _ _ _ _ Hafter Hq').
    apply lookup_insert_eq.
  - destruct (set_url_param_arg j) as [[key' b']|e];
      [apply IH|by destruct (is_ValueError e)].
Qed.

End TagProperties.

Section EmptyValue.

(** X8: the workaround for an empty value: [set_url_param] never passes
    the text of two double quotes to [parser.compile_filter], so what it
    returns does not depend on what [compile_filter] does with that text. *)
Theorem set_url_param_quotes_not_compiled (dj1 dj2 : Django) (token : Token) :
  (∀ text, text ≠ String dquote (String dquote EmptyString) →
           @compile_filter dj1 text = @compile_filter dj2 text) →
  @set_url_param dj1 token = @set_url_param dj2 token.
Proof.
  intros Hsame.
  assert (Harg : ∀ i, @set_url_param_arg dj1 i = @set_url_param_arg dj2 i).
  { intros i. unfold set_url_param_arg.
    destruct (split_eq1 i) as [[a b]|]; [|done].
    destruct (generate_tokens (py_strip a)) as [[]|]; try done.
    destruct (String.eqb_spec (py_strip b) (String dquote (String dquote EmptyString)));
      [done|].
    by rewrite Hsame. }
  unfold set_url_param.
  generalize (drop 1 (py_split (contents token))) (∅ : gmap string Resolvable).
  intros args. induction args as [|i args IH]; intros q; simpl; [done|].
  rewrite Harg. destruct (@set_url_param_arg dj2 i) as [[key b]|e]; [|done].
  apply IH.
Qed.

End EmptyValue.

Section NodeProperties.

Context {dj : Django}.

(** ** The query-string nodes *)

(** X9: a tag without arguments reproduces the query string of the
    request: with a request in the context, the node of [set_url_param]
    with no change and the node of [querystring] with no pair both return
    ["?"] followed by the url-encoding of the copy of [request.GET]. *)
Theorem query_node_render_no_arguments (st : State)
    (q : gmap string (list string)) :
  request_GET st = Some q →
  ∃ st',
    SetUrlParamNode_render (mkSetUrlParamNode ∅) st
    = (Ok ("?" +:+ urlencode (st_heap st') (dict_of_QueryDict q)), st') ∧
    QuerystringNode_render (mkQuerystringNode []) st
    = (Ok ("?" +:+ urlencode (st_heap st') (dict_of_QueryDict q)), st').
Proof.
  intros Hq.
  exists (mkState (st_context st)
            (<[fresh (dom (st_heap st)):=ODict (dict_of_QueryDict q)]> (st_heap st))).
  split.
  - unfold SetUrlParamNode_render. cbn [changes]. rewrite map_to_list_empty.
    destruct (query_render_start SetUrlParamNode_change [] st q Hq) as [_ ->].
    apply encode_params_private.
  - unfold QuerystringNode_render. cbn [params].
    destruct (query_render_start QuerystringNode_update [] st q Hq) as [_ ->].
    apply encode_params_private.
Qed.

(** X10: the query-string nodes have no handler of their own: when the
    ['request'] entry of the context is true and has no [GET] attribute,
    both renders raise [AttributeError] and change nothing. *)
Theorem query_node_render_request_without_GET (node : QueryNode) (st : State)
    (request : value) :
  st_context st !! "request" = Some request →
  truthy (st_heap st) request = true →
  hasattr (st_heap st) request "GET" = false →
  query_node_render node st = (Raise (AttributeError "GET"), st).
Proof.
  intros Hrequest Htrue Hattr.
  assert (HGET : getattr request "GET" st = (Raise (AttributeError "GET"), st)).
  { unfold getattr, hasattr in *. destruct request as [| | | |l]; try done.
    destruct (st_heap st !! l) as [[c attrs| |]|]; try done.
    destruct (attrs !! "GET"); [|done].
    by apply bool_decide_eq_false in Hattr as []. }
  destruct node as [self|self]; simpl;
    unfold SetUrlParamNode_render, QuerystringNode_render;
    unfold mbind, mret, M_bind, M_ret, bind, ret, context_get, get_state; simpl;
    by rewrite Hrequest; simpl; rewrite Htrue; simpl; rewrite HGET.
Qed.

Lemma for_each_app {S A} (xs ys : list A) (f : A → M S unit) (s : S) :
  for_each (xs ++ ys) f s = bind (for_each xs f) (λ _, for_each ys f) s.
Proof.
  revert s. induction xs as [|x xs IH]; intros s; simpl; [done|].
  unfold bind at 1 2 3. destruct (f x s) as [[[]|e] s']; [|done].
  by rewrite IH.
Qed.

(** X11: a pair of [querystring] whose key resolves to a list cannot be
    stored: when the pairs before it can be carried out, the render raises
    [TypeError] instead of returning a query string. *)
Theorem QuerystringNode_render_unhashable (self : QuerystringNode) (st : State)
    (q : gmap string (list string))
    (before after : list (FilterExpression * FilterExpression))
    (key val : FilterExpression) (l : list string) (v : value) :
  fresh_dict_stable →
  request_GET st = Some q →
  params self = before ++ (key, val) :: after →
  Forall (λ pair, pair_resolves st pair = true) before →
  resolved st (RFilter key) = Ok (VList l) →
  resolved st (RFilter val) = Ok v →
  (QuerystringNode_render self st).1
  = Raise (TypeError "unhashable type: 'list'").
Proof.
  intros Hstable Hq Hparams Hbefore Hkey Hvalue.
  unfold QuerystringNode_render.
  destruct (query_render_start QuerystringNode_update (params self) st q Hq)
    as [Hp ->].
  set (p := fresh (dom (st_heap st))) in *.
  rewrite Hparams. unfold mbind, M_bind. unfold bind at 1.
  rewrite for_each_app. unfold bind at 1.
  rewrite (QuerystringNode_loop st p before _ Hstable Hp Hbefore).
  simpl. unfold bind at 1. unfold QuerystringNode_update, mbind, M_bind, bind.
  destruct (Hstable _ p (foldl (apply_pair st) (dict_of_QueryDict q) before) Hp)
    as (Hf & _ & _).
  unfold resolved in Hkey, Hvalue. simpl in Hkey, Hvalue. simpl.
  by rewrite (Hf _ _ _ Hkey), (Hf _ _ _ Hvalue).
Qed.

(** ** The table tags *)

Ltac run_tag :=
  unfold render_table, smart_render_table, render_table_body,
    smart_render_table_body, pop_tag_and_table, pop_arg, must_be_given,
    mbind, mret, M_bind, M_ret, bind, ret, try_except, pop0, lift, get_state,
    raise;
  simpl.

(** X12: [render_table] returns a node exactly when the tag has a first
    argument that compiles, to the table of the node, and its second
    argument, if there is one, compiles, to the template of the node; a tag
    without a second argument gives a node without a template, and the
    arguments after the second play no part. *)
Theorem render_table_Ok_iff (text : string) (bits : list string)
    (node : RenderTableNode) :
  render_table (mkToken text bits) = Ok node ↔
  ∃ tag arg rest,
    bits = tag :: arg :: rest ∧
    compile_filter arg = Ok (rt_table node) ∧
    compile_filter <$> rest !! 0%nat = Ok <$> rt_template node.
Proof.
  split.
  - destruct bits as [|tag [|arg rest]]; [done..|]. run_tag.
    destruct (compile_filter arg) as [f|e] eqn:Harg; simpl.
    + intros H. exists tag, arg, rest. split; [done|].
      destruct rest as [|t rest']; simpl in *.
      * by injection H as <-.
      * destruct (compile_filter t) as [g|e]; [|done]. by injection H as <-.
    + destruct (is_ValueError e); simpl; [|done]. by destruct rest.
  - intros (tag & arg & rest & -> & Harg & Hrest). run_tag. rewrite Harg. simpl.
    destruct node as [table template]. simpl in *.
    destruct rest as [|t rest']; simpl in *.
    + by destruct template.
    + destruct template as [g|]; [|done]. injection Hrest as ->. done.
Qed.

(** X13: [smart_render_table] returns a node exactly when the tag has a
    first argument that compiles, to the table or query set of the node,
    and each of the next three arguments that is there compiles, in this
    order to the table, header and row template of the node; a template
    whose argument is missing is [None], and the arguments after the fourth
    play no part. *)
Theorem smart_render_table_Ok_iff (text : string) (bits : list string)
    (node : SmartRenderTableNode) :
  smart_render_table (mkToken text bits) = Ok node ↔
  ∃ tag arg rest,
    bits = tag :: arg :: rest ∧
    compile_filter arg = Ok (table_or_queryset node) ∧
    compile_filter <$> rest !! 0%nat = Ok <$> table_template node ∧
    compile_filter <$> rest !! 1%nat = Ok <$> header_template node ∧
    compile_filter <$> rest !! 2%nat = Ok <$> row_template node.
Proof.
  split.
  - destruct bits as [|tag [|arg rest]]; [done..|]. run_tag.
    destruct (compile_filter arg) as [f|e] eqn:Harg; simpl.
    + intros H. exists tag, arg, rest. split; [done|].
      destruct rest as [|t rest]; simpl in *; [by injection H as <-|].
      destruct (compile_filter t) as [g|e]; [|done]. simpl in H.
      destruct rest as [|h rest]; simpl in *; [by injection H as <-|].
      destruct (compile_filter h) as [g'|e]; [|done]. simpl in H.
      destruct rest as [|r rest]; simpl in *; [by injection H as <-|].
      destruct (compile_filter r) as [g''|e]; [|done]. simpl in H.
      by injection H as <-.
    + destruct (is_ValueError e); simpl; [|done]. by destruct rest.
  - intros (tag & arg & rest & -> & Harg & Ht & Hh & Hr). run_tag.
    rewrite Harg. simpl.
    destruct node as [tq t h r]. simpl in *.
    destruct rest as [|bt rest]; simpl in *.
    { by destruct t, h, r. }
    destruct t as [t|]; [|done]. injection Ht as ->. simpl.
    destruct rest as [|bh rest]; simpl in *.
    { by destruct h, r. }
    destruct h as [h|]; [|done]. injection Hh as ->. simpl.
    destruct rest as [|br rest]; simpl in *.
    { by destruct r. }
    destruct r as [r|]; [|done]. injection Hr as ->. done.
Qed.

(** X14: when compiling a filter never raises a [ValueError], neither table
    tag ever raises the [TemplateSyntaxError] of its [except ValueError]
    clause: an error of the tag function is the [IndexError] of popping a
    missing argument or the error of compiling one of the arguments. *)
Theorem table_tags_raise (text : string) (bits : list string) (e : exn) :
  (∀ arg e', compile_filter arg = Raise e' → is_ValueError e' = false) →
  render_table (mkToken text bits) = Raise e ∨
  smart_render_table (mkToken text bits) = Raise e →
  e = IndexError "pop from empty list" ∨
  ∃ arg, arg ∈ bits ∧ compile_filter arg = Raise e.
Proof.
  intros Hcompile H.
  destruct bits as [|tag [|arg rest]]; [destruct H as [[= <-]|[= <-]]; by left..|].
  right.
  assert (Harg : ∀ x, compile_filter arg = Raise x → is_ValueError x = false)
    by (intros x; apply Hcompile).
  revert H. run_tag.
  destruct (compile_filter arg) as [f|e0] eqn:Ha; simpl.
  - destruct rest as [|t rest]; simpl; [by intros [|]|].
    destruct (compile_filter t) as [g|e1] eqn:Ht; simpl.
    + intros [H|H]; [done|].
      destruct rest as [|h rest]; simpl in H; [done|].
      destruct (compile_filter h) as [g'|e2] eqn:Hh; simpl in H.
      * destruct rest as [|r rest]; simpl in H; [done|].
        destruct (compile_filter r) as [g''|e3] eqn:Hr; simpl in H; [done|].
        injection H as <-. exists r. split; [|done]. set_solver.
      * injection H as <-. exists h. split; [|done]. set_solver.
    + intros [[= <-]|[= <-]]; exists t; (split; [set_solver|done]).
  - rewrite (Harg e0 eq_refl). simpl.
    intros [[= <-]|[= <-]]; exists arg; (split; [set_solver|done]).
Qed.

(** ** The table nodes *)

Lemma isinstance_Table_not_QuerySet (h : gmap loc obj) (v : value) :
  isinstance h v Table = true → isinstance h v QuerySet = false.
Proof. by intros (l & attrs & -> & Hl)%isinstance_Table; simpl; rewrite Hl. Qed.

(** X15: a table argument that resolves to something else than a table
    ends either render with the [ValueError] of the type check, handled by
    the [except] clause, and nothing is changed; for [render_table] this
    includes a query set, for [smart_render_table] a value that is neither
    a table nor a query set. *)
Theorem table_node_render_not_a_table (st : State) (v : value)
    (table : FilterExpression) (template t h r : option FilterExpression) :
  resolved st (RFilter table) = Ok v →
  isinstance (st_heap st) v Table = false →
  let outcome :=
    (if DEBUG settings
     then Raise (ValueError "Expected Table object, but didn't find one.")
     else Ok (TEMPLATE_STRING_IF_INVALID settings), st) in
  RenderTableNode_render (mkRenderTableNode table template) st = outcome ∧
  (isinstance (st_heap st) v QuerySet = false →
   SmartRenderTableNode_render (mkSmartRenderTableNode table t h r) st = outcome).
Proof.
  unfold resolved. simpl. intros Hv Htable. split; [|intros Hqs].
  - unfold RenderTableNode_render, RenderTableNode_body, RenderTableNode_prepare,
      try_except, mbind, M_bind, bind, get_state, render_handler, raise. simpl.
    rewrite Hv, Htable. simpl. by destruct (DEBUG settings).
  - unfold SmartRenderTableNode_render, SmartRenderTableNode_body,
      SmartRenderTableNode_prepare, try_except, mbind, mret, M_bind, M_ret,
      bind, ret, get_state, render_handler, raise. simpl.
    rewrite Hv, Hqs. simpl. rewrite Htable. simpl. by destruct (DEBUG settings).
Qed.

(** X16: a table in a context without a [request] entry ends either render
    with the [AssertionError] that asks for the request, handled by the
    [except] clause, and nothing is changed. *)
Theorem table_node_render_without_request (st : State) (v : value)
    (table : FilterExpression) (template t h r : option FilterExpression) :
  resolved st (RFilter table) = Ok v →
  isinstance (st_heap st) v Table = true →
  st_context st !! "request" = None →
  let outcome :=
    (if DEBUG settings then Raise (AssertionError request_missing)
     else Ok (TEMPLATE_STRING_IF_INVALID settings), st) in
  RenderTableNode_render (mkRenderTableNode table template) st = outcome ∧
  SmartRenderTableNode_render (mkSmartRenderTableNode table t h r) st = outcome.
Proof.
  unfold resolved. simpl. intros Hv Htable Hrequest.
  pose proof (isinstance_Table_not_QuerySet _ _ Htable) as Hqs. split.
  - unfold RenderTableNode_render, RenderTableNode_body, RenderTableNode_prepare,
      try_except, mbind, M_bind, get_state, render_handler, raise.
    unfold bind at 1 2 3. simpl.
    rewrite Hv, Htable. simpl. rewrite bind_context_contains, Hrequest. simpl.
    by destruct (DEBUG settings).
  - unfold SmartRenderTableNode_render, SmartRenderTableNode_body,
      SmartRenderTableNode_prepare, try_except, mbind, mret, M_bind, M_ret,
      bind, ret, get_state, render_handler, raise, context_contains. simpl.
    rewrite Hv, Hqs. simpl. rewrite Htable. simpl. rewrite Hrequest. simpl.
    by destruct (DEBUG settings).
Qed.

(** X17: with [settings.DEBUG] off neither table node ever raises: the
    render returns what its [try] suite returned, or
    [settings.TEMPLATE_STRING_IF_INVALID] when the suite raised. *)
Theorem table_node_render_never_raises (node : TableNode) (st : State) :
  DEBUG settings = false →
  ∃ out,
    (table_node_render node st).1 = Ok out ∧
    match (table_node_body node st).1 with
    | Ok out' => out = out'
    | Raise _ => out = TEMPLATE_STRING_IF_INVALID settings
    end.
Proof.
  intros Hdebug.
  destruct (table_node_body node st) as [[out|e] st'] eqn:Hbody.
  - exists out. by rewrite (table_node_render_ok _ _ _ _ Hbody).
  - exists (TEMPLATE_STRING_IF_INVALID settings).
    rewrite (table_node_render_raise _ _ _ _ Hbody).
    unfold render_handler. by rewrite Hdebug.
Qed.

Ltac run_node :=
  unfold RenderTableNode_render, RenderTableNode_body, RenderTableNode_prepare,
    SmartRenderTableNode_render, SmartRenderTableNode_body,
    SmartRenderTableNode_prepare, delegate, render_handler, resolve_optional,
    try_except, try_finally, mbind, mret, M_bind, M_ret, bind, ret, raise, lift,
    get_state, context_contains, context_getitem, context_setitem, resolve,
    resolve_in, getattr, setattr, delattr, load_template, render_template,
    render_template_in_context, mapping_get, Table_paginate, alloc.

(** Case analysis on the innermost scrutinee of the goal. *)
Ltac case_innermost :=
  match goal with
  | |- context [match ?x with _ => _ end] =>
      lazymatch x with
      | context [match _ with _ => _ end] => fail
      | _ => destruct x eqn:?; simpl
      end
  end.

(** X18: [RenderTableNode.render] works on a context of its own: whatever
    the render returns or raises, the context the tag was rendered in has
    afterwards the entries it had before. *)
Theorem RenderTableNode_render_keeps_context (self : RenderTableNode) (st : State) :
  st_context (RenderTableNode_render self st).2 = st_context st.
Proof.
  run_node. by repeat case_innermost.
Qed.

(** An entry of the context is kept by a sequence whose parts keep it. *)
Lemma bind_entry {A B} (name : string) (m : M State A) (f : A → M State B)
    (s : State) :
  st_context (m s).2 !! name = st_context s !! name →
  (∀ a s', st_context (f a s').2 !! name = st_context s' !! name) →
  st_context (bind m f s).2 !! name = st_context s !! name.
Proof.
  intros Hm Hf. unfold bind. destruct (m s) as [[a|e] s']; simpl in *; [|done].
  by rewrite Hf.
Qed.

Lemma try_except_entry {A} (name : string) (body : M State A)
    (handler : exn → M State A) (s : State) :
  st_context (body s).2 !! name = st_context s !! name →
  (∀ e s', st_context (handler e s').2 !! name = st_context s' !! name) →
  st_context (try_except body handler s).2 !! name = st_context s !! name.
Proof.
  intros Hm Hf. unfold try_except.
  destruct (body s) as [[a|e] s']; simpl in *; [done|]. by rewrite Hf.
Qed.

Lemma try_finally_entry {A} (name : string) (body : M State A)
    (fin : M State unit) (s : State) :
  st_context (body s).2 !! name = st_context s !! name →
  (∀ s', st_context (fin s').2 !! name = st_context s' !! name) →
  st_context (try_finally body fin s).2 !! name = st_context s !! name.
Proof.
  intros Hm Hf. unfold try_finally.
  destruct (body s) as [r s']; simpl in *. specialize (Hf s').
  destruct (fin s') as [[[]|e] s'']; simpl in *; by rewrite Hf.
Qed.

(** One step of a proof that a computation keeps an entry of the context;
    for the template the proof needs a hypothesis that says so. *)
Ltac entry_step :=
  first
    [ apply bind_entry; [|intros ? ?]
    | apply try_except_entry; [|intros ? ?]
    | apply try_finally_entry; [|intros ?]
    | match goal with
      | |- st_context ((match ?x with _ => _ end) _).2 !! _ = _ => destruct x
      end
    | solve [ unfold render_template_in_context;
              match goal with
              | H : ∀ t c h, _ |- context [template_render ?t ?c ?h] =>
                  specialize (H t c h);
                  destruct (template_render t c h) as [[? ?] ?]; exact H
              end ]
    | solve [ unfold render_handler, resolve_optional, mret, M_ret, ret, raise,
                lift, get_state, context_contains, context_getitem,
                context_setitem, resolve, getattr, setattr, delattr,
                load_template, render_template, mapping_get, Table_paginate,
                alloc; simpl;
              repeat case_innermost; rewrite ?lookup_insert_ne by done; done ] ].

(** X19: [SmartRenderTableNode.render] itself writes into the context the
    tag is rendered in only under three names: up to the call of
    [template.render], whatever happens, every entry other than [table],
    [header_template] and [row_template] is what it was before; the
    template is rendered against this same context, so after the render
    the entry is still what it was provided that rendering a template does
    not change it. *)
Theorem SmartRenderTableNode_render_context (self : SmartRenderTableNode)
    (st : State) (name : string) :
  name ≠ "table" → name ≠ "header_template" → name ≠ "row_template" →
  st_context (SmartRenderTableNode_prepare self st).2 !! name
  = st_context st !! name ∧
  ((∀ t c h, (template_render t c h).1.2 !! name = c !! name) →
   st_context (SmartRenderTableNode_render self st).2 !! name
   = st_context st !! name).
Proof.
  intros Htable Hheader Hrow. split; [|intros Htemplate].
  - unfold SmartRenderTableNode_prepare, mbind, M_bind. repeat entry_step.
  - unfold SmartRenderTableNode_render, SmartRenderTableNode_body,
      SmartRenderTableNode_prepare, delegate, mbind, M_bind.
    repeat entry_step.
Qed.

Lemma mapping_get_Ok (v x otherwise : value) (key : string) (st st1 : State) :
  mapping_get v key otherwise st = (Ok x, st1) → st1 = st.
Proof. unfold mapping_get. repeat case_innermost; by intros [= _ <-]. Qed.

(** What SmartRenderTableNode.render has done when it reaches the inner
    [try]: the table is an object, the request is the one of the context,
    three entries of the context are written, and no other object than the
    table is changed. *)
Lemma SmartRenderTableNode_prepare_inv (self : SmartRenderTableNode)
    (st st1 : State) (table request : value) (template : Template) :
  SmartRenderTableNode_prepare self st = (Ok (table, request, template), st1) →
  ∃ l header row,
    table = VObj l ∧
    st_context st !! "request" = Some request ∧
    st_context st1
    = <["row_template":=row]>
        (<["header_template":=header]> (<["table":=VObj l]> (st_context st))) ∧
    (header_template self = None → header = VNone) ∧
    (row_template self = None → row = VNone) ∧
    (∀ l', l' ≠ l → st_heap st1 !! l' = st_heap st !! l') ∧
    (∃ c attrs1, st_heap st1 !! l = Some (OInstance c attrs1)).
Proof.
  unfold SmartRenderTableNode_prepare, mbind, M_bind. intros H.
  apply bind_Ok in H as (tq & s & [-> Htq]%resolve_Ok & H).
  rewrite bind_get_state in H.
  apply bind_Ok in H as (table' & sa & Htable & H).
  rewrite bind_get_state in H.
  destruct (isinstance (st_heap sa) table' Table) eqn:Hinst; [|done]. simpl in H.
  apply isinstance_Table in Hinst as (l & attrs0 & -> & Hl).
  assert (Hsa : st_context sa = st_context st ∧
                ∀ l', l' ≠ l → st_heap sa !! l' = st_heap st !! l').
  { destruct (isinstance (st_heap st) tq QuerySet) eqn:Hqs.
    - apply bind_Ok in Htable as (attrs & sq & Hattrs & Htable).
      unfold lift in Hattrs. injection Hattrs as Hattrs <-.
      apply bind_Ok in Htable as (l' & sq & Halloc & Htable).
      injection Htable as <- <-. unfold alloc in Halloc.
      injection Halloc as <- <-. simpl. split; [done|].
      intros l' Hl'. by rewrite lookup_insert_ne.
    - by injection Htable as -> <-. }
  destruct Hsa as (Hctx & Hframe).
  rewrite bind_context_contains in H.
  destruct (bool_decide _) eqn:Hhas in H; [|done]. simpl in H.
  apply bind_Ok in H as (request' & sr & Hreq & H).
  unfold context_getitem in Hreq.
  destruct (st_context sa !! "request") as [rq|] eqn:Hrq; [|done].
  injection Hreq as <- <-.
  apply bind_Ok in H as (GET & sg & [-> _]%getattr_Ok & H).
  apply bind_Ok in H as (sort & sg & ->%mapping_get_Ok & H).
  apply bind_Ok in H as ([] & sb & Hset & H).
  apply setattr_Ok in Hset as (l' & c & attrs & [= <-] & Hl' & ->).
  apply bind_Ok in H as (GET' & sh & [-> _]%getattr_Ok & H).
  apply bind_Ok in H as (page & sh & ->%mapping_get_Ok & H).
  apply bind_Ok in H as ([] & sc & Hpaginate & H).
  apply Table_paginate_Ok in Hpaginate
    as (l' & c' & attrs' & attrs1 & [= <-] & _ & _ & ->).
  rewrite bind_context_setitem in H. simpl in H.
  apply bind_Ok in H as (header & s1 & Hheader & H).
  assert (Hh : header_template self = None → header = VNone).
  { intros Hnone. rewrite Hnone in Hheader. by injection Hheader as <-. }
  apply resolve_optional_Ok in Hheader as ->.
  rewrite bind_context_setitem in H. simpl in H.
  apply bind_Ok in H as (row & s2 & Hrow & H).
  assert (Hr : row_template self = None → row = VNone).
  { intros Hnone. rewrite Hnone in Hrow. by injection Hrow as <-. }
  apply resolve_optional_Ok in Hrow as ->.
  rewrite bind_context_setitem in H. simpl in H.
  apply bind_Ok in H as (tpl & s3 & Htpl & H).
  assert (s3 = mkState
           (<["row_template":=row]>
              (<["header_template":=header]> (<["table":=VObj l]> (st_context sa))))
           (<[l:=OInstance c' attrs1]>
              (<[l:=OInstance c (<["order_by":=sort]> attrs)]> (st_heap sa))))
    as ->.
  { destruct (table_template self).
    - by apply resolve_Ok in Htpl as [-> _].
    - by apply getattr_Ok in Htpl as [-> _]. }
  apply bind_Ok in H as (tpl' & s4 & ->%load_template_Ok & H).
  injection H as <- <- <- <-.
  exists l, header, row. simpl. rewrite Hctx in *.
  repeat split; try done.
  - intros l' Hl''. rewrite !lookup_insert_ne by done. by apply Hframe.
  - exists c', attrs1. apply lookup_insert_eq.
Qed.

(** X20: when [SmartRenderTableNode.render] gets as far as delegating to
    the template, the template is rendered against the context the tag
    itself is rendered in, into which the render has written [table], the
    table that is rendered, and [header_template] and [row_template],
    [None] where the tag names no such template, over whatever was there;
    nothing is undone afterwards: the context is left as rendering the
    template left it. *)
Theorem SmartRenderTableNode_render_leaves_entries (self : SmartRenderTableNode)
    (st st1 : State) (table request : value) (template : Template) :
  SmartRenderTableNode_prepare self st = (Ok (table, request, template), st1) →
  ∃ header row h,
    let context :=
      <["row_template":=row]>
        (<["header_template":=header]> (<["table":=table]> (st_context st))) in
    st_context st1 = context ∧
    (header_template self = None → header = VNone) ∧
    (row_template self = None → row = VNone) ∧
    st_context (SmartRenderTableNode_render self st).2
    = (template_render template context h).1.2.
Proof.
  intros Hprepare.
  destruct (SmartRenderTableNode_prepare_inv _ _ _ _ _ _ Hprepare)
    as (l & header & row & -> & _ & Hctx & Hh & Hr & _ & c & attrs1 & Hl).
  exists header, row,
    (<[l:=OInstance c (<["request":=request]> attrs1)]> (st_heap st1)).
  simpl. split; [done|]. split; [done|]. split; [done|].
  unfold SmartRenderTableNode_render. rewrite try_except_render_handler.
  unfold SmartRenderTableNode_body, mbind, M_bind, bind. rewrite Hprepare.
  unfold delegate, try_finally, mbind, M_bind, bind, setattr,
    render_template_in_context.
  rewrite Hl. simpl. rewrite Hctx.
  destruct (template_render template _ _) as [[r context'] h']. simpl.
  unfold delattr. by repeat case_innermost.
Qed.

(** X21: up to the delegation to the template,
    [SmartRenderTableNode.render] changes no object but the table it
    renders: the request, its query parameters and a query set the tag was
    given are as they were, and the request it hands to the template is the
    [request] entry of the context. *)
Theorem SmartRenderTableNode_prepare_frame (self : SmartRenderTableNode)
    (st st1 : State) (table request : value) (template : Template) :
  SmartRenderTableNode_prepare self st = (Ok (table, request, template), st1) →
  st_context st !! "request" = Some request ∧
  ∀ l, table ≠ VObj l → st_heap st1 !! l = st_heap st !! l.
Proof.
  intros (l & header & row & -> & Hrequest & _ & _ & _ & Hframe & _)%SmartRenderTableNode_prepare_inv.
  split; [done|]. intros l' Hl'. apply Hframe. congruence.
Qed.

(** X22: attaching the request to the table and deleting it again is a
    round trip: for a table without a [request] attribute and a template
    whose rendering changes neither an object nor its context, the inner
    [try ... finally] of either render returns or raises what the template
    did and leaves every object and the context as they were; while the
    template renders, the table carries the request. *)
Theorem delegate_round_trip (l : loc) (c : pyclass) (attrs : gmap string value)
    (request : value) (template : Template) (context : gmap string value)
    (st : State) (r : result string) :
  st_heap st !! l = Some (OInstance c attrs) →
  attrs !! "request" = None →
  let h := <[l:=OInstance c (<["request":=request]> attrs)]> (st_heap st) in
  template_render template context h = (r, context, h) →
  delegate (VObj l) request (render_template template context) st = (r, st) ∧
  (context = st_context st →
   delegate (VObj l) request (render_template_in_context template) st = (r, st)).
Proof.
  intros Hl Hrequest h Hrender.
  split; [|intros ->];
    unfold delegate, try_finally, mbind, M_bind, bind, setattr, render_template,
      render_template_in_context, delattr;
    rewrite Hl; simpl; fold h; rewrite Hrender; simpl; unfold h;
    rewrite lookup_insert_eq, lookup_insert_eq; simpl;
    rewrite insert_insert_eq, delete_insert_id by done;
    rewrite insert_id by done; by destruct r, st.
Qed.

Lemma token_kwargs_loop_app (before rest : list string)
    (kwargs pairs : list (FilterExpression * FilterExpression)) :
  Forall2 compiles_to before pairs →
  token_kwargs_loop (before ++ rest) kwargs
  = token_kwargs_loop rest (kwargs ++ pairs).
Proof.
  intros Hall. revert kwargs.
  induction Hall as [|bit pair bits pairs (key & val & Hm & Hv & Hk) _ IH];
    intros kwargs; simpl.
  - by rewrite app_nil_r.
  - rewrite Hm, Hv, Hk, IH. destruct pair. by rewrite <- app_assoc.
Qed.

(** X23: an argument of [querystring] that is [key=value] with a side that
    does not compile, after arguments that all compile: the error of the
    compiler (of the value if both sides fail) leaves the tag function only
    when the argument is the last one; when any argument follows, whatever
    it is, [TemplateSyntaxError] for malformed arguments is raised in its
    place. *)
Theorem querystring_compile_error (text tag bit key val : string)
    (before after : list string)
    (pairs : list (FilterExpression * FilterExpression)) (e : exn) :
  Forall2 compiles_to before pairs →
  kwarg_re_groups bit = Some (key, val) →
  compile_filter val = Raise e ∨
  raises (compile_filter val) = false ∧ compile_filter key = Raise e →
  querystring (mkToken text (tag :: before ++ bit :: after))
  = Raise (match after with
           | [] => e
           | _ :: _ =>
               TemplateSyntaxError ("Malformed arguments to '" +:+ tag +:+ "'")
           end).
Proof.
  intros Hbefore Hm He. rewrite querystring_unfold.
  assert (Htk : token_kwargs (before ++ bit :: after) = (Raise e, after)).
  { transitivity (token_kwargs_loop (before ++ bit :: after) []).
    { unfold token_kwargs. by destruct before. }
    rewrite (token_kwargs_loop_app _ _ _ _ Hbefore). simpl. rewrite Hm.
    destruct He as [->|[Hv ->]]; [done|].
    by destruct (compile_filter val). }
  rewrite Htk. by destruct after.
Qed.

(** X24: a page that the table cannot be paginated to ends
    [SmartRenderTableNode.render] through the [except] clause, after the
    ordering has been applied: the table keeps the [order_by] of the
    request, nothing else is changed, and nothing is written into the
    context. *)
Theorem SmartRenderTableNode_render_invalid_page (self : SmartRenderTableNode)
    (st : State) (q : gmap string (list string)) (l : loc)
    (attrs : gmap string value) (e : exn) :
  request_GET st = Some q →
  resolved st (RFilter (table_or_queryset self)) = Ok (VObj l) →
  st_heap st !! l = Some (OInstance Table attrs) →
  let ordered := <["order_by":=QueryDict_get q "sort" VNone]> attrs in
  paginate ordered (QueryDict_get q "page" (VInt 1)) = Raise e →
  SmartRenderTableNode_render self st
  = (if DEBUG settings then Raise e
     else Ok (TEMPLATE_STRING_IF_INVALID settings),
     mkState (st_context st) (<[l:=OInstance Table ordered]> (st_heap st))).
Proof.
  intros (r & c & rattrs & g & Hreq & Hr & HG & Hg)%request_GET_inv Hv Hl
    ordered Hpage.
  unfold resolved in Hv. simpl in Hv.
  assert (Hgl : g ≠ l) by congruence.
  set (h1 := <[l:=OInstance Table ordered]> (st_heap st)).
  assert (Hg1 : h1 !! g = Some (OQueryDict q)).
  { unfold h1. by rewrite lookup_insert_ne. }
  assert (Hr1 : ∃ c1 rattrs1, h1 !! r = Some (OInstance c1 rattrs1) ∧
                              rattrs1 !! "GET" = Some (VObj g)).
  { unfold h1. destruct (decide (r = l)) as [->|Hrl].
    - rewrite lookup_insert_eq. eexists _, _. split; [done|].
      unfold ordered. rewrite lookup_insert_ne by done. congruence.
    - rewrite lookup_insert_ne by done. by exists c, rattrs. }
  destruct Hr1 as (c1 & rattrs1 & Hr1 & HG1).
  unfold SmartRenderTableNode_render, SmartRenderTableNode_body,
    SmartRenderTableNode_prepare, try_except, mbind, mret, M_bind, M_ret,
    bind, ret, get_state, render_handler, raise, context_contains,
    context_getitem, getattr, mapping_get, setattr, Table_paginate. simpl.
  repeat (first [rewrite Hv | rewrite Hl | rewrite Hreq | rewrite Hr
                | rewrite HG | rewrite Hg]; simpl).
  fold ordered. fold h1.
  repeat (first [rewrite Hr1 | rewrite HG1 | rewrite Hg1]; simpl).
  unfold h1 at 1. rewrite lookup_insert_eq. fold h1. rewrite Hpage.
  by destruct (DEBUG settings).
Qed.

End NodeProperties.

(** * The further properties on the concrete environment *)

Module MoreExamples.

Import Demo.

(** X4 at work: [{% querystring a=1 junk b=2 %}]. *)
Lemma querystring_malformed_witness :
  Exists (λ bit, kwarg_re_groups bit = None) ["a=1"; "junk"; "b=2"] ∧
  querystring (dj := demo_django false)
    (mkToken "querystring a=1 junk b=2" ["querystring"; "a=1"; "junk"; "b=2"])
  = Raise (TemplateSyntaxError "Malformed arguments to 'querystring'").
Proof.
  assert (Hjunk : Exists (λ bit, kwarg_re_groups bit = None)
                    ["a=1"; "junk"; "b=2"]).
  { apply Exists_cons_tl, Exists_cons_hd. vm_compute. reflexivity. }
  split; [exact Hjunk|].
  exact (querystring_malformed (dj := demo_django false)
           "querystring a=1 junk b=2" "querystring" ["a=1"; "junk"; "b=2"] Hjunk).
Defined.

(** X5 at work: [{% set_url_param page %}]. *)
Lemma set_url_param_raises_witness :
  let e := TemplateSyntaxError "Argument syntax wrong: should bekey=value" in
  set_url_param (dj := demo_django false)
    (mkToken "set_url_param page" ["set_url_param"; "page"]) = Raise e ∧
  is_ValueError e = false ∧
  (e = TemplateSyntaxError "Argument syntax wrong: should bekey=value" ∨
   (∃ msg, e = TokenError msg) ∨
   (∃ text, compile_filter (Django := demo_django false) text = Raise e)).
Proof.
  intros e.
  assert (Hraise : set_url_param (dj := demo_django false)
                     (mkToken "set_url_param page" ["set_url_param"; "page"])
                   = Raise e) by (vm_compute; reflexivity).
  split; [exact Hraise|].
  exact (set_url_param_raises (dj := demo_django false) _ e Hraise).
Defined.

(** X6 at work: [{% set_url_param page=next_page %}]. *)
Lemma set_url_param_keys_witness :
  let node := mkSetUrlParamNode
                {[ "page" := RFilter (mkFilterExpression "next_page") ]} in
  set_url_param (dj := demo_django false)
    (mkToken "set_url_param page=next_page" ["set_url_param"; "page=next_page"])
  = Ok node ∧
  changes node !! "page" = Some (RFilter (mkFilterExpression "next_page")) ∧
  (∃ c rest, "page" = String c rest ∧ is_namechar c = true) ∧
  Forall (λ c, is_space c = false ∧ c ≠ "="%char ∧ (nat_of_ascii c < 128)%nat)
    (list_ascii_of_string "page").
Proof.
  intros node.
  assert (Hnode : set_url_param (dj := demo_django false)
                    (mkToken "set_url_param page=next_page"
                       ["set_url_param"; "page=next_page"]) = Ok node)
    by (vm_compute; reflexivity).
  assert (Hkey : changes node !! "page"
                 = Some (RFilter (mkFilterExpression "next_page")))
    by (vm_compute; reflexivity).
  split; [exact Hnode|]. split; [exact Hkey|].
  exact (set_url_param_keys (dj := demo_django false) _ node "page" _ Hnode Hkey).
Defined.

(** X7 at work: [{% set_url_param page=1 page=3 x=2 %}]. *)
Lemma set_url_param_last_wins_witness :
  let token := mkToken "set_url_param page=1 page=3 x=2" [] in
  let node := mkSetUrlParamNode
                {[ "page" := RFilter (mkFilterExpression "3");
                   "x" := RFilter (mkFilterExpression "2") ]} in
  drop 1 (py_split (contents token)) = ["page=1"] ++ "page=3" :: ["x=2"] ∧
  set_url_param_arg (dj := demo_django false) "page=3"
  = Ok ("page", RFilter (mkFilterExpression "3")) ∧
  Forall (λ j, ∀ b', set_url_param_arg (dj := demo_django false) j
                     ≠ Ok ("page", b')) ["x=2"] ∧
  set_url_param (dj := demo_django false) token = Ok node ∧
  changes node !! "page" = Some (RFilter (mkFilterExpression "3")).
Proof.
  intros token node.
  assert (Hbits : drop 1 (py_split (contents token))
                  = ["page=1"] ++ "page=3" :: ["x=2"])
    by (vm_compute; reflexivity).
  assert (Harg : set_url_param_arg (dj := demo_django false) "page=3"
                 = Ok ("page", RFilter (mkFilterExpression "3")))
    by (vm_compute; reflexivity).
  assert (Hafter : Forall (λ j, ∀ b', set_url_param_arg (dj := demo_django false) j
                                      ≠ Ok ("page", b')) ["x=2"]).
  { constructor; [|constructor]. intros b'. vm_compute. discriminate. }
  assert (Hnode : set_url_param (dj := demo_django false) token = Ok node)
    by (vm_compute; reflexivity).
  split; [exact Hbits|]. split; [exact Harg|]. split; [exact Hafter|].
  split; [exact Hnode|].
  exact (set_url_param_last_wins (dj := demo_django false) token node
           ["page=1"] ["x=2"] "page=3" "page" _ Hbits Harg Hafter Hnode).
Defined.

(** X8 at work: [{% set_url_param sort="" %}] under two engines whose
    compilers agree on every other text. *)
Lemma set_url_param_quotes_not_compiled_witness :
  let token := mkToken ("set_url_param sort=" +:+ String dquote (String dquote ""))
                 [] in
  (∀ text, text ≠ String dquote (String dquote EmptyString) →
           compile_filter (Django := demo_django false) text
           = compile_filter (Django := demo_django true) text) ∧
  set_url_param (dj := demo_django false) token
  = set_url_param (dj := demo_django true) token.
Proof.
  intros token.
  assert (Hsame : ∀ text, text ≠ String dquote (String dquote EmptyString) →
                          compile_filter (Django := demo_django false) text
                          = compile_filter (Django := demo_django true) text).
  { intros text _. reflexivity. }
  split; [exact Hsame|].
  exact (set_url_param_quotes_not_compiled (demo_django false) (demo_django true)
           token Hsame).
Defined.

(** X9 at work. *)
Lemma query_node_render_no_arguments_witness :
  request_GET demo_state = Some demo_GET ∧
  ∃ st',
    SetUrlParamNode_render (dj := demo_django false) (mkSetUrlParamNode ∅)
      demo_state
    = (Ok ("?" +:+ urlencode (Django := demo_django false) (st_heap st')
                     (dict_of_QueryDict demo_GET)), st') ∧
    QuerystringNode_render (dj := demo_django false) (mkQuerystringNode [])
      demo_state
    = (Ok ("?" +:+ urlencode (Django := demo_django false) (st_heap st')
                     (dict_of_QueryDict demo_GET)), st').
Proof.
  assert (Hq : request_GET demo_state = Some demo_GET) by (vm_compute; reflexivity).
  split; [exact Hq|].
  exact (query_node_render_no_arguments (dj := demo_django false)
           demo_state demo_GET Hq).
Defined.

(** X10 at work: the [request] entry is an object without [GET]. *)
Lemma query_node_render_request_without_GET_witness :
  st_context no_GET_state !! "request" = Some (VObj table_loc) ∧
  truthy (st_heap no_GET_state) (VObj table_loc) = true ∧
  hasattr (st_heap no_GET_state) (VObj table_loc) "GET" = false ∧
  query_node_render (dj := demo_django false) (NQuerystring demo_querystring)
    no_GET_state
  = (Raise (AttributeError "GET"), no_GET_state).
Proof.
  assert (H1 : st_context no_GET_state !! "request" = Some (VObj table_loc))
    by (vm_compute; reflexivity).
  assert (H2 : truthy (st_heap no_GET_state) (VObj table_loc) = true)
    by (vm_compute; reflexivity).
  assert (H3 : hasattr (st_heap no_GET_state) (VObj table_loc) "GET" = false)
    by (vm_compute; reflexivity).
  split; [exact H1|]. split; [exact H2|]. split; [exact H3|].
  exact (query_node_render_request_without_GET (dj := demo_django false)
           (NQuerystring demo_querystring) no_GET_state (VObj table_loc) H1 H2 H3).
Defined.

(** X11 at work: [{% querystring 'page'='1' tags='x' 'y'='z' %}] where
    [tags] is a list. *)
Lemma QuerystringNode_render_unhashable_witness :
  let before := [(mkFilterExpression "'page'", mkFilterExpression "'1'")] in
  let after := [(mkFilterExpression "'y'", mkFilterExpression "'z'")] in
  let key := mkFilterExpression "tags" in
  let val := mkFilterExpression "'x'" in
  let self := mkQuerystringNode (before ++ (key, val) :: after) in
  fresh_dict_stable (dj := demo_django false) ∧
  request_GET list_state = Some demo_GET ∧
  params self = before ++ (key, val) :: after ∧
  Forall (λ pair, pair_resolves (dj := demo_django false) list_state pair = true)
    before ∧
  resolved (dj := demo_django false) list_state (RFilter key)
  = Ok (VList ["a"; "b"]) ∧
  resolved (dj := demo_django false) list_state (RFilter val) = Ok (VStr "x") ∧
  (QuerystringNode_render (dj := demo_django false) self list_state).1
  = Raise (TypeError "unhashable type: 'list'").
Proof.
  intros before after key val self.
  assert (Hq : request_GET list_state = Some demo_GET) by (vm_compute; reflexivity).
  assert (Hall : Forall (λ pair, pair_resolves (dj := demo_django false)
                                   list_state pair = true) before).
  { vm_compute. repeat constructor. }
  assert (Hkey : resolved (dj := demo_django false) list_state (RFilter key)
                 = Ok (VList ["a"; "b"])) by (vm_compute; reflexivity).
  assert (Hval : resolved (dj := demo_django false) list_state (RFilter val)
                 = Ok (VStr "x")) by (vm_compute; reflexivity).
  split; [apply Examples.demo_fresh_dict_stable|].
  split; [exact Hq|]. split; [reflexivity|]. split; [exact Hall|].
  split; [exact Hkey|]. split; [exact Hval|].
  exact (QuerystringNode_render_unhashable (dj := demo_django false)
           self list_state demo_GET before after key val ["a"; "b"] (VStr "x")
           (Examples.demo_fresh_dict_stable false) Hq eq_refl Hall Hkey Hval).
Defined.

(** X14 at work: [{% render_table %}]. *)
Lemma table_tags_raise_witness :
  let e := IndexError "pop from empty list" in
  (∀ arg e', compile_filter (Django := demo_django false) arg = Raise e' →
             is_ValueError e' = false) ∧
  (render_table (dj := demo_django false) (mkToken "render_table" ["render_table"])
   = Raise e ∨
   smart_render_table (dj := demo_django false)
     (mkToken "render_table" ["render_table"]) = Raise e) ∧
  (e = IndexError "pop from empty list" ∨
   ∃ arg, arg ∈ ["render_table"] ∧
          compile_filter (Django := demo_django false) arg = Raise e).
Proof.
  intros e.
  assert (Hcompile : ∀ arg e',
            compile_filter (Django := demo_django false) arg = Raise e' →
            is_ValueError e' = false).
  { intros arg e'. simpl. destruct (is_empty arg); [|discriminate].
    intros [= <-]. reflexivity. }
  assert (Hraise :
            render_table (dj := demo_django false)
              (mkToken "render_table" ["render_table"]) = Raise e ∨
            smart_render_table (dj := demo_django false)
              (mkToken "render_table" ["render_table"]) = Raise e).
  { left. vm_compute. reflexivity. }
  split; [exact Hcompile|]. split; [exact Hraise|].
  exact (table_tags_raise (dj := demo_django false) "render_table"
           ["render_table"] e Hcompile Hraise).
Defined.

(** X15 at work: [{% render_table people %}], where [people] is a query
    set. *)
Lemma table_node_render_not_a_table_witness :
  resolved (dj := demo_django false) demo_state
    (RFilter (mkFilterExpression "people")) = Ok (VObj queryset_loc) ∧
  isinstance (st_heap demo_state) (VObj queryset_loc) Table = false ∧
  let outcome :=
    (if DEBUG (settings (Django := demo_django false))
     then Raise (ValueError "Expected Table object, but didn't find one.")
     else Ok (TEMPLATE_STRING_IF_INVALID (settings (Django := demo_django false))),
     demo_state) in
  RenderTableNode_render (dj := demo_django false)
    (mkRenderTableNode (mkFilterExpression "people") None) demo_state = outcome ∧
  (isinstance (st_heap demo_state) (VObj queryset_loc) QuerySet = false →
   SmartRenderTableNode_render (dj := demo_django false)
     (mkSmartRenderTableNode (mkFilterExpression "people") None None None)
     demo_state = outcome).
Proof.
  assert (Hv : resolved (dj := demo_django false) demo_state
                 (RFilter (mkFilterExpression "people")) = Ok (VObj queryset_loc))
    by (vm_compute; reflexivity).
  assert (Htable : isinstance (st_heap demo_state) (VObj queryset_loc) Table = false)
    by (vm_compute; reflexivity).
  split; [exact Hv|]. split; [exact Htable|].
  exact (table_node_render_not_a_table (dj := demo_django false) demo_state
           (VObj queryset_loc) (mkFilterExpression "people") None None None None
           Hv Htable).
Defined.

(** X16 at work: [{% render_table table %}] in a context without a
    request. *)
Lemma table_node_render_without_request_witness :
  resolved (dj := demo_django true) bare_state
    (RFilter (mkFilterExpression "table")) = Ok (VObj table_loc) ∧
  isinstance (st_heap bare_state) (VObj table_loc) Table = true ∧
  st_context bare_state !! "request" = None ∧
  let outcome :=
    (if DEBUG (settings (Django := demo_django true))
     then Raise (AssertionError request_missing)
     else Ok (TEMPLATE_STRING_IF_INVALID (settings (Django := demo_django true))),
     bare_state) in
  RenderTableNode_render (dj := demo_django true)
    (mkRenderTableNode (mkFilterExpression "table") None) bare_state = outcome ∧
  SmartRenderTableNode_render (dj := demo_django true)
    (mkSmartRenderTableNode (mkFilterExpression "table") None None None)
    bare_state = outcome.
Proof.
  assert (Hv : resolved (dj := demo_django true) bare_state
                 (RFilter (mkFilterExpression "table")) = Ok (VObj table_loc))
    by (vm_compute; reflexivity).
  assert (Htable : isinstance (st_heap bare_state) (VObj table_loc) Table = true)
    by (vm_compute; reflexivity).
  assert (Hrequest : st_context bare_state !! "request" = None)
    by (vm_compute; reflexivity).
  split; [exact Hv|]. split; [exact Htable|]. split; [exact Hrequest|].
  exact (table_node_render_without_request (dj := demo_django true) bare_state
           (VObj table_loc) (mkFilterExpression "table") None None None None
           Hv Htable Hrequest).
Defined.

(** X17 at work: a template that does not render. *)
Lemma table_node_render_never_raises_witness :
  DEBUG (settings (Django := demo_django false)) = false ∧
  ∃ out,
    (table_node_render (dj := demo_django false)
       (NRenderTable demo_render_broken) demo_state).1 = Ok out ∧
    match (table_node_body (dj := demo_django false)
             (NRenderTable demo_render_broken) demo_state).1 with
    | Ok out' => out = out'
    | Raise _ => out = TEMPLATE_STRING_IF_INVALID (settings (Django := demo_django false))
    end.
Proof.
  split; [reflexivity|].
  exact (table_node_render_never_raises (dj := demo_django false)
           (NRenderTable demo_render_broken) demo_state eq_refl).
Defined.

(** [{% smart_render_table table 'grouped.html' %}], with a template that
    assigns into its context. *)
Example smart_render_table_grouped :
  st_context
    (SmartRenderTableNode_render (dj := demo_django false)
       (mkSmartRenderTableNode (mkFilterExpression "table")
          (Some (mkFilterExpression "'grouped.html'")) None None)
       demo_state).2 !! "group"
  = Some (VStr "a").
Proof. vm_compute. reflexivity. Qed.

Example render_table_grouped :
  st_context
    (RenderTableNode_render (dj := demo_django false)
       (mkRenderTableNode (mkFilterExpression "table")
          (Some (mkFilterExpression "'grouped.html'")))
       demo_state).2 !! "group"
  = None.
Proof. vm_compute. reflexivity. Qed.

(** X19 at work: the [request] entry, with a template that assigns to
    [group]. *)
Lemma SmartRenderTableNode_render_context_witness :
  let self := mkSmartRenderTableNode (mkFilterExpression "table")
                (Some (mkFilterExpression "'grouped.html'")) None None in
  "request" ≠ "table" ∧ "request" ≠ "header_template" ∧
  "request" ≠ "row_template" ∧
  st_context (SmartRenderTableNode_prepare (dj := demo_django false)
                self demo_state).2 !! "request"
  = st_context demo_state !! "request" ∧
  (∀ t c h, (template_render (Django := demo_django false) t c h).1.2 !! "request"
            = c !! "request") ∧
  st_context (SmartRenderTableNode_render (dj := demo_django false)
                self demo_state).2 !! "request"
  = st_context demo_state !! "request".
Proof.
  intros self.
  assert (H1 : "request" ≠ "table") by discriminate.
  assert (H2 : "request" ≠ "header_template") by discriminate.
  assert (H3 : "request" ≠ "row_template") by discriminate.
  assert (Htemplate : ∀ t c h,
            (template_render (Django := demo_django false) t c h).1.2 !! "request"
            = c !! "request").
  { intros t c h. simpl. unfold demo_render.
    destruct (String.eqb (template_name t) "broken.html"); [reflexivity|].
    destruct (String.eqb (template_name t) "grouped.html"); [|reflexivity].
    simpl. apply lookup_insert_ne. discriminate. }
  split; [exact H1|]. split; [exact H2|]. split; [exact H3|].
  split; [|split; [exact Htemplate|]].
  - exact (proj1 (SmartRenderTableNode_render_context (dj := demo_django false)
                    self demo_state "request" H1 H2 H3)).
  - exact (proj2 (SmartRenderTableNode_render_context (dj := demo_django false)
                    self demo_state "request" H1 H2 H3) Htemplate).
Defined.

(** X20 at work: [{% smart_render_table people 'grouped.html' %}]
    overwrites the [table] entry of the context with the table made from
    the query set, and the template adds its [group] entry. *)
Lemma SmartRenderTableNode_render_leaves_entries_witness :
  let self := mkSmartRenderTableNode (mkFilterExpression "people")
                (Some (mkFilterExpression "'grouped.html'")) None None in
  let st1 := (SmartRenderTableNode_prepare (dj := demo_django false)
                self demo_state).2 in
  SmartRenderTableNode_prepare (dj := demo_django false) self demo_state
  = (Ok (VObj 5%positive, VObj request_loc, mkTemplate "grouped.html"), st1) ∧
  ∃ header row h,
    let context :=
      <["row_template":=row]>
        (<["header_template":=header]>
           (<["table":=VObj 5%positive]> (st_context demo_state))) in
    st_context st1 = context ∧
    (header_template self = None → header = VNone) ∧
    (row_template self = None → row = VNone) ∧
    st_context (SmartRenderTableNode_render (dj := demo_django false)
                  self demo_state).2
    = (template_render (Django := demo_django false)
         (mkTemplate "grouped.html") context h).1.2.
Proof.
  intros self st1.
  assert (Hprepare :
            SmartRenderTableNode_prepare (dj := demo_django false) self demo_state
            = (Ok (VObj 5%positive, VObj request_loc, mkTemplate "grouped.html"),
               st1))
    by (vm_compute; reflexivity).
  split; [exact Hprepare|].
  exact (SmartRenderTableNode_render_leaves_entries (dj := demo_django false)
           self demo_state st1 _ _ _ Hprepare).
Defined.

(** X21 at work: [{% smart_render_table table %}]. *)
Lemma SmartRenderTableNode_prepare_frame_witness :
  let st1 := (SmartRenderTableNode_prepare (dj := demo_django false)
                demo_smart_render_table demo_state).2 in
  SmartRenderTableNode_prepare (dj := demo_django false)
    demo_smart_render_table demo_state
  = (Ok (VObj table_loc, VObj request_loc, mkTemplate "table.html"), st1) ∧
  st_context demo_state !! "request" = Some (VObj request_loc) ∧
  ∀ l, VObj table_loc ≠ VObj l → st_heap st1 !! l = st_heap demo_state !! l.
Proof.
  intros st1.
  assert (Hprepare :
            SmartRenderTableNode_prepare (dj := demo_django false)
              demo_smart_render_table demo_state
            = (Ok (VObj table_loc, VObj request_loc, mkTemplate "table.html"), st1))
    by (vm_compute; reflexivity).
  split; [exact Hprepare|].
  exact (SmartRenderTableNode_prepare_frame (dj := demo_django false)
           demo_smart_render_table demo_state st1 _ _ _ Hprepare).
Defined.

(** X22 at work: the table of the examples and a template that only reads
    it. *)
Lemma delegate_round_trip_witness :
  st_heap demo_state !! table_loc = Some (OInstance Table demo_table) ∧
  demo_table !! "request" = None ∧
  let h := <[table_loc:=OInstance Table
                          (<["request":=VObj request_loc]> demo_table)]>
             (st_heap demo_state) in
  template_render (Django := demo_django false) (mkTemplate "table.html")
    demo_context h = (Ok "order_by=None page=None", demo_context, h) ∧
  delegate (VObj table_loc) (VObj request_loc)
    (render_template (dj := demo_django false) (mkTemplate "table.html")
       demo_context) demo_state
  = (Ok "order_by=None page=None", demo_state) ∧
  (demo_context = st_context demo_state →
   delegate (VObj table_loc) (VObj request_loc)
     (render_template_in_context (dj := demo_django false)
        (mkTemplate "table.html")) demo_state
   = (Ok "order_by=None page=None", demo_state)).
Proof.
  assert (Hl : st_heap demo_state !! table_loc = Some (OInstance Table demo_table))
    by (vm_compute; reflexivity).
  assert (Hrequest : demo_table !! "request" = None) by (vm_compute; reflexivity).
  split; [exact Hl|]. split; [exact Hrequest|]. intros h.
  assert (Hrender : template_render (Django := demo_django false)
                      (mkTemplate "table.html") demo_context h
                    = (Ok "order_by=None page=None", demo_context, h))
    by (vm_compute; reflexivity).
  split; [exact Hrender|].
  exact (delegate_round_trip (dj := demo_django false) table_loc Table demo_table
           (VObj request_loc) (mkTemplate "table.html") demo_context demo_state
           (Ok "order_by=None page=None") Hl Hrequest Hrender).
Defined.

(** X23 at work: [{% querystring a=1 b=|x c=3 %}], where [|x] does not
    compile. *)
Lemma querystring_compile_error_witness :
  let e := TemplateSyntaxError "Could not parse the remainder" in
  Forall2 (compiles_to (dj := strict_django false)) ["a=1"]
    [(mkFilterExpression "a", mkFilterExpression "1")] ∧
  kwarg_re_groups "b=|x" = Some ("b", "|x") ∧
  (compile_filter (Django := strict_django false) "|x" = Raise e ∨
   raises (compile_filter (Django := strict_django false) "|x") = false ∧
   compile_filter (Django := strict_django false) "b" = Raise e) ∧
  querystring (dj := strict_django false)
    (mkToken "querystring a=1 b=|x c=3" ("querystring" :: ["a=1"] ++ "b=|x" :: ["c=3"]))
  = Raise (match ["c=3"] with
           | [] => e
           | _ :: _ =>
               TemplateSyntaxError ("Malformed arguments to '" +:+ "querystring" +:+ "'")
           end).
Proof.
  intros e.
  assert (Hbefore : Forall2 (compiles_to (dj := strict_django false)) ["a=1"]
                      [(mkFilterExpression "a", mkFilterExpression "1")]).
  { constructor; [|constructor]. exists "a", "1". vm_compute. by repeat split. }
  assert (Hm : kwarg_re_groups "b=|x" = Some ("b", "|x")) by (vm_compute; reflexivity).
  assert (He : compile_filter (Django := strict_django false) "|x" = Raise e ∨
               raises (compile_filter (Django := strict_django false) "|x") = false ∧
               compile_filter (Django := strict_django false) "b" = Raise e).
  { left. vm_compute. reflexivity. }
  split; [exact Hbefore|]. split; [exact Hm|]. split; [exact He|].
  exact (querystring_compile_error (dj := strict_django false)
           "querystring a=1 b=|x c=3" "querystring" "b=|x" "b" "|x" ["a=1"] ["c=3"]
           _ e Hbefore Hm He).
Defined.

(** X24 at work: the request of [/?page=x]. *)
Lemma SmartRenderTableNode_render_invalid_page_witness :
  let q : gmap string (list string) := {[ "page" := ["x"] ]} in
  let e := OtherException "PageNotAnInteger" "" in
  request_GET bad_page_state = Some q ∧
  resolved (dj := strict_django false) bad_page_state
    (RFilter (table_or_queryset demo_smart_render_table)) = Ok (VObj table_loc) ∧
  st_heap bad_page_state !! table_loc = Some (OInstance Table demo_table) ∧
  let ordered := <["order_by":=QueryDict_get q "sort" VNone]> demo_table in
  paginate (Django := strict_django false) ordered
    (QueryDict_get q "page" (VInt 1)) = Raise e ∧
  SmartRenderTableNode_render (dj := strict_django false)
    demo_smart_render_table bad_page_state
  = (if DEBUG (settings (Django := strict_django false)) then Raise e
     else Ok (TEMPLATE_STRING_IF_INVALID (settings (Django := strict_django false))),
     mkState (st_context bad_page_state)
       (<[table_loc:=OInstance Table ordered]> (st_heap bad_page_state))).
Proof.
  intros q e.
  assert (Hq : request_GET bad_page_state = Some q) by (vm_compute; reflexivity).
  assert (Hv : resolved (dj := strict_django false) bad_page_state
                 (RFilter (table_or_queryset demo_smart_render_table))
               = Ok (VObj table_loc)) by (vm_compute; reflexivity).
  assert (Hl : st_heap bad_page_state !! table_loc
               = Some (OInstance Table demo_table)) by (vm_compute; reflexivity).
  split; [exact Hq|]. split; [exact Hv|]. split; [exact Hl|]. intros ordered.
  assert (Hpage : paginate (Django := strict_django false) ordered
                    (QueryDict_get q "page" (VInt 1)) = Raise e)
    by (vm_compute; reflexivity).
  split; [exact Hpage|].
  exact (SmartRenderTableNode_render_invalid_page (dj := strict_django false)
           demo_smart_render_table bad_page_state q table_loc demo_table e
           Hq Hv Hl Hpage).
Defined.

End MoreExamples.
